(** * Engine Deals AI: listing aggregation and deal-scoring pipeline

    A shallow embedding of the Python sources under [engine-deals-ai/]
    ([scrapers/base_scraper.py], [scraper_manager.py], [data/database.py],
    [ml/feature_engineering.py], [ml/model_training.py],
    [scheduler/job_scheduler.py], [notifications/discord_bot.py], [main.py])
    and the properties of the specification that are stated about them,
    followed by further properties read from the code: price extraction,
    the database under sequences of calls, the training query, the scraping
    job, and the scorer after training, saving and loading.

    Conventions.
    - Python [str] values are modelled as [string] (sequences of 8-bit
      characters); [str.lower], [str.isupper] and [str.split] act on the
      ASCII range.
    - A call either returns or raises: [Py.outcome]. Calls into numpy, re,
      json, pandas' date parser and scikit-learn are parameters of the
      model ([External.Lib], [Sklearn.Lib]); what they raise reaches the
      program as [ExternalError].
    - pandas numeric cells are modelled as [option Q]: [None] is NaN and
      arithmetic is exact (rational), so rounding is not modelled.
    - Mutable objects (the database file, the scorer's attributes, the
      artifact files, the log) are passed and returned explicitly. *)

From Stdlib Require Import ZArith QArith Qminmax Qround Bool List Sorted Ascii String Lia Lqa.
From stdpp Require Import base option list sorting gmap strings.

Import ListNotations.
Local Open Scope string_scope.
Local Open Scope Z_scope.

(** ** Python building blocks *)

Module Py.

(** [c.lower()] for one character: only 'A'..'Z' are changed. *)
Definition lower_ascii (c : ascii) : ascii :=
  let n := N_of_ascii c in
  if ((65 <=? n) && (n <=? 90))%N then ascii_of_N (n + 32) else c.

(** [s.lower()] *)
Fixpoint lower (s : string) : string :=
  match s with
  | EmptyString => EmptyString
  | String c s' => String (lower_ascii c) (lower s')
  end.

(** [needle in hay] on strings: [needle] occurs as a contiguous substring. *)
Fixpoint str_in (needle hay : string) : bool :=
  String.prefix needle hay ||
  match hay with
  | EmptyString => false
  | String _ hay' => str_in needle hay'
  end.

(** [any(p(x) for x in xs)] *)
Definition any {A} (p : A -> bool) (xs : list A) : bool := existsb p xs.

(** Truthiness of a string: [not s] holds exactly for the empty string. *)
Definition str_truthy (s : string) : bool :=
  match s with EmptyString => false | _ => true end.

(** [c.isspace()] on the ASCII range. *)
Definition is_space (c : ascii) : bool :=
  let n := N_of_ascii c in
  (((9 <=? n) && (n <=? 13)) || ((28 <=? n) && (n <=? 32)))%N.

(** [len(s.split())]: the number of maximal runs of non-blank characters.
    [in_word] tells whether the previous character belonged to a word. *)
Fixpoint count_words (in_word : bool) (s : string) : nat :=
  match s with
  | EmptyString => O
  | String c s' =>
      if is_space c then count_words false s'
      else if in_word then count_words true s'
      else S (count_words true s')
  end.

Definition word_count (s : string) : nat := count_words false s.

(** The result of a call: a returned value or a raised exception
    (an instance of [Exception], the class that [except Exception] catches). *)
Inductive exn : Type :=
  | ValueError (msg : string)
  | KeyError (key : string)
  | TypeError (msg : string)
  | IntegrityError (msg : string)      (* sqlite3.IntegrityError *)
  | ExternalError (msg : string).      (* raised inside a library or the network *)

Inductive outcome (A : Type) : Type :=
  | Returns (a : A)
  | Raises (e : exn).
Arguments Returns {A} a.
Arguments Raises {A} e.

(** The result of a library call: a value, or an exception of the library's
    own, which reaches the caller as [ExternalError]. *)
Inductive result (A : Type) : Type :=
  | Ok (a : A)
  | Failed (msg : string).
Arguments Ok {A} a.
Arguments Failed {A} msg.

Definition of_lib {A} (r : result A) : outcome A :=
  match r with
  | Ok a => Returns a
  | Failed msg => Raises (ExternalError msg)
  end.

Definition bind {A B} (m : outcome A) (k : A -> outcome B) : outcome B :=
  match m with
  | Returns a => k a
  | Raises e => Raises e
  end.

(** The computation raises no [ValueError]. *)
Definition never_value_error {A} (m : outcome A) : Prop :=
  forall msg, m <> Raises (ValueError msg).

End Py.

Notation "'try!' x ':=' m 'in' k" := (Py.bind m (fun x => k))
  (at level 10, x name, m at level 100, k at level 200).

(** ** config.py *)

Module Config.

Definition GOOD_CONDITION_KEYWORDS : list string :=
  ["rebuilt"; "remanufactured"; "new"; "excellent"; "perfect";
   "low miles"; "fresh rebuild"; "zero miles"; "unused"].

Definition BAD_CONDITION_KEYWORDS : list string :=
  ["spun bearing"; "cracked"; "damaged"; "blown"; "seized";
   "needs work"; "for parts"; "rebuild needed"; "bad"].

Definition HOT_DEAL_THRESHOLD : Q := 0.8%Q.

End Config.

(** ** scrapers/base_scraper.py *)

Module BaseScraper.

(** [extract_condition_keywords(self, text)] *)
Definition extract_condition_keywords (text : string) : list string :=
  if negb (Py.str_truthy text) then []
  else
    let text_lower := Py.lower text in
    let good :=
      List.map (fun keyword => "good_" ++ keyword)
        (List.filter (fun keyword => Py.str_in (Py.lower keyword) text_lower)
           Config.GOOD_CONDITION_KEYWORDS) in
    let bad :=
      List.map (fun keyword => "bad_" ++ keyword)
        (List.filter (fun keyword => Py.str_in (Py.lower keyword) text_lower)
           Config.BAD_CONDITION_KEYWORDS) in
    (good ++ bad)%list.

Definition engine_terms : list string :=
  ["engine"; "motor"; "block"; "head"; "intake"; "crank"; "piston";
   "long block"; "short block"].

Definition exclude_terms : list string :=
  ["boat"; "marine"; "motorcycle"; "lawn"; "generator"; "pump"; "compressor"].

(** [is_relevant_listing(self, title, description="")] *)
Definition is_relevant_listing (title description : string) : bool :=
  let text := Py.lower (title ++ " " ++ description) in
  let has_engine_term := Py.any (fun term => Py.str_in term text) engine_terms in
  if has_engine_term then
    let has_exclude_term := Py.any (fun term => Py.str_in term text) exclude_terms in
    if negb has_exclude_term then true else false
  else false.

(** [c] is one of '0'..'9', the characters that [\d] matches in ASCII text. *)
Definition is_digit (c : ascii) : bool :=
  let n := N_of_ascii c in ((48 <=? n) && (n <=? 57))%N.

Definition is_dot (c : ascii) : bool := (N_of_ascii c =? 46)%N.

Definition is_comma (c : ascii) : bool := (N_of_ascii c =? 44)%N.

(** Keeps the characters that satisfy [keep]. *)
Fixpoint keep_chars (keep : ascii -> bool) (s : string) : string :=
  match s with
  | EmptyString => EmptyString
  | String c s' => if keep c then String c (keep_chars keep s') else keep_chars keep s'
  end.

(** [re.sub(r'[^\d.,]', '', price_text.replace(',', ''))] *)
Definition price_clean (price_text : string) : string :=
  keep_chars (fun c => is_digit c || is_dot c || is_comma c)
    (keep_chars (fun c => negb (is_comma c)) price_text).

(** The number written by a run of decimal digits; [None] when another
    character occurs. *)
Fixpoint digits_value (acc : Z) (s : string) : option Z :=
  match s with
  | EmptyString => Some acc
  | String c s' =>
      if is_digit c
      then digits_value (10 * acc + (Z.of_N (N_of_ascii c) - 48)) s'
      else None
  end.

(** [s.partition('.')]: the text before the first dot and, when there is a
    dot, the text after it. *)
Fixpoint split_dot (s : string) : string * option string :=
  match s with
  | EmptyString => (EmptyString, None)
  | String c s' =>
      if is_dot c then (EmptyString, Some s')
      else let '(before, after) := split_dot s' in (String c before, after)
  end.

(** [float(s)] on the texts that [price_clean] produces, which hold digits
    and dots only: digits, optionally one dot, digits, with a digit on one
    side at least; every other text raises [ValueError]. The value is the
    decimal number written, of which the Python float is the nearest
    double. *)
Definition float_decimal (s : string) : Py.outcome Q :=
  let '(int_part, after) := split_dot s in
  let frac_part := default EmptyString after in
  if (String.length int_part + String.length frac_part =? 0)%nat
  then Py.Raises (Py.ValueError "could not convert string to float")
  else
    match digits_value 0 int_part, digits_value 0 frac_part with
    | Some i, Some f =>
        Py.Returns (inject_Z i
                    + inject_Z f / inject_Z (10 ^ Z.of_nat (String.length frac_part)))%Q
    | _, _ => Py.Raises (Py.ValueError "could not convert string to float")
    end.

(** [extract_price(self, price_text)]; [None] is a missing price text. *)
Definition extract_price (price_text : option string) : Py.outcome (option Q) :=
  match price_text with
  | None => Py.Returns None
  | Some price_text =>
      if negb (Py.str_truthy price_text) then Py.Returns None
      else
        match float_decimal (price_clean price_text) with
        | Py.Returns v => Py.Returns (Some v)
        | Py.Raises (Py.ValueError _) => Py.Returns None
        | Py.Raises (Py.TypeError _) => Py.Returns None
        | Py.Raises e => Py.Raises e
        end
  end.

(** [sum(1 for c in s if p(c))] *)
Fixpoint count_chars (p : ascii -> bool) (s : string) : nat :=
  match s with
  | EmptyString => O
  | String c s' => if p c then S (count_chars p s') else count_chars p s'
  end.

End BaseScraper.

(** ** pandas data frames

    A [DataFrame] is an ordered list of named columns of equal length.
    Numeric columns (float, int and bool dtypes alike) hold [option Q] cells,
    [None] being NaN; string columns hold [option string] cells, [None] being
    a missing value; the [condition_keywords] column holds lists of
    strings. *)

Module Pandas.

Inductive Column : Type :=
  | NumCol (xs : list (option Q))
  | StrCol (xs : list (option string))
  | ObjCol (xs : list (list string)).

Definition DataFrame : Type := list (string * Column).

Definition col_len (c : Column) : nat :=
  match c with
  | NumCol xs => length xs
  | StrCol xs => length xs
  | ObjCol xs => length xs
  end.

(** [df.columns] *)
Definition columns (df : DataFrame) : list string := List.map fst df.

(** [name in df.columns] *)
Definition has_column (df : DataFrame) (name : string) : bool :=
  existsb (String.eqb name) (columns df).

Fixpoint lookup_col (df : DataFrame) (name : string) : option Column :=
  match df with
  | [] => None
  | (n, c) :: df' => if String.eqb name n then Some c else lookup_col df' name
  end.

(** [df[name]]: raises [KeyError] when the column does not exist. *)
Definition get (df : DataFrame) (name : string) : Py.outcome Column :=
  match lookup_col df name with
  | Some c => Py.Returns c
  | None => Py.Raises (Py.KeyError name)
  end.

(** [df[name] = c]: overwrites the column in place, or appends a new one. *)
Fixpoint set (df : DataFrame) (name : string) (c : Column) : DataFrame :=
  match df with
  | [] => [(name, c)]
  | (n, c0) :: df' =>
      if String.eqb name n then (n, c) :: df' else (n, c0) :: set df' name c
  end.

(** [df[names]] with a list of names: every name must be a column. *)
Fixpoint select (df : DataFrame) (names : list string) : Py.outcome DataFrame :=
  match names with
  | [] => Py.Returns []
  | n :: names' =>
      try! c := get df n in
      try! rest := select df names' in
      Py.Returns ((n, c) :: rest)
  end.

(** [len(df)]: the number of rows. *)
Definition len (df : DataFrame) : nat :=
  match df with
  | [] => O
  | (_, c) :: _ => col_len c
  end.

(** Reading a column at the dtype an operation needs; pandas raises when the
    column holds values of another kind. *)
Definition get_num (df : DataFrame) (name : string) : Py.outcome (list (option Q)) :=
  try! c := get df name in
  match c with
  | NumCol xs => Py.Returns xs
  | _ => Py.Raises (Py.TypeError name)
  end.

Definition get_str (df : DataFrame) (name : string) : Py.outcome (list (option string)) :=
  try! c := get df name in
  match c with
  | StrCol xs => Py.Returns xs
  | _ => Py.Raises (Py.TypeError name)
  end.

(** [s.str.len()]: NaN for a missing string. *)
Definition str_len (xs : list (option string)) : list (option Q) :=
  List.map (fun x => (fun s => inject_Z (Z.of_nat (String.length s))) <$> x) xs.

(** [s.str.split().str.len()] *)
Definition str_word_count (xs : list (option string)) : list (option Q) :=
  List.map (fun x => (fun s => inject_Z (Z.of_nat (Py.word_count s))) <$> x) xs.

(** Elementwise arithmetic; NaN operands give NaN. *)
Definition lift2 (f : Q -> Q -> Q) (x y : option Q) : option Q :=
  match x, y with
  | Some a, Some b => Some (f a b)
  | _, _ => None
  end.

Definition map2_num (f : Q -> Q -> Q) (xs ys : list (option Q)) : list (option Q) :=
  List.map (fun xy => lift2 f (fst xy) (snd xy)) (List.combine xs ys).

(** [s.fillna('')] on a string column. *)
Definition fillna_str (xs : list (option string)) : list (option string) :=
  List.map (fun x => Some (default "" x)) xs.

(** [s.unique()]: the distinct values in order of first appearance. *)
Fixpoint unique (xs : list (option string)) : list (option string) :=
  match xs with
  | [] => []
  | x :: xs' =>
      x :: List.filter (fun y => negb (bool_decide (y = x))) (unique xs')
  end.

(** Keeps the cells of the rows selected by a boolean mask. *)
Fixpoint mask_list {A} (mask : list bool) (xs : list A) : list A :=
  match mask, xs with
  | b :: mask', x :: xs' => if b then x :: mask_list mask' xs' else mask_list mask' xs'
  | _, _ => []
  end.

Definition mask_col (mask : list bool) (c : Column) : Column :=
  match c with
  | NumCol xs => NumCol (mask_list mask xs)
  | StrCol xs => StrCol (mask_list mask xs)
  | ObjCol xs => ObjCol (mask_list mask xs)
  end.

(** [df[mask]] *)
Definition mask_rows (mask : list bool) (df : DataFrame) : DataFrame :=
  List.map (fun nc => (fst nc, mask_col mask (snd nc))) df.

(** [np.clip(x, lo, hi)] on one cell; NaN stays NaN. *)
Definition clip (lo hi : Q) (x : option Q) : option Q :=
  (fun v => Qmin (Qmax v lo) hi) <$> x.

(** [df.fillna(0)]. A missing string becomes the number 0 in an object
    column; it is written ["0"] here, which converts to the same float. *)
Definition fillna0_col (c : Column) : Column :=
  match c with
  | NumCol xs => NumCol (List.map (fun x => Some (default 0%Q x)) xs)
  | StrCol xs => StrCol (List.map (fun x => Some (default "0" x)) xs)
  | ObjCol xs => ObjCol xs
  end.

Definition fillna0 (df : DataFrame) : DataFrame :=
  List.map (fun nc => (fst nc, fillna0_col (snd nc))) df.

(** Every column has [n] cells. *)
Definition rect (n : nat) (df : DataFrame) : Prop :=
  Forall (fun nc => col_len (snd nc) = n) df.

End Pandas.

(** ** Library functions

    Functions of numpy, re, json and pandas that the feature engineer calls
    and whose results are not computed here. *)

Module External.

Record Lib : Type := mkLib {
  log1p : Q -> Q;                              (* numpy.log1p *)
  re_search : string -> string -> bool;        (* re.search(pattern, text, re.I) is not None *)
  json_loads : string -> Py.result (list string);
  parse_datetime : string -> Py.result Q;      (* pandas.to_datetime, seconds since the epoch *)
  random_draw : string -> nat -> Q;            (* numpy.random after seed(42): column, row *)
  std_positive : list (option Q) -> bool       (* pandas Series.std() > 0, in floating point *)
}.

End External.

(** ** ml/feature_engineering.py *)

Module FeatureEngineer.

Definition city_distances : list (string * Z) :=
  [("new york", 0); ("nyc", 0); ("manhattan", 0); ("brooklyn", 10);
   ("philadelphia", 95); ("boston", 215); ("washington", 225);
   ("chicago", 790); ("detroit", 640); ("atlanta", 870);
   ("miami", 1280); ("houston", 1630); ("dallas", 1550);
   ("los angeles", 2800); ("san francisco", 2900); ("seattle", 2900)].

Definition state_distances : list (string * Z) :=
  [("ny", 100); ("nj", 50); ("ct", 100); ("pa", 150); ("ma", 200);
   ("md", 250); ("va", 350); ("nc", 500); ("sc", 650); ("ga", 850);
   ("fl", 1200); ("oh", 500); ("mi", 650); ("il", 800); ("in", 700);
   ("tx", 1600); ("ca", 2800); ("wa", 2900); ("or", 2800)].

(** [for key, distance in table.items(): if key in text: return distance] *)
Fixpoint first_match (table : list (string * Z)) (text : string) : option Z :=
  match table with
  | [] => None
  | (key, distance) :: table' =>
      if Py.str_in key text then Some distance else first_match table' text
  end.

(** [_estimate_distance(self, location)]; [None] is a missing location. *)
Definition _estimate_distance (location : option string) : Z :=
  match location with
  | None => 500
  | Some location =>
      if negb (Py.str_truthy location) then 500
      else
        let location_lower := Py.lower location in
        match first_match city_distances location_lower with
        | Some distance => distance
        | None =>
            match first_match state_distances location_lower with
            | Some distance => distance
            | None => 300
            end
        end
  end.

Definition bool_to_int (b : bool) : Q := if b then 1%Q else 0%Q.

(** One cell of [(col < bound).astype(int)]; a comparison with NaN is false. *)
Definition lt_flag (bound : Q) (x : option Q) : option Q :=
  Some (bool_to_int (match x with
                     | Some d => if Qlt_le_dec d bound then true else false
                     | None => false
                     end)).

(** One cell of [col > bound] (a bool column). *)
Definition gt_flag (bound : Q) (x : option Q) : option Q :=
  Some (bool_to_int (match x with
                     | Some d => if Qlt_le_dec bound d then true else false
                     | None => false
                     end)).

(** [_create_location_features(self, df)] *)
Definition _create_location_features (df : Pandas.DataFrame)
  : Py.outcome Pandas.DataFrame :=
  try! location := Pandas.get_str df "location" in
  let estimated_distance :=
    List.map (fun l => Some (inject_Z (_estimate_distance l))) location in
  let df := Pandas.set df "estimated_distance" (Pandas.NumCol estimated_distance) in
  let df := Pandas.set df "is_local"
              (Pandas.NumCol (List.map (lt_flag 100) estimated_distance)) in
  let df := Pandas.set df "is_regional"
              (Pandas.NumCol (List.map (lt_flag 300) estimated_distance)) in
  let df := Pandas.set df "has_specific_location"
              (Pandas.NumCol (List.map (gt_flag 5) (Pandas.str_len location))) in
  let df := Pandas.set df "location_word_count"
              (Pandas.NumCol (Pandas.str_word_count location)) in
  Py.Returns df.

(** One cell of [col >= bound]. *)
Definition ge_flag (bound : Q) (x : option Q) : option Q :=
  Some (bool_to_int (match x with
                     | Some d => if Qlt_le_dec d bound then false else true
                     | None => false
                     end)).

(** [c.isupper()] on the ASCII range. *)
Definition is_upper (c : ascii) : bool :=
  let n := N_of_ascii c in ((65 <=? n) && (n <=? 90))%N.

Fixpoint count_upper (s : string) : nat :=
  match s with
  | EmptyString => O
  | String c s' => if is_upper c then S (count_upper s') else count_upper s'
  end.

(** [_caps_ratio(self, text)] *)
Definition _caps_ratio (text : option string) : Q :=
  match text with
  | None => 0
  | Some text =>
      if negb (Py.str_truthy text) then 0
      else inject_Z (Z.of_nat (count_upper text)) / inject_Z (Z.of_nat (String.length text))
  end.

(** [df['title'] + ' ' + df['description'].fillna('')] *)
Definition text_combined (title description : list (option string))
  : list (option string) :=
  List.map (fun td =>
              match fst td with
              | Some t => Some (t ++ " " ++ default "" (snd td))
              | None => None
              end)
    (List.combine title description).

Definition platform_scores : list (string * Q) :=
  [("ebay", 0.8%Q); ("craigslist", 0.6%Q); ("facebook", 0.7%Q); ("offerup", 0.6%Q)].

Fixpoint dict_get {V} (d : list (string * V)) (k : string) : option V :=
  match d with
  | [] => None
  | (k', v) :: d' => if String.eqb k k' then Some v else dict_get d' k
  end.

(** [f'platform_{platform}'] *)
Definition platform_column (p : option string) : string :=
  "platform_" ++ default "None" p.

Section Features.

Variable ext : External.Lib.

(** [text.str.contains(pattern, case=False, na=False).astype(int)] *)
Definition contains_flag (pattern : string) (text : list (option string))
  : list (option Q) :=
  List.map (fun t => Some (bool_to_int
                             match t with
                             | Some s => External.re_search ext pattern s
                             | None => false
                             end)) text.

(** [_create_text_features(self, df)] *)
Definition _create_text_features (df : Pandas.DataFrame)
  : Py.outcome Pandas.DataFrame :=
  try! title := Pandas.get_str df "title" in
  let df := Pandas.set df "title_length" (Pandas.NumCol (Pandas.str_len title)) in
  let df := Pandas.set df "title_word_count"
              (Pandas.NumCol (Pandas.str_word_count title)) in
  try! description := Pandas.get_str df "description" in
  let description_length := Pandas.str_len (Pandas.fillna_str description) in
  let df := Pandas.set df "description_length" (Pandas.NumCol description_length) in
  let df := Pandas.set df "description_word_count"
              (Pandas.NumCol (Pandas.str_word_count (Pandas.fillna_str description))) in
  let df := Pandas.set df "has_description"
              (Pandas.NumCol (List.map (gt_flag 0) description_length)) in
  let df := Pandas.set df "title_caps_ratio"
              (Pandas.NumCol (List.map (fun t => Some (_caps_ratio t)) title)) in
  let df := Pandas.set df "description_caps_ratio"
              (Pandas.NumCol (List.map (fun t => Some (_caps_ratio t))
                                (Pandas.fillna_str description))) in
  let df := Pandas.set df "has_part_number"
              (Pandas.NumCol (contains_flag "\b\d{4,}\b" title)) in
  let df := Pandas.set df "has_year"
              (Pandas.NumCol (contains_flag "\b(?:19|20)\d{2}\b" title)) in
  let df := Pandas.set df "has_mileage"
              (Pandas.NumCol (contains_flag "\b\d+k?\s*(?:miles?|mi)\b" title)) in
  Py.Returns df.

(** The [condition_keywords] cell as a list: JSON text is decoded, a list is
    kept, anything else gives the empty list. *)
Fixpoint parse_all (xs : list (option string)) : Py.outcome (list (list string)) :=
  match xs with
  | [] => Py.Returns []
  | x :: xs' =>
      try! k := match x with
                | Some s => Py.of_lib (External.json_loads ext s)
                | None => Py.Returns []
                end in
      try! ks := parse_all xs' in
      Py.Returns (k :: ks)
  end.

Definition parse_keywords (c : Pandas.Column) : Py.outcome (list (list string)) :=
  match c with
  | Pandas.ObjCol xs => Py.Returns xs
  | Pandas.StrCol xs => parse_all xs
  | Pandas.NumCol xs => Py.Returns (List.map (fun _ => []) xs)
  end.

(** [sum(1 for k in keywords if k.startswith(tag))] *)
Definition count_tagged (tag : string) (keywords : list string) : Z :=
  Z.of_nat (length (List.filter (String.prefix tag) keywords)).

(** [_create_condition_features(self, df)] *)
Definition _create_condition_features (df : Pandas.DataFrame)
  : Py.outcome Pandas.DataFrame :=
  try! condition_keywords := Pandas.get df "condition_keywords" in
  try! parsed := parse_keywords condition_keywords in
  let df := Pandas.set df "condition_keywords_parsed" (Pandas.ObjCol parsed) in
  let good := List.map (fun k => Some (inject_Z (count_tagged "good_" k))) parsed in
  let bad := List.map (fun k => Some (inject_Z (count_tagged "bad_" k))) parsed in
  let df := Pandas.set df "good_condition_count" (Pandas.NumCol good) in
  let df := Pandas.set df "bad_condition_count" (Pandas.NumCol bad) in
  let df := Pandas.set df "condition_score"
              (Pandas.NumCol (Pandas.map2_num Qminus good bad)) in
  try! title := Pandas.get_str df "title" in
  try! description := Pandas.get_str df "description" in
  let text := text_combined title description in
  let df := Pandas.set df "is_rebuilt"
              (Pandas.NumCol (contains_flag "rebuilt|remanufactured" text)) in
  let df := Pandas.set df "is_new" (Pandas.NumCol (contains_flag "\bnew\b" text)) in
  let df := Pandas.set df "needs_work"
              (Pandas.NumCol (contains_flag "needs work|for parts|repair" text)) in
  let df := Pandas.set df "low_miles"
              (Pandas.NumCol (contains_flag "low miles|zero miles" text)) in
  Py.Returns df.

(** [_create_platform_features(self, df)] *)
Definition _create_platform_features (df : Pandas.DataFrame)
  : Py.outcome Pandas.DataFrame :=
  try! platform := Pandas.get_str df "platform" in
  let platforms := Pandas.unique platform in
  let df :=
    fold_left
      (fun df p =>
         Pandas.set df (platform_column p)
           (Pandas.NumCol
              (List.map (fun x => Some (bool_to_int
                                          match p, x with
                                          | Some a, Some b => String.eqb b a
                                          | _, _ => false
                                          end)) platform)))
      platforms df in
  let df := Pandas.set df "platform_reliability"
              (Pandas.NumCol
                 (List.map (fun x => Some (default 0.5%Q (x ≫= dict_get platform_scores)))
                    platform)) in
  Py.Returns df.

(** [pd.to_datetime(df['scraped_at'])] *)
Fixpoint parse_dates (xs : list (option string)) : Py.outcome (list (option Q)) :=
  match xs with
  | [] => Py.Returns []
  | x :: xs' =>
      try! t := match x with
                | Some s =>
                    try! q := Py.of_lib (External.parse_datetime ext s) in
                    Py.Returns (Some q)
                | None => Py.Returns None
                end in
      try! ts := parse_dates xs' in
      Py.Returns (t :: ts)
  end.

Definition to_datetime (c : Pandas.Column) : Py.outcome (list (option Q)) :=
  match c with
  | Pandas.NumCol xs => Py.Returns xs
  | Pandas.StrCol xs => parse_dates xs
  | Pandas.ObjCol _ => Py.Raises (Py.TypeError "scraped_at")
  end.

Definition hour_of (t : Q) : Q := inject_Z (Qfloor (t / 3600) mod 24).

(** Monday is 0; the epoch fell on a Thursday. *)
Definition dayofweek_of (t : Q) : Q := inject_Z ((Qfloor (t / 86400) + 3) mod 7).

(** [_create_temporal_features(self, df)]; [now0] and [now1] are the two
    readings of [pd.Timestamp.now()]. *)
Definition _create_temporal_features (now0 now1 : Q) (df : Pandas.DataFrame)
  : Py.outcome Pandas.DataFrame :=
  let df :=
    if negb (Pandas.has_column df "scraped_at")
    then Pandas.set df "scraped_at"
           (Pandas.NumCol (repeat (Some now0) (Pandas.len df)))
    else df in
  try! raw := Pandas.get df "scraped_at" in
  try! scraped_at := to_datetime raw in
  let df := Pandas.set df "scraped_at" (Pandas.NumCol scraped_at) in
  let df := Pandas.set df "hour_scraped"
              (Pandas.NumCol (List.map (fmap hour_of) scraped_at)) in
  let day_of_week := List.map (fmap dayofweek_of) scraped_at in
  let df := Pandas.set df "day_of_week" (Pandas.NumCol day_of_week) in
  let df := Pandas.set df "is_weekend"
              (Pandas.NumCol (List.map (ge_flag 5) day_of_week)) in
  let df := Pandas.set df "hours_since_scraped"
              (Pandas.NumCol (List.map (fmap (fun t => ((now1 - t) / 3600)%Q)) scraped_at)) in
  Py.Returns df.

(** [_create_engine_features(self, df)] *)
Definition _create_engine_features (df : Pandas.DataFrame)
  : Py.outcome Pandas.DataFrame :=
  try! title := Pandas.get_str df "title" in
  try! description := Pandas.get_str df "description" in
  let text := text_combined title description in
  let flag name pattern df :=
    Pandas.set df name (Pandas.NumCol (contains_flag pattern text)) in
  let df := flag "is_lq4" "\blq4\b" df in
  let df := flag "is_ls_engine" "\bls[0-9]?\b" df in
  let df := flag "is_vortec" "vortec" df in
  let df := flag "is_chevy" "chevy|chevrolet" df in
  let df := flag "is_v8" "\bv8\b" df in
  let df := flag "has_53_displacement" "5\.3|5300" df in
  let df := flag "has_60_displacement" "6\.0|6000" df in
  let df := flag "has_48_displacement" "4\.8|4800" df in
  let df := flag "is_complete_engine" "complete engine|long block" df in
  let df := flag "is_short_block" "short block" df in
  let df := flag "is_heads" "heads|cylinder head" df in
  let df := flag "is_intake" "intake" df in
  let df := flag "is_block" "\bblock\b" df in
  try! is_lq4 := Pandas.get_num df "is_lq4" in
  try! is_ls_engine := Pandas.get_num df "is_ls_engine" in
  try! is_chevy := Pandas.get_num df "is_chevy" in
  try! is_v8 := Pandas.get_num df "is_v8" in
  try! has_60_displacement := Pandas.get_num df "has_60_displacement" in
  let times (k : Q) := List.map (fmap (fun v : Q => (v * k)%Q)) in
  let lq4_priority_score :=
    Pandas.map2_num Qplus
      (Pandas.map2_num Qplus
         (Pandas.map2_num Qplus
            (Pandas.map2_num Qplus (times 3%Q is_lq4) (times 2%Q is_ls_engine))
            (times 1%Q is_chevy))
         (times 1%Q is_v8))
      (times 2%Q has_60_displacement) in
  let df := Pandas.set df "lq4_priority_score" (Pandas.NumCol lq4_priority_score) in
  Py.Returns df.

(** [create_features(self, df)] *)
Definition create_features (now0 now1 : Q) (df : Pandas.DataFrame)
  : Py.outcome Pandas.DataFrame :=
  try! price := Pandas.get_num df "price" in
  let df := Pandas.set df "log_price"
              (Pandas.NumCol
                 (List.map (fun p => Some (External.log1p ext (default 0%Q p))) price)) in
  try! title := Pandas.get_str df "title" in
  let df := Pandas.set df "price_per_word"
              (Pandas.NumCol
                 (Pandas.map2_num Qdiv price
                    (List.map (fmap (fun n : Q => (n + 1)%Q)) (Pandas.str_word_count title)))) in
  try! df := _create_text_features df in
  try! df := _create_condition_features df in
  try! df := _create_location_features df in
  try! df := _create_platform_features df in
  try! df := _create_temporal_features now0 now1 df in
  try! df := _create_engine_features df in
  Py.Returns df.

End Features.

(** *** The distance tiers in the words of the specification

    An exact city match, else a state-abbreviation match, else 300 miles:
    the location is read as its comma-separated parts, without the blanks
    around them and in lower case, and a table entry matches when its key is
    one of the parts. *)

(** [s.split(sep)] *)
Fixpoint split_on (sep : ascii) (s : string) : list string :=
  match s with
  | EmptyString => [EmptyString]
  | String c s' =>
      if Ascii.eqb c sep then EmptyString :: split_on sep s'
      else match split_on sep s' with
           | part :: parts => String c part :: parts
           | [] => [String c EmptyString]
           end
  end.

(** [s.lstrip(' ')] *)
Fixpoint lstrip (s : string) : string :=
  match s with
  | String c s' => if Ascii.eqb c " " then lstrip s' else s
  | EmptyString => EmptyString
  end.

(** [s.rstrip(' ')] *)
Fixpoint rstrip (s : string) : string :=
  match s with
  | EmptyString => EmptyString
  | String c s' =>
      match rstrip s' with
      | EmptyString => if Ascii.eqb c " " then EmptyString else String c EmptyString
      | rest => String c rest
      end
  end.

Definition location_parts (location : string) : list string :=
  List.map (fun part => Py.lower (lstrip (rstrip part))) (split_on "," location).

(** The first table entry whose key is one of the parts. *)
Fixpoint exact_match (table : list (string * Z)) (parts : list string) : option Z :=
  match table with
  | [] => None
  | (key, distance) :: table' =>
      if existsb (String.eqb key) parts then Some distance
      else exact_match table' parts
  end.

Definition claimed_distance (location : option string) : Z :=
  match location with
  | None => 500
  | Some location =>
      if negb (Py.str_truthy location) then 500
      else
        let parts := location_parts location in
        match exact_match city_distances parts with
        | Some distance => distance
        | None =>
            match exact_match state_distances parts with
            | Some distance => distance
            | None => 300
            end
        end
  end.

End FeatureEngineer.

(** ** Listings

    A scraped listing is a Python [dict]. Keys that every adapter sets are
    plain fields; keys read with [dict.get] or added later ([id],
    [deal_score], [is_hot_deal]) are optional. *)

Record Listing : Type := mkListing {
  platform : string;
  title : string;
  description : option string;
  price : option Q;
  location : option string;
  seller_name : option string;
  url : string;
  image_urls : option (list string);
  condition_keywords : option (list string);
  id : option Z;
  deal_score : option Q;
  is_hot_deal : option bool
}.

Definition set_id (l : Listing) (i : Z) : Listing :=
  mkListing (platform l) (title l) (description l) (price l) (location l)
    (seller_name l) (url l) (image_urls l) (condition_keywords l)
    (Some i) (deal_score l) (is_hot_deal l).

(** A log record written through [logging]. *)
Inductive LogRecord : Type :=
  | LogInfo (msg : string)
  | LogWarning (msg : string)
  | LogError (msg : string).

(** ** scraper_manager.py *)

Module ScraperManager.

(** An adapter: [scrape_listings(search_terms, max_pages)] either returns the
    listings it found or raises. *)
Definition Scraper : Type := list string -> Z -> Py.outcome (list Listing).

(** [self.scrapers]: a [dict] from platform name to adapter, iterated in
    insertion order. *)
Definition Scrapers : Type := list (string * Scraper).

Record State : Type := mkState {
  all_listings : list Listing;
  called : list string;          (* adapters invoked so far, in order *)
  log : list LogRecord
}.

(** One iteration of the loop of [scrape_all_platforms]: the [try] body and
    its [except Exception: ... continue] handler. *)
Definition scrape_one (SEARCH_TERMS : list string) (MAX_PAGES_PER_SITE : Z)
    (st : State) (entry : string * Scraper) : State :=
  let '(platform_name, scraper) := entry in
  let log1 := (log st ++ [LogInfo ("Scraping " ++ platform_name)])%list in
  let called1 := (called st ++ [platform_name])%list in
  match scraper SEARCH_TERMS MAX_PAGES_PER_SITE with
  | Py.Returns listings =>
      mkState (all_listings st ++ listings)%list called1
        (log1 ++ [LogInfo ("Found listings on " ++ platform_name)])%list
  | Py.Raises e =>
      mkState (all_listings st) called1
        (log1 ++ [LogError ("Error scraping " ++ platform_name)])%list
  end.

(** [scrape_all_platforms(self)] *)
Definition scrape_all_platforms (SEARCH_TERMS : list string)
    (MAX_PAGES_PER_SITE : Z) (scrapers : Scrapers) : Py.outcome State :=
  let st := fold_left (scrape_one SEARCH_TERMS MAX_PAGES_PER_SITE) scrapers
              (mkState [] [] []) in
  Py.Returns (mkState (all_listings st) (called st)
                (log st ++ [LogInfo "Total listings scraped"])%list).

(** What one adapter contributes to the combined result. *)
Definition contribution (SEARCH_TERMS : list string) (MAX_PAGES_PER_SITE : Z)
    (entry : string * Scraper) : list Listing :=
  match snd entry SEARCH_TERMS MAX_PAGES_PER_SITE with
  | Py.Returns listings => listings
  | Py.Raises _ => []
  end.

(** [platform_name in self.scrapers] and [self.scrapers[platform_name]] *)
Definition lookup_scraper (scrapers : Scrapers) (platform_name : string)
  : option Scraper :=
  FeatureEngineer.dict_get scrapers platform_name.

(** [scrape_platform(self, platform_name)]: the state holds the adapters
    invoked and the log; nothing catches what the adapter raises. *)
Definition scrape_platform (SEARCH_TERMS : list string) (MAX_PAGES_PER_SITE : Z)
    (scrapers : Scrapers) (platform_name : string) (st : State)
  : State * Py.outcome (list Listing) :=
  match lookup_scraper scrapers platform_name with
  | None => (st, Py.Raises (Py.ValueError ("Unknown platform: " ++ platform_name)))
  | Some scraper =>
      let log1 := (log st ++ [LogInfo ("Scraping " ++ platform_name)])%list in
      let called1 := (called st ++ [platform_name])%list in
      match scraper SEARCH_TERMS MAX_PAGES_PER_SITE with
      | Py.Returns listings =>
          (mkState (all_listings st) called1
             (log1 ++ [LogInfo ("Found listings on " ++ platform_name)])%list,
           Py.Returns listings)
      | Py.Raises e => (mkState (all_listings st) called1 log1, Py.Raises e)
      end
  end.

Definition test_terms : list string :=
  ["Chevy V8 engine"; "LS engine"; "engine block"].

(** One iteration of the loop of [test_scrapers]; [results] is the dict
    being filled. *)
Definition test_one (results : gmap string bool) (entry : string * Scraper)
  : gmap string bool :=
  let '(platform_name, scraper) := entry in
  match scraper test_terms 1 with
  | Py.Returns listings => <[platform_name := (0 <? length listings)%nat]> results
  | Py.Raises _ => <[platform_name := false]> results
  end.

(** [test_scrapers(self)] *)
Definition test_scrapers (scrapers : Scrapers) : Py.outcome (gmap string bool) :=
  Py.Returns (fold_left test_one scrapers ∅).

End ScraperManager.

(** ** data/database.py

    The SQLite file is modelled by its three tables. [listings.url] is
    declared [UNIQUE] and [listings.id] is [INTEGER PRIMARY KEY
    AUTOINCREMENT]; the JSON text of [image_urls] and [condition_keywords] is
    kept as the list it encodes, and timestamps are seconds since the epoch. *)

Module DatabaseManager.

Record ListingRow : Type := mkListingRow {
  l_id : Z;
  l_platform : string;
  l_title : string;
  l_description : option string;
  l_price : option Q;
  l_location : option string;
  l_seller_name : option string;
  l_url : string;
  l_image_urls : list string;
  l_condition_keywords : list string;
  l_scraped_at : Z;
  l_is_active : bool;
  l_deal_score : option Q;
  l_is_hot_deal : bool
}.

Record TrainingRow : Type := mkTrainingRow {
  t_id : Z;
  t_listing_id : Z;
  t_is_good_deal : option bool;
  t_user_rating : option Z;
  t_notes : option string;
  t_created_at : Z
}.

Record NotificationRow : Type := mkNotificationRow {
  n_id : Z;
  n_listing_id : Z;
  n_notification_type : string;
  n_sent_at : Z;
  n_success : bool
}.

Record DB : Type := mkDB {
  listings : list ListingRow;
  listings_seq : Z;                 (* sqlite_sequence entry of [listings] *)
  training_data : list TrainingRow;
  training_seq : Z;
  notifications : list NotificationRow;
  notifications_seq : Z
}.

(** [init_database] on a new file: three empty tables. *)
Definition init_database : DB := mkDB [] 0 [] 0 [] 0.

Definition max_rowid (rows : list ListingRow) : Z :=
  fold_right (fun r m => Z.max (l_id r) m) 0 rows.

(** The rowid that AUTOINCREMENT hands to the next [INSERT]. *)
Definition next_rowid (db : DB) : Z :=
  Z.max (listings_seq db) (max_rowid (listings db)) + 1.

Definition url_taken (db : DB) (u : string) : bool :=
  existsb (fun r => String.eqb (l_url r) u) (listings db).

(** [cursor.execute('INSERT OR IGNORE INTO listings ... VALUES (...)')] on a
    connection opened for this call. The result is the new database and the
    connection's [last_insert_rowid], which starts at 0 and changes only when
    a row is stored. A row whose [url] is already present violates the
    [UNIQUE] constraint and is skipped without an error ([OR IGNORE]); the
    sequence advances in both cases. *)
Definition execute_insert_or_ignore (now : Z) (db : DB) (listing_data : Listing)
  : Py.outcome (DB * Z) :=
  let last_insert_rowid := 0 in
  let rowid := next_rowid db in
  if url_taken db (url listing_data) then
    Py.Returns
      (mkDB (listings db) rowid (training_data db) (training_seq db)
         (notifications db) (notifications_seq db),
       last_insert_rowid)
  else
    let row :=
      mkListingRow rowid (platform listing_data) (title listing_data)
        (Some (default "" (description listing_data)))
        (price listing_data)
        (Some (default "" (location listing_data)))
        (Some (default "" (seller_name listing_data)))
        (url listing_data)
        (default [] (image_urls listing_data))
        (default [] (condition_keywords listing_data))
        now true None false in
    Py.Returns
      (mkDB (listings db ++ [row]) rowid (training_data db) (training_seq db)
         (notifications db) (notifications_seq db),
       rowid).

(** [insert_listing(self, listing_data)]: the returned Python value is
    [Some i] for the integer [i] and [None] for [None]. *)
Definition insert_listing (now : Z) (db : DB) (listing_data : Listing)
  : DB * Py.outcome (option Z) :=
  match execute_insert_or_ignore now db listing_data with
  | Py.Returns (db', lastrowid) =>
      let listing_id := lastrowid in
      (db', Py.Returns (Some listing_id))
  | Py.Raises (Py.IntegrityError _) => (db, Py.Returns None)
  | Py.Raises e => (db, Py.Raises e)
  end.

(** Truthiness of the value returned by [insert_listing], as tested by
    [if listing_id:] in its callers. *)
Definition id_truthy (v : option Z) : bool :=
  match v with
  | Some i => negb (i =? 0)
  | None => false
  end.

(** [update_deal_score(self, listing_id, score, is_hot_deal)] *)
Definition update_deal_score (db : DB) (listing_id : Z) (score : Q)
    (is_hot : bool) : DB :=
  mkDB
    (List.map (fun r =>
       if l_id r =? listing_id then
         mkListingRow (l_id r) (l_platform r) (l_title r) (l_description r)
           (l_price r) (l_location r) (l_seller_name r) (l_url r)
           (l_image_urls r) (l_condition_keywords r) (l_scraped_at r)
           (l_is_active r) (Some score) is_hot
       else r) (listings db))
    (listings_seq db) (training_data db) (training_seq db)
    (notifications db) (notifications_seq db).

(** [log_notification(self, listing_id, notification_type, success)] *)
Definition log_notification (now : Z) (db : DB) (listing_id : Z)
    (notification_type : string) (success : bool) : DB :=
  let rowid := notifications_seq db + 1 in
  mkDB (listings db) (listings_seq db) (training_data db) (training_seq db)
    (notifications db ++
       [mkNotificationRow rowid listing_id notification_type now success])
    rowid.

(** [add_training_label]: [INSERT OR REPLACE] on a table whose only key is
    its own [id], so a row is always added. *)
Definition add_training_label (now : Z) (db : DB) (listing_id : Z)
    (is_good_deal : bool) (user_rating : option Z) (notes : option string) : DB :=
  let rowid := training_seq db + 1 in
  mkDB (listings db) (listings_seq db)
    (training_data db ++
       [mkTrainingRow rowid listing_id (Some is_good_deal) user_rating notes now])
    rowid (notifications db) (notifications_seq db).

(** [WHERE l.price IS NOT NULL AND l.price > 0] *)
Definition priced (r : ListingRow) : bool :=
  match l_price r with
  | Some p => if Qlt_le_dec 0 p then true else false
  | None => false
  end.

(** [FROM listings l LEFT JOIN training_data t ON l.id = t.listing_id]: a
    listing without label rows appears once, with a NULL label. *)
Definition left_join (db : DB) : list (ListingRow * option TrainingRow) :=
  flat_map (fun l =>
    match List.filter (fun t => t_listing_id t =? l_id l) (training_data db) with
    | [] => [(l, None)]
    | ts => List.map (fun t => (l, Some t)) ts
    end) (listings db).

Definition training_rows (db : DB) : list (ListingRow * option TrainingRow) :=
  List.filter (fun lt => priced (fst lt)) (left_join db).

Definition num_of_bool (b : bool) : Q := if b then 1%Q else 0%Q.

(** [get_listings_for_training(self)]: the columns of [l.*] followed by
    [t.is_good_deal] and [t.user_rating]. *)
Definition get_listings_for_training (db : DB) : Pandas.DataFrame :=
  let rows := training_rows db in
  let lcol {A} (f : ListingRow -> A) : list A :=
    List.map (fun lt : ListingRow * option TrainingRow => f (fst lt)) rows in
  let tcol {A} (f : TrainingRow -> option A) : list (option A) :=
    List.map (fun lt : ListingRow * option TrainingRow =>
                match snd lt with Some t => f t | None => None end) rows in
  [("id", Pandas.NumCol (lcol (fun l => Some (inject_Z (l_id l)))));
   ("platform", Pandas.StrCol (lcol (fun l => Some (l_platform l))));
   ("title", Pandas.StrCol (lcol (fun l => Some (l_title l))));
   ("description", Pandas.StrCol (lcol l_description));
   ("price", Pandas.NumCol (lcol l_price));
   ("location", Pandas.StrCol (lcol l_location));
   ("seller_name", Pandas.StrCol (lcol l_seller_name));
   ("url", Pandas.StrCol (lcol (fun l => Some (l_url l))));
   ("image_urls", Pandas.ObjCol (lcol l_image_urls));
   ("condition_keywords", Pandas.ObjCol (lcol l_condition_keywords));
   ("scraped_at", Pandas.NumCol (lcol (fun l => Some (inject_Z (l_scraped_at l)))));
   ("is_active", Pandas.NumCol (lcol (fun l => Some (num_of_bool (l_is_active l)))));
   ("deal_score", Pandas.NumCol (lcol l_deal_score));
   ("is_hot_deal", Pandas.NumCol (lcol (fun l => Some (num_of_bool (l_is_hot_deal l)))));
   ("is_good_deal", Pandas.NumCol (tcol (fun t => num_of_bool <$> t_is_good_deal t)));
   ("user_rating", Pandas.NumCol (tcol (fun t => inject_Z <$> t_user_rating t)))].

(** Number of stored rows with a given [url]. *)
Definition rows_with_url (db : DB) (u : string) : nat :=
  length (List.filter (fun r => String.eqb (l_url r) u) (listings db)).

(** The constraints SQLite maintains on [listings]: [url] is unique and the
    row ids are positive. *)
Definition db_wf (db : DB) : Prop :=
  NoDup (List.map l_url (listings db)) /\
  Forall (fun r => 1 <= l_id r) (listings db).

(** A writing call of the database API, with the clock reading it stores. *)
Inductive Call : Type :=
  | InsertListing (now : Z) (listing_data : Listing)
  | UpdateDealScore (listing_id : Z) (score : Q) (is_hot : bool)
  | LogNotification (now : Z) (listing_id : Z) (notification_type : string)
      (success : bool)
  | AddTrainingLabel (now : Z) (listing_id : Z) (is_good_deal : bool)
      (user_rating : option Z) (notes : option string).

(** The database after one call; what the call returns is dropped. *)
Definition call (db : DB) (c : Call) : DB :=
  match c with
  | InsertListing now listing_data => fst (insert_listing now db listing_data)
  | UpdateDealScore listing_id score is_hot =>
      update_deal_score db listing_id score is_hot
  | LogNotification now listing_id notification_type success =>
      log_notification now db listing_id notification_type success
  | AddTrainingLabel now listing_id is_good_deal user_rating notes =>
      add_training_label now db listing_id is_good_deal user_rating notes
  end.

(** The database after a sequence of calls. *)
Definition calls (db : DB) (cs : list Call) : DB := fold_left call cs db.

(** The row ids of [listings] grow in storage order and stay within the
    recorded AUTOINCREMENT sequence. *)
Definition ids_increasing (db : DB) : Prop :=
  StronglySorted Z.lt (List.map l_id (listings db)) /\
  Forall (fun r => 1 <= l_id r <= listings_seq db) (listings db).

(** The label rows of one listing. *)
Definition labels_of (db : DB) (listing_id : Z) : list TrainingRow :=
  List.filter (fun t => t_listing_id t =? listing_id) (training_data db).

End DatabaseManager.

(** The listing that [main.py] and [debug_database.py] insert to test the database. *)
Definition test_listing : Listing :=
  mkListing "test" "Test LQ4 Engine" (Some "Test description") (Some 1500%Q)
    (Some "Test City") (Some "Test Seller") "http://test.com/test-listing-1"
    (Some []) (Some ["good_rebuilt"]) None None None.

(** ** notifications *)

Module Notifications.

(** What the scheduler uses of a notifier object. *)
Record Notifier : Type := mkNotifier {
  send_hot_deal_alert : Listing -> Py.outcome bool;
  send_daily_summary : list Listing -> nat -> Py.outcome bool
}.

(** Truthiness of an optional string setting ([os.getenv] result). *)
Definition setting_truthy (s : option string) : bool :=
  match s with
  | Some v => Py.str_truthy v
  | None => false
  end.

(** notifications/discord_bot.py, [DiscordNotifier.send_hot_deal_alert]:
    [requests_post] stands for building the embed and posting it to the
    webhook; it yields the HTTP status code or raises. *)
Definition discord_send_hot_deal_alert (webhook_url : option string)
    (requests_post : Listing -> Py.outcome Z) (listing : Listing) : Py.outcome bool :=
  if negb (setting_truthy webhook_url) then Py.Returns false
  else
    match requests_post listing with
    | Py.Returns status_code =>
        if status_code =? 204 then Py.Returns true else Py.Returns false
    | Py.Raises _ => Py.Returns false
    end.

(** [DiscordNotifier.send_daily_summary] has the same shape. *)
Definition discord_send_daily_summary (webhook_url : option string)
    (requests_post_summary : list Listing -> nat -> Py.outcome Z)
    (hot_deals : list Listing) (total_new_listings : nat) : Py.outcome bool :=
  if negb (setting_truthy webhook_url) then Py.Returns false
  else
    match requests_post_summary hot_deals total_new_listings with
    | Py.Returns status_code =>
        if status_code =? 204 then Py.Returns true else Py.Returns false
    | Py.Raises _ => Py.Returns false
    end.

Definition DiscordNotifier (webhook_url : option string)
    (requests_post : Listing -> Py.outcome Z)
    (requests_post_summary : list Listing -> nat -> Py.outcome Z) : Notifier :=
  mkNotifier (discord_send_hot_deal_alert webhook_url requests_post)
    (discord_send_daily_summary webhook_url requests_post_summary).

(** Modelled from the spec: [notifications/email_sender.py] is not among the
    sources. The specification gives the notifier interface as
    [sendHotDealAlert(listing) -> success boolean] and
    [sendDailySummary(hotDeals, totalNewCount) -> success boolean]; the e-mail
    notifier is any pair of functions of that shape. *)
Definition EmailNotifier (smtp_alert : Listing -> bool)
    (smtp_summary : list Listing -> nat -> bool) : Notifier :=
  mkNotifier (fun listing => Py.Returns (smtp_alert listing))
    (fun hot_deals total => Py.Returns (smtp_summary hot_deals total)).

(** The notifier dictionary as [main.py] builds it: a discord entry when the
    webhook URL is set, an email entry when the SMTP credentials are. *)
Definition main_notifiers (webhook_url : option string) (email_configured : bool)
    (requests_post : Listing -> Py.outcome Z)
    (requests_post_summary : list Listing -> nat -> Py.outcome Z)
    (smtp_alert : Listing -> bool) (smtp_summary : list Listing -> nat -> bool)
  : gmap string Notifier :=
  let notifiers : gmap string Notifier := ∅ in
  let notifiers :=
    if setting_truthy webhook_url
    then <["discord" := DiscordNotifier webhook_url requests_post requests_post_summary]> notifiers
    else notifiers in
  let notifiers :=
    if email_configured
    then <["email" := EmailNotifier smtp_alert smtp_summary]> notifiers
    else notifiers in
  notifiers.

End Notifications.



(** ** scikit-learn objects used by the deal scorer *)

Module Sklearn.

Definition Matrix : Type := list (list Q).

(** A fitted [StandardScaler]. *)
Record Scaler : Type := mkScaler {
  transform : Pandas.DataFrame -> Py.result Matrix
}.

(** A fitted [GradientBoostingRegressor]. *)
Record Regressor : Type := mkRegressor {
  predict : Matrix -> Py.result (list Q)
}.

Record Metrics : Type := mkMetrics {
  mse : Q; mae : Q; r2 : Q;
  training_samples : nat; test_samples : nat;
  cv_r2_mean : Q; cv_r2_std : Q
}.

Record Lib : Type := mkLib {
  (* train_test_split(X, y, test_size=0.2, random_state=42) *)
  train_test_split :
    Pandas.DataFrame -> list (option Q) ->
    Pandas.DataFrame * Pandas.DataFrame * list (option Q) * list (option Q);
  (* scaler = StandardScaler(); scaler.fit_transform(X_train) *)
  fit_transform : Pandas.DataFrame -> Py.result (Scaler * Matrix);
  (* GradientBoostingRegressor(...).fit(X_train_scaled, y_train) *)
  fit : Matrix -> list (option Q) -> Py.result Regressor;
  (* the error measures and the cross-validation of the fitted model *)
  evaluate :
    Regressor -> Matrix -> list (option Q) -> Matrix -> list (option Q) ->
    Py.result Metrics
}.

(** A column of numbers with no missing cell. *)
Definition complete_col (c : Pandas.Column) : bool :=
  match c with
  | Pandas.NumCol xs => forallb (fun x => bool_decide (is_Some x)) xs
  | _ => false
  end.

(** A table of numbers only, none missing. *)
Definition complete (X : Pandas.DataFrame) : bool :=
  forallb (fun nc => complete_col (snd nc)) X.

(** What scikit-learn does with complete numeric data: given a table of at
    least ten rows of numbers, none missing, with a label present for every
    row, the split is scaled, the regressor is fitted and the evaluation
    returns its measures. *)
Definition fits_complete_data (sk : Lib) : Prop :=
  forall (X : Pandas.DataFrame) (y : list (option Q)),
    complete X = true ->
    Pandas.rect (Pandas.len X) X ->
    (10 <= Pandas.len X)%nat ->
    length y = Pandas.len X ->
    forallb (fun l => bool_decide (is_Some l)) y = true ->
    exists fitted_scaler X_train_scaled X_test_scaled fitted metrics,
      fit_transform sk (train_test_split sk X y).1.1.1 =
        Py.Ok (fitted_scaler, X_train_scaled) /\
      transform fitted_scaler (train_test_split sk X y).1.1.2 = Py.Ok X_test_scaled /\
      fit sk X_train_scaled (train_test_split sk X y).1.2 = Py.Ok fitted /\
      evaluate sk fitted X_train_scaled (train_test_split sk X y).1.2
        X_test_scaled (train_test_split sk X y).2 = Py.Ok metrics.

End Sklearn.

(** ** ml/model_training.py *)

Module DealScoreModel.

Import Pandas.

Record State : Type := mkState {
  model : option Sklearn.Regressor;
  scaler : option Sklearn.Scaler;
  feature_columns : option (list string)
}.

(** [__init__] *)
Definition init : State := mkState None None None.

Definition exclude_cols : list string :=
  ["id"; "platform"; "title"; "description"; "url"; "seller_name";
   "scraped_at"; "is_active"; "deal_score"; "is_hot_deal";
   "condition_keywords"; "condition_keywords_parsed"; "image_urls"].

Definition str_mem (x : string) (xs : list string) : bool :=
  existsb (String.eqb x) xs.

(** *** Series statistics; every one skips NaN. *)

Definition notna (xs : list (option Q)) : list Q := omap (fun x => x) xs.

Definition series_min (xs : list (option Q)) : option Q :=
  match notna xs with
  | [] => None
  | v :: vs => Some (fold_right Qmin v vs)
  end.

Definition series_max (xs : list (option Q)) : option Q :=
  match notna xs with
  | [] => None
  | v :: vs => Some (fold_right Qmax v vs)
  end.

Definition count_if (p : Q -> bool) (xs : list (option Q)) : Q :=
  inject_Z (Z.of_nat (length (List.filter p (notna xs)))).

(** One cell of [s.rank(pct=True)]: the average rank of the value among the
    values present, divided by their number; NaN for NaN. *)
Definition rank_pct (xs : list (option Q)) (x : option Q) : option Q :=
  match x with
  | None => None
  | Some v =>
      let less := count_if (fun w => if Qlt_le_dec w v then true else false) xs in
      let equal := count_if (fun w => Qeq_bool w v) xs in
      Some ((less + (equal + 1) / 2) / count_if (fun _ => true) xs)%Q
  end.

(** Floating-point division: [0/0] is NaN. A nonzero value over 0, which is
    infinite in floating point, is also written NaN. *)
Definition div_nan (a b : Q) : option Q :=
  if Qeq_bool b 0 then None else Some (a / b)%Q.

Definition div_cells (x y : option Q) : option Q :=
  match x, y with
  | Some a, Some b => div_nan a b
  | _, _ => None
  end.

(** *** Synthetic labels *)

(** [df['platform'] == platform] *)
Definition platform_mask (platform : list (option string)) (p : option string)
  : list bool :=
  List.map (fun x => match p, x with
                     | Some a, Some b => String.eqb b a
                     | _, _ => false
                     end) platform.

(** The body of [for platform in df['platform'].unique()]. The test
    [prices.std() > 0] is pandas' own, computed in floating point. *)
Definition add_price_term (ext : External.Lib) (platform : list (option string))
    (price : list (option Q)) (deal_score : list (option Q)) (p : option string)
  : list (option Q) :=
  let mask := platform_mask platform p in
  let prices := mask_list mask price in
  if (1 <? length prices)%nat && External.std_positive ext prices then
    List.map
      (fun mpd : bool * option Q * option Q =>
         let '(m, pr, d) := mpd in
         if m then
           lift2 Qplus d (lift2 Qmult (Some 0.3%Q) (lift2 Qminus (Some 1%Q) (rank_pct prices pr)))
         else d)
      (List.combine (List.combine mask price) deal_score)
  else deal_score.

(** [_create_synthetic_labels(self, df)] *)
Definition _create_synthetic_labels (ext : External.Lib) (df : DataFrame)
  : Py.outcome DataFrame :=
  let deal_score := repeat (Some 0.5%Q) (len df) in
  try! deal_score :=
    if has_column df "price" then
      try! price := get_num df "price" in
      if existsb (fun x => bool_decide (is_Some x)) price then
        try! platform := get_str df "platform" in
        Py.Returns (fold_left (add_price_term ext platform price) (unique platform)
                      deal_score)
      else Py.Returns deal_score
    else Py.Returns deal_score in
  try! deal_score :=
    if has_column df "condition_score" then
      try! condition_score := get_num df "condition_score" in
      let lo := series_min condition_score in
      let hi := series_max condition_score in
      let condition_norm :=
        List.map (fun c => div_cells (lift2 Qminus c lo)
                             (lift2 Qplus (lift2 Qminus hi lo) (Some (1 # 100000000)%Q)))
          condition_score in
      Py.Returns (map2_num Qplus deal_score
                    (List.map (lift2 Qmult (Some 0.2%Q)) condition_norm))
    else Py.Returns deal_score in
  try! deal_score :=
    if has_column df "lq4_priority_score" then
      try! lq4 := get_num df "lq4_priority_score" in
      let hi := series_max lq4 in
      let lq4_norm :=
        List.map (fun c => div_cells c (lift2 Qplus hi (Some (1 # 100000000)%Q))) lq4 in
      Py.Returns (map2_num Qplus deal_score
                    (List.map (lift2 Qmult (Some 0.3%Q)) lq4_norm))
    else Py.Returns deal_score in
  try! deal_score :=
    if has_column df "estimated_distance" then
      try! estimated_distance := get_num df "estimated_distance" in
      let distance_penalty :=
        List.map (fun d => clip 0 0.2 (lift2 Qdiv d (Some 1000%Q))) estimated_distance in
      Py.Returns (map2_num Qminus deal_score distance_penalty)
    else Py.Returns deal_score in
  try! deal_score :=
    if has_column df "platform_reliability" then
      try! platform_reliability := get_num df "platform_reliability" in
      Py.Returns (map2_num Qplus deal_score
                    (List.map (lift2 Qmult (Some 0.1%Q)) platform_reliability))
    else Py.Returns deal_score in
  Py.Returns (set df "deal_score" (NumCol (List.map (clip 0 1) deal_score))).

(** *** Persisted artifacts *)

(** The three files written by [save_model]: the model, the scaler and the
    feature information ([feature_columns] and the model kind). *)
Record Files : Type := mkFiles {
  model_file : option Sklearn.Regressor;
  scaler_file : option (option Sklearn.Scaler);
  info_file : option (option (list string) * string)
}.

Definition no_files : Files := mkFiles None None None.

(** Objects on which [fit] has not succeeded. *)
Definition unfitted_scaler : Sklearn.Scaler :=
  Sklearn.mkScaler (fun _ => Py.Failed "NotFittedError").

Definition unfitted_regressor : Sklearn.Regressor :=
  Sklearn.mkRegressor (fun _ => Py.Failed "NotFittedError").

Definition untrained_message : string :=
  "Model not trained yet. Call train_model() first.".

Definition n_samples : nat := 1000.

Definition synthetic_columns : list string :=
  ["price"; "log_price"; "title_length"; "title_word_count";
   "description_length"; "has_description"; "good_condition_count";
   "bad_condition_count"; "condition_score"; "is_rebuilt"; "is_new";
   "needs_work"; "estimated_distance"; "is_local"; "platform_reliability";
   "is_lq4"; "is_ls_engine"; "is_chevy"; "is_v8"; "lq4_priority_score";
   "is_complete_engine"].

Section Model.

Variables (ext : External.Lib) (sk : Sklearn.Lib).

(** The [n_samples] draws of one column of the synthetic data. *)
Definition draws (name : string) : list (option Q) :=
  List.map (fun i => Some (External.random_draw ext name i)) (seq 0 n_samples).

(** The label formula of [_create_synthetic_training_data], for one row. *)
Definition synthetic_label (price_min price_max : option Q)
    (price condition_score lq4 is_rebuilt reliability distance noise : option Q)
  : option Q :=
  let price_part :=
    lift2 Qmult (Some 0.3%Q)
      (lift2 Qminus (Some 1%Q)
         (div_cells (lift2 Qminus price price_min) (lift2 Qminus price_max price_min))) in
  let condition_part :=
    lift2 Qmult (Some 0.2%Q) (clip 0 1 (lift2 Qdiv condition_score (Some 5%Q))) in
  let lq4_part := lift2 Qdiv (lift2 Qmult (Some 0.2%Q) lq4) (Some 8%Q) in
  let rebuilt_part := lift2 Qmult (Some 0.1%Q) is_rebuilt in
  let reliability_part := lift2 Qmult (Some 0.1%Q) reliability in
  let distance_part :=
    lift2 Qmult (Some 0.1%Q)
      (lift2 Qminus (Some 1%Q) (clip 0 1 (lift2 Qdiv distance (Some 1000%Q)))) in
  let deal_score :=
    lift2 Qplus
      (lift2 Qplus
         (lift2 Qplus
            (lift2 Qplus (lift2 Qplus price_part condition_part) lq4_part)
            rebuilt_part)
         reliability_part)
      distance_part in
  clip 0 1 (lift2 Qplus deal_score noise).

(** [_create_synthetic_training_data(self)]: the data frame and its labels;
    the caller records [list(df.columns)] as the feature columns. *)
Definition _create_synthetic_training_data : DataFrame * list (option Q) :=
  let df := List.map (fun name => (name, NumCol (draws name))) synthetic_columns in
  let price := draws "price" in
  let lo := series_min price in
  let hi := series_max price in
  let rows :=
    List.map
      (fun i =>
         let cell name := Some (External.random_draw ext name i) in
         synthetic_label lo hi (cell "price") (cell "condition_score")
           (cell "lq4_priority_score") (cell "is_rebuilt")
           (cell "platform_reliability") (cell "estimated_distance")
           (cell "noise"))
      (seq 0 n_samples) in
  (df, rows).

(** The drawn prices are not all the same: the largest differs from the
    smallest, so the price range that the label formula divides by is not
    zero. *)
Definition price_draws_vary : bool :=
  match series_min (draws "price"), series_max (draws "price") with
  | Some lo, Some hi => negb (Qeq_bool (hi - lo) 0)
  | _, _ => false
  end.

(** [~y.isna() & (y >= 0) & (y <= 1)] for one label. *)
Definition valid_label (y : option Q) : bool :=
  match y with
  | Some v => (if Qlt_le_dec v 0 then false else true) &&
              (if Qlt_le_dec 1 v then false else true)
  | None => false
  end.

(** [prepare_training_data(self, df)]: the features, the labels and the
    value assigned to [self.feature_columns]. *)
Definition prepare_training_data (now0 now1 : Q) (df : DataFrame)
  : Py.outcome (DataFrame * list (option Q) * list string) :=
  try! df_features := FeatureEngineer.create_features ext now0 now1 df in
  try! df_features :=
    if negb (has_column df_features "deal_score")
    then _create_synthetic_labels ext df_features
    else Py.Returns df_features in
  let feature_cols :=
    List.filter (fun col => negb (str_mem col exclude_cols)) (columns df_features) in
  try! X := select df_features feature_cols in
  let X := fillna0 X in
  try! y := get_num df_features "deal_score" in
  let valid_mask := List.map valid_label y in
  let X := mask_rows valid_mask X in
  let y := mask_list valid_mask y in
  Py.Returns (X, y, feature_cols).

(** The training set that [train_model] hands to scikit-learn, with the
    feature columns in force: the prepared data, or the synthetic data when
    fewer than 10 rows were prepared. *)
Definition training_set (prepared : DataFrame * list (option Q) * list string)
  : DataFrame * list (option Q) * list string :=
  let '(X, y, feature_cols) := prepared in
  if (len X <? 10)%nat then
    let '(X', y') := _create_synthetic_training_data in
    (X', y', columns X')
  else (X, y, feature_cols).

(** The label column that [prepare_training_data] filters on: the
    [deal_score] of the input, or the synthetic labels when it has none. *)
Definition training_labels (now0 now1 : Q) (df : DataFrame)
  : Py.outcome (list (option Q)) :=
  try! df_features := FeatureEngineer.create_features ext now0 now1 df in
  try! df_features :=
    if negb (has_column df_features "deal_score")
    then _create_synthetic_labels ext df_features
    else Py.Returns df_features in
  get_num df_features "deal_score".

(** The rows that [prepare_training_data] keeps. *)
Definition usable_rows (labels : list (option Q)) : nat :=
  length (List.filter valid_label labels).

(** The usable rows in the words of the specification: the label is present
    and within [0,1] and the price is present and positive. *)
Definition usable_rows_claimed (labels prices : list (option Q)) : nat :=
  length
    (List.filter
       (fun lp : option Q * option Q =>
          valid_label (fst lp) &&
          match snd lp with
          | Some p => if Qlt_le_dec 0 p then true else false
          | None => false
          end)
       (List.combine labels prices)).

(** The part of [train_model] after the training set is chosen: split,
    scale, fit, evaluate. [self.scaler] and [self.model] are assigned before
    their [fit] is called. *)
Definition fit_on (st : State)
    (training : DataFrame * list (option Q) * list string)
  : State * Py.outcome Sklearn.Metrics :=
  let '(X, y, feature_cols) := training in
  let st := mkState (model st) (scaler st) (Some feature_cols) in
  let '(X_train, X_test, y_train, y_test) := Sklearn.train_test_split sk X y in
  match Sklearn.fit_transform sk X_train with
  | Py.Failed msg =>
      (mkState (model st) (Some unfitted_scaler) (feature_columns st),
       Py.Raises (Py.ExternalError msg))
  | Py.Ok (fitted_scaler, X_train_scaled) =>
      let st := mkState (model st) (Some fitted_scaler) (feature_columns st) in
      match Sklearn.transform fitted_scaler X_test with
      | Py.Failed msg => (st, Py.Raises (Py.ExternalError msg))
      | Py.Ok X_test_scaled =>
          match Sklearn.fit sk X_train_scaled y_train with
          | Py.Failed msg =>
              (mkState (Some unfitted_regressor) (scaler st) (feature_columns st),
               Py.Raises (Py.ExternalError msg))
          | Py.Ok fitted =>
              let st := mkState (Some fitted) (scaler st) (feature_columns st) in
              (st, Py.of_lib (Sklearn.evaluate sk fitted X_train_scaled y_train
                                X_test_scaled y_test))
          end
      end
  end.

(** [train_model(self, df)] *)
Definition train_model (now0 now1 : Q) (st : State) (df : DataFrame)
  : State * Py.outcome Sklearn.Metrics :=
  match prepare_training_data now0 now1 df with
  | Py.Raises e => (st, Py.Raises e)
  | Py.Returns prepared => fit_on st (training_set prepared)
  end.

(** [np.clip(scores, 0, 1)] on the regressor's output. *)
Definition clip_score (s : Q) : Q := Qmin (Qmax s 0) 1.

(** [predict_deal_scores(self, df)] *)
Definition predict_deal_scores (now0 now1 : Q) (st : State) (df : DataFrame)
  : Py.outcome (list Q) :=
  match model st, scaler st with
  | Some fitted, Some fitted_scaler =>
      try! df_features := FeatureEngineer.create_features ext now0 now1 df in
      try! cols := match feature_columns st with
                   | Some cols => Py.Returns cols
                   | None => Py.Raises (Py.KeyError "None")
                   end in
      try! X := select df_features cols in
      let X := fillna0 X in
      try! X_scaled := Py.of_lib (Sklearn.transform fitted_scaler X) in
      try! scores := Py.of_lib (Sklearn.predict fitted X_scaled) in
      Py.Returns (List.map clip_score scores)
  | _, _ => Py.Raises (Py.ValueError untrained_message)
  end.

(** [save_model(self)] *)
Definition save_model (st : State) (files : Files) : Files * Py.outcome unit :=
  match model st with
  | None => (files, Py.Raises (Py.ValueError "No model to save. Train model first."))
  | Some fitted =>
      (mkFiles (Some fitted) (Some (scaler st))
         (Some (feature_columns st, "GradientBoostingRegressor")),
       Py.Returns tt)
  end.

(** [load_model(self)]: a missing file stops the loading and gives [False];
    the attributes read before it keep their new values. *)
Definition load_model (st : State) (files : Files) : State * bool :=
  match model_file files with
  | None => (st, false)
  | Some m =>
      let st := mkState (Some m) (scaler st) (feature_columns st) in
      match scaler_file files with
      | None => (st, false)
      | Some sc =>
          let st := mkState (model st) sc (feature_columns st) in
          match info_file files with
          | None => (st, false)
          | Some (cols, _) => (mkState (model st) (scaler st) cols, true)
          end
      end
  end.

End Model.

End DealScoreModel.

(** ** scheduler/job_scheduler.py *)

Module JobScheduler.

Import DatabaseManager Notifications.

(** The scheduler's collaborators: the database, the deal scorer, the
    artifact files it saves to, and the log. *)
Record State : Type := mkState {
  database : DB;
  scorer : DealScoreModel.State;
  files : DealScoreModel.Files;
  log : list LogRecord
}.

(** One [if channel in self.notifiers:] block of
    [_send_hot_deal_notifications]. The database reached when an exception
    is raised is kept, since every [log_notification] commits. *)
Definition notify_channel (now : Z) (notifiers : gmap string Notifier)
    (channel : string) (deal : Listing) (db : DB) : DB * Py.outcome unit :=
  match notifiers !! channel with
  | None => (db, Py.Returns tt)
  | Some notifier =>
      match send_hot_deal_alert notifier deal with
      | Py.Raises e => (db, Py.Raises e)
      | Py.Returns success =>
          match id deal with
          | None => (db, Py.Raises (Py.KeyError "id"))
          | Some listing_id =>
              (log_notification now db listing_id channel success, Py.Returns tt)
          end
      end
  end.

(** [_send_hot_deal_notifications(self, deal)]: the discord block, then the
    email block, inside one [try] whose handler logs the exception. *)
Definition _send_hot_deal_notifications (now : Z)
    (notifiers : gmap string Notifier) (st : State) (deal : Listing) : State :=
  let '(db1, r1) := notify_channel now notifiers "discord" deal (database st) in
  let '(db2, r2) :=
    match r1 with
    | Py.Returns _ => notify_channel now notifiers "email" deal db1
    | Py.Raises e => (db1, Py.Raises e)
    end in
  match r2 with
  | Py.Returns _ =>
      mkState db2 (scorer st) (files st)
        (log st ++ [LogInfo ("Sent notifications for hot deal: " ++ title deal)])%list
  | Py.Raises _ =>
      mkState db2 (scorer st) (files st)
        (log st ++ [LogError "Error sending notifications for deal"])%list
  end.

(** [for deal in hot_deals: self._send_hot_deal_notifications(deal)] *)
Definition notify_hot_deals (now : Z) (notifiers : gmap string Notifier)
    (st : State) (hot_deals : list Listing) : State :=
  fold_left (_send_hot_deal_notifications now notifiers) hot_deals st.

(** The notification-log entries, without row id and timestamp. *)
Definition log_entries (rows : list NotificationRow) : list (Z * string * bool) :=
  List.map (fun r => (n_listing_id r, n_notification_type r, n_success r)) rows.

(** The entry a configured channel owes for a deal: its own outcome. *)
Definition channel_entry (notifiers : gmap string Notifier) (deal : Listing)
    (channel : string) : list (Z * string * bool) :=
  match notifiers !! channel, id deal with
  | Some notifier, Some listing_id =>
      match send_hot_deal_alert notifier deal with
      | Py.Returns success => [(listing_id, channel, success)]
      | Py.Raises _ => []
      end
  | _, _ => []
  end.

Definition deal_entries (notifiers : gmap string Notifier) (deal : Listing)
  : list (Z * string * bool) :=
  (channel_entry notifiers deal "discord" ++ channel_entry notifiers deal "email")%list.

(** Every configured notifier reports the outcome for [deal] through its
    boolean result. *)
Definition reports_by_result (notifiers : gmap string Notifier) (deal : Listing) : Prop :=
  forall channel notifier,
    notifiers !! channel = Some notifier ->
    exists success, send_hot_deal_alert notifier deal = Py.Returns success.

Section Retraining.

Variables (ext : External.Lib) (sk : Sklearn.Lib).

(** [_run_model_retraining(self)] *)
Definition _run_model_retraining (now0 now1 : Q) (st : State) : State :=
  let log0 := (log st ++ [LogInfo "Starting model retraining..."])%list in
  let training_df := get_listings_for_training (database st) in
  if (Pandas.len training_df <? 50)%nat then
    mkState (database st) (scorer st) (files st)
      (log0 ++ [LogInfo "Not enough data for retraining, skipping..."])%list
  else
    match DealScoreModel.train_model ext sk now0 now1 (scorer st) training_df with
    | (scorer', Py.Raises _) =>
        mkState (database st) scorer' (files st)
          (log0 ++ [LogError "Error retraining model"])%list
    | (scorer', Py.Returns metrics) =>
        match DealScoreModel.save_model scorer' (files st) with
        | (files', Py.Raises _) =>
            mkState (database st) scorer' files'
              (log0 ++ [LogError "Error retraining model"])%list
        | (files', Py.Returns _) =>
            mkState (database st) scorer' files'
              (log0 ++ [LogInfo "Model retrained successfully"])%list
        end
    end.

End Retraining.

End JobScheduler.

(** A failing discord webhook (HTTP 500) next to a working e-mail channel. *)
Module Scenario.

Import Notifications.

Definition discord_down : Notifier :=
  DiscordNotifier (Some "https://discord.example/api/webhooks/1")
    (fun _ => Py.Returns 500) (fun _ _ => Py.Returns 500).

Definition email_up : Notifier := EmailNotifier (fun _ => true) (fun _ _ => true).

Definition both_channels : gmap string Notifier :=
  <["discord" := discord_down]> (<["email" := email_up]> ∅).

Definition hot_deal : Listing := set_id test_listing 7.

Definition start : JobScheduler.State :=
  JobScheduler.mkState DatabaseManager.init_database DealScoreModel.init
    DealScoreModel.no_files [].

End Scenario.

(** ** The synthetic label, record by record

    [_create_synthetic_labels] works on whole columns. [heuristic_label]
    reads the same heuristic for the record in row [i]; [claimed_label] is the
    sentence of the specification, which adds the price term to every
    record. *)

Module LabelSpec.

Import Pandas DealScoreModel.

Record Columns : Type := mkColumns {
  platform : list (option string);
  price : list (option Q);
  condition_score : list (option Q);
  lq4_priority_score : list (option Q);
  estimated_distance : list (option Q);
  platform_reliability : list (option Q)
}.

(** The cell of row [i]; NaN outside the column. *)
Definition cell (xs : list (option Q)) (i : nat) : option Q := mjoin (xs !! i).

(** The prices of the records that share the platform of record [i]. *)
Definition platform_prices (c : Columns) (i : nat) : list (option Q) :=
  mask_list (platform_mask (platform c) (mjoin (platform c !! i))) (price c).

(** The two tests in front of the price term, for record [i]: some price
    of the table is present, and the platform of the record has more than
    one record whose prices have, for pandas, a positive standard
    deviation. *)
Definition price_varies (ext : External.Lib) (c : Columns) (i : nat) : bool :=
  existsb (fun x => bool_decide (is_Some x)) (price c) &&
  ((1 <? length (platform_prices c i))%nat &&
   External.std_positive ext (platform_prices c i)).

(** 0.3 times (1 minus the within-platform price percentile). *)
Definition price_term (c : Columns) (i : nat) : option Q :=
  lift2 Qmult (Some 0.3%Q)
    (lift2 Qminus (Some 1%Q) (rank_pct (platform_prices c i) (cell (price c) i))).

Definition condition_norm (c : Columns) (i : nat) : option Q :=
  div_cells
    (lift2 Qminus (cell (condition_score c) i) (series_min (condition_score c)))
    (lift2 Qplus
       (lift2 Qminus (series_max (condition_score c)) (series_min (condition_score c)))
       (Some (1 # 100000000)%Q)).

Definition lq4_norm (c : Columns) (i : nat) : option Q :=
  div_cells (cell (lq4_priority_score c) i)
    (lift2 Qplus (series_max (lq4_priority_score c)) (Some (1 # 100000000)%Q)).

Definition distance_penalty (c : Columns) (i : nat) : option Q :=
  clip 0 0.2 (lift2 Qdiv (cell (estimated_distance c) i) (Some 1000%Q)).

(** Baseline plus adjustments, given the baseline with its price adjustment. *)
Definition adjust (c : Columns) (i : nat) (priced : option Q) : option Q :=
  clip 0 1
    (lift2 Qplus
       (lift2 Qminus
          (lift2 Qplus
             (lift2 Qplus priced (lift2 Qmult (Some 0.2%Q) (condition_norm c i)))
             (lift2 Qmult (Some 0.3%Q) (lq4_norm c i)))
          (distance_penalty c i))
       (lift2 Qmult (Some 0.1%Q) (cell (platform_reliability c) i))).

Definition heuristic_label (ext : External.Lib) (c : Columns) (i : nat)
  : option Q :=
  adjust c i
    (if price_varies ext c i then lift2 Qplus (Some 0.5%Q) (price_term c i)
     else Some 0.5%Q).


(** The feature table holding exactly these columns. *)
Definition frame (c : Columns) : DataFrame :=
  [("platform", StrCol (platform c));
   ("price", NumCol (price c));
   ("condition_score", NumCol (condition_score c));
   ("lq4_priority_score", NumCol (lq4_priority_score c));
   ("estimated_distance", NumCol (estimated_distance c));
   ("platform_reliability", NumCol (platform_reliability c))].

(** The columns are those of [df] and have one cell per row. *)
Definition columns_of (df : DataFrame) (c : Columns) : Prop :=
  get_str df "platform" = Py.Returns (platform c) /\
  get_num df "price" = Py.Returns (price c) /\
  get_num df "condition_score" = Py.Returns (condition_score c) /\
  get_num df "lq4_priority_score" = Py.Returns (lq4_priority_score c) /\
  get_num df "estimated_distance" = Py.Returns (estimated_distance c) /\
  get_num df "platform_reliability" = Py.Returns (platform_reliability c) /\
  length (platform c) = len df /\
  length (price c) = len df /\
  length (condition_score c) = len df /\
  length (lq4_priority_score c) = len df /\
  length (estimated_distance c) = len df /\
  length (platform_reliability c) = len df.


(** Two listings on ebay at the same price. *)
Definition same_price : Columns :=
  mkColumns [Some "ebay"; Some "ebay"] [Some 1000%Q; Some 1000%Q]
    [Some 0%Q; Some 0%Q] [Some 0%Q; Some 0%Q]
    [Some 0%Q; Some 0%Q] [Some 0.8%Q; Some 0.8%Q].

(** Equality of cells as numbers. *)
Definition cell_eqb (x y : option Q) : bool :=
  match x, y with
  | Some a, Some b => Qeq_bool a b
  | None, None => true
  | _, _ => false
  end.

(** *** One iteration of the price loop, seen from one record *)

(** The prices of the records on platform [p]. *)
Definition group (plat : list (option string)) (prices : list (option Q))
    (p : option string) : list (option Q) :=
  mask_list (platform_mask plat p) prices.

(** Whether the loop body adjusts the records of platform [p]. *)
Definition guard (ext : External.Lib) (plat : list (option string))
    (prices : list (option Q)) (p : option string) : bool :=
  (1 <? length (group plat prices p))%nat &&
  External.std_positive ext (group plat prices p).

Definition on_platform (p x : option string) : bool :=
  match p, x with
  | Some a, Some b => String.eqb b a
  | _, _ => false
  end.

(** The effect of the iteration for platform [p] on a record of platform
    [x], price [pr] and current score [d]. *)
Definition upd (ext : External.Lib) (plat : list (option string))
    (prices : list (option Q)) (p x : option string) (pr d : option Q) : option Q :=
  if guard ext plat prices p && on_platform p x then
    lift2 Qplus d
      (lift2 Qmult (Some 0.3%Q)
         (lift2 Qminus (Some 1%Q) (rank_pct (group plat prices p) pr)))
  else d.

End LabelSpec.

(** ** [pd.DataFrame(listings)]

    The columns are the keys of the listing dictionaries, in the order in
    which the adapters write them; [id], [deal_score] and [is_hot_deal] are
    columns only when some listing carries them. *)

Definition frame_of_listings (ls : list Listing) : Pandas.DataFrame :=
  let bool_cell (b : option bool) : option Q := (fun v : bool => if v then 1%Q else 0%Q) <$> b in
  ([("platform", Pandas.StrCol (List.map (fun l => Some (platform l)) ls));
    ("title", Pandas.StrCol (List.map (fun l => Some (title l)) ls));
    ("url", Pandas.StrCol (List.map (fun l => Some (url l)) ls));
    ("price", Pandas.NumCol (List.map price ls));
    ("location", Pandas.StrCol (List.map location ls));
    ("seller_name", Pandas.StrCol (List.map seller_name ls));
    ("description", Pandas.StrCol (List.map description ls));
    ("image_urls", Pandas.ObjCol (List.map (fun l => default [] (image_urls l)) ls));
    ("condition_keywords",
     Pandas.ObjCol (List.map (fun l => default [] (condition_keywords l)) ls))]
   ++ (if existsb (fun l => bool_decide (is_Some (id l))) ls
       then [("id", Pandas.NumCol (List.map (fun l => inject_Z <$> id l) ls))]
       else [])
   ++ (if existsb (fun l => bool_decide (is_Some (deal_score l))) ls
       then [("deal_score", Pandas.NumCol (List.map deal_score ls))]
       else [])
   ++ (if existsb (fun l => bool_decide (is_Some (is_hot_deal l))) ls
       then [("is_hot_deal", Pandas.NumCol (List.map (fun l => bool_cell (is_hot_deal l)) ls))]
       else []))%list.

(** ** Stand-ins for the libraries

    Simple total functions in place of numpy, re, json, pandas' date parser
    and scikit-learn, for running the model on concrete listings. *)

Module Doubles.

Definition Qsum (vs : list Q) : Q := fold_right Qplus 0%Q vs.

Definition mean (vs : list Q) : Q := (Qsum vs / inject_Z (Z.of_nat (length vs)))%Q.

(** The sample variance of the values present, computed exactly; none when
    fewer than two values are present. *)
Definition var (xs : list (option Q)) : option Q :=
  let vs := DealScoreModel.notna xs in
  if (length vs <? 2)%nat then None
  else
    let m := mean vs in
    Some (Qsum (List.map (fun v => (v - m) * (v - m)) vs)
          / inject_Z (Z.of_nat (length vs) - 1))%Q.

(** A stand-in for [s.std() > 0] that computes without rounding. It agrees
    with pandas wherever the floating-point mean and deviations are exact,
    as for one price listed twice (deviation exactly 0) and for 500, 1000
    and 1500; it differs where rounding leaves a nonzero deviation, as for
    three prices of 0.1. *)
Definition exact_std_positive (xs : list (option Q)) : bool :=
  match var xs with
  | Some v => if Qlt_le_dec 0 v then true else false
  | None => false
  end.

Definition ext : External.Lib :=
  External.mkLib
    (fun q => q)
    (fun _ _ => false)
    (fun _ => Py.Ok [])
    (fun _ => Py.Ok 0%Q)
    (fun _ i => inject_Z (Z.of_nat i))
    exact_std_positive.

(** A scaler that forwards the price column, one row per record. *)
Definition scaler : Sklearn.Scaler :=
  Sklearn.mkScaler (fun X =>
    match Pandas.lookup_col X "price" with
    | Some (Pandas.NumCol xs) => Py.Ok (List.map (fun x => [default 0%Q x]) xs)
    | _ => Py.Ok (repeat [] (Pandas.len X))
    end).

(** A regressor whose raw output is far outside [0,1]: 5 - price/100. *)
Definition regressor : Sklearn.Regressor :=
  Sklearn.mkRegressor (fun M =>
    Py.Ok (List.map (fun row => (5 - hd 0 row / 100)%Q) M)).

Definition metrics : Sklearn.Metrics := Sklearn.mkMetrics 0 0 1 8 2 1 0.

Definition sk : Sklearn.Lib :=
  Sklearn.mkLib
    (fun X y => (X, X, y, y))
    (fun _ => Py.Ok (scaler, []))
    (fun _ _ => Py.Ok regressor)
    (fun _ _ _ _ _ => Py.Ok metrics).

(** The same, with a scaler that refuses, as [StandardScaler] does, a table
    holding a column that is not numeric. *)
Definition strict_sk : Sklearn.Lib :=
  Sklearn.mkLib
    (fun X y => (X, X, y, y))
    (fun X => if Sklearn.complete X then Py.Ok (scaler, [])
              else Py.Failed "could not convert string to float")
    (fun _ _ => Py.Ok regressor)
    (fun _ _ _ _ _ => Py.Ok metrics).

End Doubles.

(** ** Example listings *)

Module Examples.

Definition listing (plat ttl : string) (p : option Q) (loc : option string)
    (link : string) : Listing :=
  mkListing plat ttl (Some "") p loc (Some "Unknown") link
    (Some []) (Some []) None None None.

(** Ten priced listings without a location, five from craigslist and five
    from ebay. *)
Definition two_platforms : list Listing :=
  [listing "craigslist" "LQ4 6.0 engine" (Some 900%Q) None "https://cl.example/1";
   listing "craigslist" "Chevy V8 engine" (Some 1200%Q) None "https://cl.example/2";
   listing "craigslist" "LS engine block" (Some 700%Q) None "https://cl.example/3";
   listing "craigslist" "Vortec 5.3 engine" (Some 650%Q) None "https://cl.example/4";
   listing "craigslist" "cylinder heads" (Some 300%Q) None "https://cl.example/5";
   listing "ebay" "LQ4 engine rebuilt" (Some 2500%Q) None "https://ebay.example/1";
   listing "ebay" "intake manifold" (Some 150%Q) None "https://ebay.example/2";
   listing "ebay" "LS engine, needs work" (Some 500%Q) None "https://ebay.example/3";
   listing "ebay" "engine block" (Some 400%Q) None "https://ebay.example/4";
   listing "ebay" "crankshaft" (Some 200%Q) None "https://ebay.example/5"].

(** A batch scraped from ebay only. *)
Definition ebay_only : list Listing :=
  [listing "ebay" "LQ4 engine" (Some 100%Q) None "https://ebay.example/6";
   listing "ebay" "LS engine" (Some 450%Q) None "https://ebay.example/7";
   listing "ebay" "Chevy V8 engine" (Some 100000%Q) None "https://ebay.example/8"].

(** Ten scored listings offered for free (price 0). *)
Definition free_engine (n : string) : Listing :=
  mkListing "craigslist" ("free LS engine " ++ n) (Some "") (Some 0%Q) None
    (Some "Unknown") ("https://cl.example/free/" ++ n) (Some []) (Some [])
    None (Some 0.9%Q) None.

Definition free_engines : list Listing :=
  List.map free_engine ["0"; "1"; "2"; "3"; "4"; "5"; "6"; "7"; "8"; "9"].

(** The scorer after training on [two_platforms]. *)
Definition trained_on_two_platforms : DealScoreModel.State :=
  fst (DealScoreModel.train_model Doubles.ext Doubles.sk 0 0 DealScoreModel.init
         (frame_of_listings two_platforms)).

(** The scorer after training on a single listing, as [main.py --test] does:
    the synthetic training set is used. *)
Definition trained_on_test_listing : DealScoreModel.State :=
  fst (DealScoreModel.train_model Doubles.ext Doubles.sk 0 0 DealScoreModel.init
         (frame_of_listings [test_listing])).

(** *** Stored listings for the retraining job *)

(** The listings "labeled and priced" in the words of the specification:
    a positive price and at least one row of [training_data]. *)
Definition labeled_priced (db : DatabaseManager.DB) : list DatabaseManager.ListingRow :=
  List.filter
    (fun l => DatabaseManager.priced l &&
              existsb (fun t => DatabaseManager.t_listing_id t =? DatabaseManager.l_id l)
                (DatabaseManager.training_data db))
    (DatabaseManager.listings db).

Definition numbered (i : nat) : string := String (ascii_of_nat (48 + i / 10)) (String (ascii_of_nat (48 + i mod 10)) "").

(** The [i]-th stored listing of the examples: a priced ebay listing. *)
Definition stored (i : nat) : Listing :=
  listing "ebay" ("LS engine " ++ numbered i) (Some 800%Q) None
    ("https://ebay.example/item/" ++ numbered i).

(** A database holding [k] priced listings, none of them labeled; the
    first five have been scored (0.5, not a hot deal). *)
Definition unlabeled_db (k : nat) : DatabaseManager.DB :=
  fold_left (fun db i => DatabaseManager.update_deal_score db (Z.of_nat i) 0.5 false)
    (seq 1 5)
    (fold_left (fun db l => fst (DatabaseManager.insert_listing 0 db l))
       (List.map stored (seq 0 k)) DatabaseManager.init_database).

(** The same with one label per listing. *)
Definition labeled_db (k : nat) : DatabaseManager.DB :=
  fold_left (fun db i => DatabaseManager.add_training_label 0 db (Z.of_nat i) true (Some 5) None)
    (seq 1 k) (unlabeled_db k).

(** The same with every listing scored, as the scraping job leaves them
    once a model is loaded. *)
Definition scored_db (k : nat) : DatabaseManager.DB :=
  fold_left (fun db i => DatabaseManager.update_deal_score db (Z.of_nat i) 0.5 false)
    (seq 1 k) (labeled_db k).

(** Three adapters, the second of which fails. *)
Definition adapters : ScraperManager.Scrapers :=
  [("craigslist", fun _ _ => Py.Returns [stored 1]);
   ("ebay", fun _ _ => Py.Raises (Py.ExternalError "timeout"));
   ("facebook", fun _ _ => Py.Returns [stored 2; stored 3])].

Definition scheduler_on (db : DatabaseManager.DB) : JobScheduler.State :=
  JobScheduler.mkState db DealScoreModel.init DealScoreModel.no_files [].

End Examples.

(** ** scheduler/job_scheduler.py: the scraping job

    [now] is the clock reading that the database stores, [now0] and [now1]
    are the readings of the feature engineer. *)

Module ScrapingJob.

Import DatabaseManager Notifications JobScheduler.

(** [for listing in all_listings: listing_id = insert_listing(listing);
    if listing_id: listing['id'] = listing_id; new_listings.append(listing)],
    the loop of [_run_scraping_job] and of [run_scraping] in main.py. The
    database reached when a call raises is kept. *)
Fixpoint insert_new (now : Z) (db : DB) (all_listings : list Listing)
  : DB * Py.outcome (list Listing) :=
  match all_listings with
  | [] => (db, Py.Returns [])
  | listing :: rest =>
      match insert_listing now db listing with
      | (db, Py.Raises e) => (db, Py.Raises e)
      | (db, Py.Returns listing_id) =>
          let '(db, r) := insert_new now db rest in
          (db,
           try! new_listings := r in
           Py.Returns
             match listing_id with
             | Some i => if id_truthy listing_id
                         then set_id listing i :: new_listings
                         else new_listings
             | None => new_listings
             end)
      end
  end.

(** The scraped listings that are new to a table holding the urls [seen]:
    of the listings whose url is not among [seen], the first one of every
    url, in scraping order. *)
Fixpoint first_new (seen : list string) (all_listings : list Listing)
  : list Listing :=
  match all_listings with
  | [] => []
  | listing :: rest =>
      if existsb (String.eqb (url listing)) seen then first_new seen rest
      else listing :: first_new (seen ++ [url listing]) rest
  end.

(** [score >= self.model.config.HOT_DEAL_THRESHOLD] *)
Definition is_hot (score : Q) : bool :=
  if Qlt_le_dec score Config.HOT_DEAL_THRESHOLD then false else true.

(** [listing['deal_score'] = float(score); listing['is_hot_deal'] = True] *)
Definition mark_hot (l : Listing) (score : Q) : Listing :=
  mkListing (platform l) (title l) (description l) (price l) (location l)
    (seller_name l) (url l) (image_urls l) (condition_keywords l)
    (id l) (Some score) (Some true).

(** [for i, (listing, score) in enumerate(zip(listings, scores)): ...]: the
    database after the updates made and the hot deals collected. *)
Fixpoint score_loop (db : DB) (pairs : list (Listing * Q))
  : DB * Py.outcome (list Listing) :=
  match pairs with
  | [] => (db, Py.Returns [])
  | (listing, score) :: rest =>
      let is_hot_deal := is_hot score in
      match id listing with
      | None => (db, Py.Raises (Py.KeyError "id"))
      | Some listing_id =>
          let db := update_deal_score db listing_id score is_hot_deal in
          let '(db, r) := score_loop db rest in
          (db,
           try! hot_deals := r in
           Py.Returns (if is_hot_deal then mark_hot listing score :: hot_deals
                       else hot_deals))
      end
  end.

Section Job.

Variable ext : External.Lib.

(** [len(model)] for a gradient-boosting estimator, the number of fitted
    stages; it fails on an estimator that was never fitted. Python uses it
    for the truth value of the estimator. *)
Variable estimator_len : Sklearn.Regressor -> Py.result nat.

(** [not self.model.model] *)
Definition model_missing (m : option Sklearn.Regressor) : Py.outcome bool :=
  match m with
  | None => Py.Returns true
  | Some estimator =>
      try! n := Py.of_lib (estimator_len estimator) in
      Py.Returns (n =? 0)%nat
  end.

Definition log_to (st : State) (record : LogRecord) : State :=
  mkState (database st) (scorer st) (files st) (log st ++ [record])%list.

(** [_score_and_notify_listings(self, listings)] *)
Definition _score_and_notify_listings (now : Z) (now0 now1 : Q)
    (notifiers : gmap string Notifier) (st : State) (listings : list Listing)
  : State :=
  match model_missing (DealScoreModel.model (scorer st)) with
  | Py.Raises _ => log_to st (LogError "Error scoring listings")
  | Py.Returns missing =>
      let '(scorer1, available) :=
        if missing then DealScoreModel.load_model (scorer st) (files st)
        else (scorer st, true) in
      let st := mkState (database st) scorer1 (files st) (log st) in
      if negb available then
        log_to st (LogWarning "No trained model available, using heuristic scoring")
      else
        let df := frame_of_listings listings in
        match DealScoreModel.predict_deal_scores ext now0 now1 scorer1 df with
        | Py.Raises _ => log_to st (LogError "Error scoring listings")
        | Py.Returns scores =>
            match score_loop (database st) (List.combine listings scores) with
            | (db, Py.Raises _) =>
                log_to (mkState db scorer1 (files st) (log st))
                  (LogError "Error scoring listings")
            | (db, Py.Returns hot_deals) =>
                notify_hot_deals now notifiers
                  (log_to (mkState db scorer1 (files st) (log st))
                     (LogInfo "Found hot deals"))
                  hot_deals
            end
        end
  end.

(** [_run_scraping_job(self)] *)
Definition _run_scraping_job (SEARCH_TERMS : list string) (MAX_PAGES_PER_SITE : Z)
    (scrapers : ScraperManager.Scrapers) (now : Z) (now0 now1 : Q)
    (notifiers : gmap string Notifier) (st : State) : State :=
  let st := log_to st (LogInfo "Starting scheduled scraping job...") in
  match ScraperManager.scrape_all_platforms SEARCH_TERMS MAX_PAGES_PER_SITE scrapers with
  | Py.Raises _ => log_to st (LogError "Error in scraping job")
  | Py.Returns scraped =>
      match ScraperManager.all_listings scraped with
      | [] => log_to st (LogWarning "No listings found during scraping")
      | all_listings =>
          let st := log_to st (LogInfo "Scraped listings") in
          match insert_new now (database st) all_listings with
          | (db, Py.Raises _) =>
              log_to (mkState db (scorer st) (files st) (log st))
                (LogError "Error in scraping job")
          | (db, Py.Returns new_listings) =>
              let st :=
                log_to (mkState db (scorer st) (files st) (log st))
                  (LogInfo "Added new listings to database") in
              match new_listings with
              | [] => st
              | _ => _score_and_notify_listings now now0 now1 notifiers st new_listings
              end
          end
      end
  end.

End Job.

End ScrapingJob.

(** ** main.py: scoring a batch from the command line *)

Module Main.

Import DatabaseManager Notifications.

(** [listing['deal_score'] = float(score)] *)
Definition mark_scored (l : Listing) (score : Q) : Listing :=
  mkListing (platform l) (title l) (description l) (price l) (location l)
    (seller_name l) (url l) (image_urls l) (condition_keywords l)
    (id l) (Some score) (is_hot_deal l).

(** The first loop of [score_listings]. *)
Fixpoint score_loop (db : DB) (pairs : list (Listing * Q))
  : DB * Py.outcome (list Listing) :=
  match pairs with
  | [] => (db, Py.Returns [])
  | (listing, score) :: rest =>
      let is_hot_deal := ScrapingJob.is_hot score in
      match id listing with
      | None => (db, Py.Raises (Py.KeyError "id"))
      | Some listing_id =>
          let db := update_deal_score db listing_id score is_hot_deal in
          let '(db, r) := score_loop db rest in
          (db,
           try! hot_deals := r in
           Py.Returns (if is_hot_deal then mark_scored listing score :: hot_deals
                       else hot_deals))
      end
  end.

(** The body of [for name, notifier in notifiers.items()]: a [try] whose
    handler logs the exception and goes on. The notifier dictionary is
    given in iteration order. *)
Definition notify_one (now : Z) (deal : Listing) (acc : DB * list LogRecord)
    (entry : string * Notifier) : DB * list LogRecord :=
  let '(db, log) := acc in
  let '(name, notifier) := entry in
  let sent :=
    if String.eqb name "discord" then send_hot_deal_alert notifier deal
    else if String.eqb name "email" then send_hot_deal_alert notifier deal
    else Py.Returns false in
  match sent with
  | Py.Raises _ => (db, log ++ [LogError ("Error sending " ++ name ++ " notification")])%list
  | Py.Returns success =>
      match id deal with
      | None => (db, log ++ [LogError ("Error sending " ++ name ++ " notification")])%list
      | Some listing_id => (log_notification now db listing_id name success, log)
      end
  end.

Definition notify_all (now : Z) (notifiers : list (string * Notifier))
    (acc : DB * list LogRecord) (hot_deals : list Listing) : DB * list LogRecord :=
  fold_left (fun acc deal => fold_left (notify_one now deal) notifiers acc)
    hot_deals acc.

Section Scoring.

Variable ext : External.Lib.

(** [score_listings(listings, model, database, notifiers, logger)] *)
Definition score_listings (now : Z) (now0 now1 : Q) (listings : list Listing)
    (model : DealScoreModel.State) (db : DB) (notifiers : list (string * Notifier))
    (log : list LogRecord) : (DB * list LogRecord) * Py.outcome unit :=
  let df := frame_of_listings listings in
  match DealScoreModel.predict_deal_scores ext now0 now1 model df with
  | Py.Raises e => ((db, log), Py.Raises e)
  | Py.Returns scores =>
      match score_loop db (List.combine listings scores) with
      | (db, Py.Raises e) => ((db, log), Py.Raises e)
      | (db, Py.Returns hot_deals) =>
          (notify_all now notifiers (db, log ++ [LogInfo "Found hot deals"])%list hot_deals,
           Py.Returns tt)
      end
  end.

End Scoring.

(** The entry a notifier leaves in the notification log for a deal. *)
Definition entry_of (deal : Listing) (entry : string * Notifier)
  : list (Z * string * bool) :=
  let '(name, notifier) := entry in
  match id deal with
  | None => []
  | Some listing_id =>
      if String.eqb name "discord" || String.eqb name "email" then
        match send_hot_deal_alert notifier deal with
        | Py.Returns success => [(listing_id, name, success)]
        | Py.Raises _ => []
        end
      else [(listing_id, name, false)]
  end.

End Main.

(** * Properties *)

(** ** Facts about the string primitives *)

Section StringFacts.

Lemma prefix_cons a b s1 s2 :
  String.prefix (String a s1) (String b s2) =
  if ascii_dec a b then String.prefix s1 s2 else false.
Proof. reflexivity. Qed.

Lemma prefix_app (n post : string) : String.prefix n (n ++ post) = true.
Proof.
  induction n as [|c n IH]; [by destruct post|].
  change (String c n ++ post) with (String c (n ++ post)).
  rewrite prefix_cons. by destruct (ascii_dec c c).
Qed.

Lemma prefix_inv (n h : string) :
  String.prefix n h = true -> exists post, h = n ++ post.
Proof.
  revert h. induction n as [|c n IH]; intros h H.
  - by exists h.
  - destruct h as [|d h]; [done|]. rewrite prefix_cons in H.
    destruct (ascii_dec c d) as [->|]; [|done].
    destruct (IH _ H) as [post ->]. by exists post.
Qed.

Lemma str_in_nil n : Py.str_in n "" = String.prefix n "" || false.
Proof. reflexivity. Qed.

Lemma str_in_cons n c h :
  Py.str_in n (String c h) = String.prefix n (String c h) || Py.str_in n h.
Proof. reflexivity. Qed.

Lemma str_in_prefix n h : String.prefix n h = true -> Py.str_in n h = true.
Proof.
  intros H. destruct h; [rewrite str_in_nil | rewrite str_in_cons]; by rewrite H.
Qed.

(** [str_in] is substring containment. *)
Lemma str_in_spec (n h : string) :
  Py.str_in n h = true <-> exists pre post, h = pre ++ n ++ post.
Proof.
  split.
  - induction h as [|c h IH]; intros H.
    + rewrite str_in_nil, orb_false_r in H.
      destruct (prefix_inv _ _ H) as [post ->]. by exists "", post.
    + rewrite str_in_cons in H. apply orb_true_iff in H as [H|H].
      * destruct (prefix_inv _ _ H) as [post ->]. by exists "", post.
      * destruct (IH H) as (pre & post & ->). by exists (String c pre), post.
  - intros (pre & post & ->). induction pre as [|c pre IH].
    + change ("" ++ n ++ post) with (n ++ post).
      apply str_in_prefix, prefix_app.
    + change (String c pre ++ n ++ post) with (String c (pre ++ n ++ post)).
      by rewrite str_in_cons, IH, orb_true_r.
Qed.

Lemma str_app_cons c (a b : string) : String c a ++ b = String c (a ++ b).
Proof. reflexivity. Qed.

Lemma lower_cons c s : Py.lower (String c s) = String (Py.lower_ascii c) (Py.lower s).
Proof. reflexivity. Qed.

Lemma lower_app (a b : string) : Py.lower (a ++ b) = Py.lower a ++ Py.lower b.
Proof.
  induction a as [|c a IH]; [done|].
  by rewrite str_app_cons, !lower_cons, str_app_cons, IH.
Qed.

Lemma str_app_assoc (a b c : string) : (a ++ b) ++ c = a ++ (b ++ c).
Proof.
  induction a as [|x a IH]; [done|]. by rewrite !str_app_cons, IH.
Qed.

Lemma str_in_trans (a b c : string) :
  Py.str_in a b = true -> Py.str_in b c = true -> Py.str_in a c = true.
Proof.
  rewrite !str_in_spec. intros (p1 & q1 & ->) (p2 & q2 & ->).
  exists (p2 ++ p1), (q1 ++ q2). by rewrite !str_app_assoc.
Qed.

Lemma str_in_app_l (n a b : string) :
  Py.str_in n a = true -> Py.str_in n (a ++ b) = true.
Proof.
  rewrite !str_in_spec. intros (p & q & ->).
  exists p, (q ++ b). by rewrite !str_app_assoc.
Qed.

Lemma str_in_lower (n h : string) :
  Py.str_in n h = true -> Py.str_in (Py.lower n) (Py.lower h) = true.
Proof.
  rewrite !str_in_spec. intros (p & q & ->).
  exists (Py.lower p), (Py.lower q). by rewrite !lower_app.
Qed.

Lemma any_true {A} (p : A -> bool) (xs : list A) :
  Py.any p xs = true <-> exists x, In x xs /\ p x = true.
Proof. apply existsb_exists. Qed.

Lemma any_false {A} (p : A -> bool) (xs : list A) :
  Py.any p xs = false <-> forall x, In x xs -> p x = false.
Proof.
  unfold Py.any. split.
  - intros H x Hx. destruct (p x) eqn:E; [|done].
    assert (existsb p xs = true) by (apply existsb_exists; eauto). congruence.
  - intros H. destruct (existsb p xs) eqn:E; [|done].
    apply existsb_exists in E as (x & Hx & Hp). rewrite H in Hp; done.
Qed.

End StringFacts.

(** ** Relevance predicate and condition keywords *)

Section Relevance.

Import BaseScraper.

Lemma is_relevant_listing_iff (title description : string) :
  is_relevant_listing title description = true <->
  (exists term, In term engine_terms /\
                Py.str_in term (Py.lower (title ++ " " ++ description)) = true) /\
  (forall term, In term exclude_terms ->
                Py.str_in term (Py.lower (title ++ " " ++ description)) = false).
Proof.
  unfold is_relevant_listing.
  set (text := Py.lower _).
  rewrite <- any_true, <- any_false.
  destruct (Py.any _ engine_terms), (Py.any _ exclude_terms); simpl; intuition congruence.
Qed.

Lemma boat_motor_rejected (title description : string) :
  Py.str_in "boat motor" (Py.lower title) = true ->
  is_relevant_listing title description = false.
Proof.
  intros H. unfold is_relevant_listing.
  set (text := Py.lower _).
  assert (Hboat : Py.str_in "boat" text = true).
  { subst text. rewrite lower_app. apply str_in_app_l.
    eapply str_in_trans; [|exact H]. reflexivity. }
  destruct (Py.any _ engine_terms); [|done].
  assert (Hex : Py.any (fun term => Py.str_in term text) exclude_terms = true).
  { apply any_true. exists "boat". split; [by left|done]. }
  by rewrite Hex.
Qed.

(** C4. The relevance predicate accepts exactly when the combined lowercased
    text [lower(title + " " + description)] contains at least one engine-part
    term (engine, motor, block, head, intake, crank, piston, long block,
    short block) and contains no exclusion term (boat, marine, motorcycle,
    lawn, generator, pump, compressor). Every title containing "boat motor"
    is rejected, whatever the description; the listing titled
    "LS engine, needs work" is accepted and its extracted condition keywords
    include [bad_needs work]. *)
Theorem C4_relevance_predicate :
  engine_terms = ["engine"; "motor"; "block"; "head"; "intake"; "crank";
                  "piston"; "long block"; "short block"] /\
  exclude_terms = ["boat"; "marine"; "motorcycle"; "lawn"; "generator";
                   "pump"; "compressor"] /\
  (forall title description,
     is_relevant_listing title description = true <->
     (exists term, In term engine_terms /\
                   Py.str_in term (Py.lower (title ++ " " ++ description)) = true) /\
     (forall term, In term exclude_terms ->
                   Py.str_in term (Py.lower (title ++ " " ++ description)) = false)) /\
  (forall title description,
     Py.str_in "boat motor" title = true ->
     is_relevant_listing title description = false) /\
  is_relevant_listing "Boat Motor 9.9hp" "" = false /\
  is_relevant_listing "LS engine, needs work" "" = true /\
  In "bad_needs work" (extract_condition_keywords "LS engine, needs work").
Proof.
  split; [reflexivity|]. split; [reflexivity|].
  split; [exact is_relevant_listing_iff|].
  split.
  - intros title description H. apply boat_motor_rejected.
    apply (str_in_lower "boat motor" title H).
  - split; [reflexivity|]. split; [reflexivity|].
    vm_compute. tauto.
Qed.

End Relevance.

(** ** Data-frame access *)

Section PandasFacts.

Import Pandas.

Lemma lookup_col_set_eq df name c : lookup_col (set df name c) name = Some c.
Proof.
  induction df as [|[n c0] df IH]; simpl.
  - by rewrite String.eqb_refl.
  - destruct (String.eqb name n) eqn:E; simpl; rewrite E; [done|exact IH].
Qed.

Lemma lookup_col_set_ne df name name' c :
  name <> name' -> lookup_col (set df name c) name' = lookup_col df name'.
Proof.
  intros Hne. induction df as [|[n c0] df IH]; simpl.
  - destruct (String.eqb_spec name' name); [congruence|done].
  - destruct (String.eqb_spec name n) as [->|]; simpl.
    + destruct (String.eqb_spec name' n); [congruence|done].
    + destruct (String.eqb_spec name' n); [done|exact IH].
Qed.

Lemma get_set_eq df name c : get (set df name c) name = Py.Returns c.
Proof. unfold get. by rewrite lookup_col_set_eq. Qed.

Lemma get_set_ne df name name' c :
  name <> name' -> get (set df name c) name' = get df name'.
Proof. intros H. unfold get. by rewrite lookup_col_set_ne. Qed.

End PandasFacts.

(** ** Distance estimation *)

Section Distance.

Import FeatureEngineer.

Lemma first_match_Some table text i key d :
  table !! i = Some (key, d) ->
  Py.str_in key text = true ->
  (forall j key' d', (j < i)%nat -> table !! j = Some (key', d') ->
                     Py.str_in key' text = false) ->
  first_match table text = Some d.
Proof.
  revert i. induction table as [|[k0 d0] table IH]; intros i Hi Hin Hbefore; [done|].
  destruct i as [|i]; simpl in *.
  - injection Hi as -> ->. by rewrite Hin.
  - rewrite (Hbefore O k0 d0); [|lia|done].
    apply (IH i); [done..|].
    intros j key' d' Hj. apply (Hbefore (S j)). lia.
Qed.

Lemma first_match_None table text :
  (forall key d, In (key, d) table -> Py.str_in key text = false) ->
  first_match table text = None.
Proof.
  induction table as [|[k0 d0] table IH]; intros H; simpl; [done|].
  rewrite (H k0 d0); [|by left]. apply IH. intros key d Hin. apply (H key d). by right.
Qed.

Lemma lt_flag_Z (bound d : Z) :
  lt_flag (inject_Z bound) (Some (inject_Z d)) = Some (bool_to_int (d <? bound)).
Proof.
  unfold lt_flag. f_equal. f_equal.
  destruct (Qlt_le_dec _ _) as [H|H]; symmetry.
  - rewrite <- Zlt_Qlt in H. by apply Z.ltb_lt.
  - rewrite <- Zle_Qle in H. apply Z.ltb_ge. done.
Qed.

(** C9 (amended). The estimated distance is resolved in three tiers: the
    first entry of the city table, in table order, whose name occurs in the
    lowercased location as a substring gives the distance (in particular a
    location that is exactly a city name); when no city name occurs, the
    first entry of the state table, in table order, whose abbreviation
    occurs in it as a substring, anywhere; when neither occurs, 300 miles.
    An empty (or missing) location yields 500 miles. The derived columns are
    [is_local = (distance < 100)] and [is_regional = (distance < 300)]. *)
Theorem C9_estimate_distance :
  _estimate_distance None = 500 /\
  _estimate_distance (Some "") = 500 /\
  (forall location, location <> "" ->
     (forall i city d,
        city_distances !! i = Some (city, d) ->
        Py.str_in city (Py.lower location) = true ->
        (forall j city' d', (j < i)%nat -> city_distances !! j = Some (city', d') ->
                            Py.str_in city' (Py.lower location) = false) ->
        _estimate_distance (Some location) = d) /\
     ((forall city d, In (city, d) city_distances ->
                      Py.str_in city (Py.lower location) = false) ->
      (forall i state d,
         state_distances !! i = Some (state, d) ->
         Py.str_in state (Py.lower location) = true ->
         (forall j state' d', (j < i)%nat -> state_distances !! j = Some (state', d') ->
                              Py.str_in state' (Py.lower location) = false) ->
         _estimate_distance (Some location) = d) /\
      ((forall state d, In (state, d) state_distances ->
                        Py.str_in state (Py.lower location) = false) ->
       _estimate_distance (Some location) = 300))) /\
  (forall city d, In (city, d) city_distances -> _estimate_distance (Some city) = d) /\
  (forall state d, In (state, d) state_distances -> _estimate_distance (Some state) = d) /\
  (forall df location,
     Pandas.get_str df "location" = Py.Returns location ->
     exists df',
       _create_location_features df = Py.Returns df' /\
       Pandas.get df' "estimated_distance" =
         Py.Returns (Pandas.NumCol
           (List.map (fun l => Some (inject_Z (_estimate_distance l))) location)) /\
       Pandas.get df' "is_local" =
         Py.Returns (Pandas.NumCol
           (List.map (fun l => Some (bool_to_int (_estimate_distance l <? 100))) location)) /\
       Pandas.get df' "is_regional" =
         Py.Returns (Pandas.NumCol
           (List.map (fun l => Some (bool_to_int (_estimate_distance l <? 300))) location))).
Proof.
  split; [reflexivity|]. split; [reflexivity|]. split; [|split; [|split]].
  - intros location Hne.
    assert (Htruthy : negb (Py.str_truthy location) = false) by by destruct location.
    unfold _estimate_distance. rewrite Htruthy. split; [|intros Hcity; split].
    + intros i city d Hi Hin Hbefore.
      by rewrite (first_match_Some _ _ i city d Hi Hin Hbefore).
    + intros i state d Hi Hin Hbefore.
      rewrite (first_match_None _ _ Hcity).
      by rewrite (first_match_Some _ _ i state d Hi Hin Hbefore).
    + intros Hstate.
      by rewrite (first_match_None _ _ Hcity), (first_match_None _ _ Hstate).
  - intros city d Hin. simpl in Hin.
    repeat (destruct Hin as [Hin|Hin]; [injection Hin as <- <-; vm_compute; reflexivity|]).
    destruct Hin.
  - intros state d Hin. simpl in Hin.
    repeat (destruct Hin as [Hin|Hin]; [injection Hin as <- <-; vm_compute; reflexivity|]).
    destruct Hin.
  - intros df location Hloc. eexists. unfold _create_location_features.
    rewrite Hloc. simpl. split; [reflexivity|].
    repeat split;
      repeat (rewrite get_set_ne by discriminate); rewrite get_set_eq;
      rewrite ?map_map; [done|..]; do 2 f_equal; apply map_ext; intros l.
    + apply (lt_flag_Z 100).
    + apply (lt_flag_Z 300).
Qed.

(** "Brooklyn, NY" names a city of the table (10 miles, local); "Sunnyvale"
    names no city and falls to the state tier; "Test City" matches nothing. *)
Lemma C9_witness :
  _estimate_distance (Some "Brooklyn, NY") = 10 /\
  _estimate_distance (Some "Trenton, NJ") = 50 /\
  _estimate_distance (Some "Test City") = 300.
Proof.
  destruct C9_estimate_distance as (_ & _ & H & _).
  split; [|split].
  - destruct (H "Brooklyn, NY" ltac:(discriminate)) as [Hcity _].
    apply (Hcity 3%nat "brooklyn" 10); [reflexivity|reflexivity|].
    intros j city' d' Hj Hlook.
    do 3 (destruct j as [|j]; [injection Hlook as <- <-; reflexivity|]). lia.
  - destruct (H "Trenton, NJ" ltac:(discriminate)) as [_ Hstate].
    destruct Hstate as [Hstate _].
    { intros city d Hin. simpl in Hin.
      repeat (destruct Hin as [Hin|Hin]; [injection Hin as <- <-; reflexivity|]).
      destruct Hin. }
    apply (Hstate 1%nat "nj" 50); [reflexivity|reflexivity|].
    intros j st d' Hj Hlook.
    destruct j as [|j]; [injection Hlook as <- <-; reflexivity|]. lia.
  - destruct (H "Test City" ltac:(discriminate)) as [_ Hstate].
    destruct Hstate as [_ Hdefault].
    { intros city d Hin. simpl in Hin.
      repeat (destruct Hin as [Hin|Hin]; [injection Hin as <- <-; reflexivity|]).
      destruct Hin. }
    apply Hdefault. intros st d Hin. simpl in Hin.
    repeat (destruct Hin as [Hin|Hin]; [injection Hin as <- <-; reflexivity|]).
    destruct Hin.
Defined.

(** The tiers of the claim fail on the code. "Dallastown, PA" is no city of
    the table, yet it contains the name "dallas": 1550 miles, where a
    state-abbreviation match gives Pennsylvania's 150. "Las Vegas, NV" names
    no city and no state of the tables, yet "vegas" contains "ga": 850
    miles, where the claim gives the default 300. "Austin, TX" contains "in"
    before the state table reaches "tx": 700 miles instead of 1600. *)
Lemma C9_counterexample :
  _estimate_distance (Some "Dallastown, PA") = 1550 /\
  claimed_distance (Some "Dallastown, PA") = 150 /\
  _estimate_distance (Some "Las Vegas, NV") = 850 /\
  claimed_distance (Some "Las Vegas, NV") = 300 /\
  _estimate_distance (Some "Austin, TX") = 700 /\
  claimed_distance (Some "Austin, TX") = 1600 /\
  _estimate_distance (Some "Dallastown, PA") <> claimed_distance (Some "Dallastown, PA") /\
  _estimate_distance (Some "Las Vegas, NV") <> claimed_distance (Some "Las Vegas, NV").
Proof. repeat split; try (vm_compute; reflexivity); by vm_compute. Qed.

End Distance.

(** ** Adapter orchestration *)

Section ScrapeAll.

Import ScraperManager.

Variables (SEARCH_TERMS : list string) (MAX_PAGES_PER_SITE : Z).

Let step := scrape_one SEARCH_TERMS MAX_PAGES_PER_SITE.
Let contrib := contribution SEARCH_TERMS MAX_PAGES_PER_SITE.

Lemma scrape_one_listings st entry :
  all_listings (step st entry) = (all_listings st ++ contrib entry)%list.
Proof.
  subst step contrib. unfold scrape_one, contribution. destruct entry as [name scraper]; simpl.
  destruct (scraper _ _); simpl; [done|by rewrite app_nil_r].
Qed.

Lemma scrape_one_called st entry :
  called (step st entry) = (called st ++ [fst entry])%list.
Proof.
  subst step. unfold scrape_one. destruct entry as [name scraper]; simpl.
  by destruct (scraper _ _).
Qed.

Lemma scrape_loop_listings scrapers st :
  all_listings (fold_left step scrapers st) =
  (all_listings st ++ concat (List.map contrib scrapers))%list.
Proof.
  revert st. induction scrapers as [|entry scrapers IH]; intros st; simpl.
  - by rewrite app_nil_r.
  - by rewrite IH, scrape_one_listings, <- app_assoc.
Qed.

Lemma scrape_loop_called scrapers st :
  called (fold_left step scrapers st) = (called st ++ List.map fst scrapers)%list.
Proof.
  revert st. induction scrapers as [|entry scrapers IH]; intros st; simpl.
  - by rewrite app_nil_r.
  - by rewrite IH, scrape_one_called, <- app_assoc.
Qed.

(** C7. For every registry of adapters and every search-term list,
    [scrape_all_platforms] returns normally (no adapter exception
    propagates), it has invoked every registered adapter once, in registry
    order, and its result is the concatenation of the adapters' results, an
    adapter that raised contributing nothing and the others everything they
    returned. *)
Theorem C7_scrape_all_isolates_failures (scrapers : Scrapers) :
  exists st,
    scrape_all_platforms SEARCH_TERMS MAX_PAGES_PER_SITE scrapers = Py.Returns st /\
    called st = List.map fst scrapers /\
    all_listings st =
      concat (List.map (contribution SEARCH_TERMS MAX_PAGES_PER_SITE) scrapers).
Proof.
  eexists. split; [reflexivity|]. simpl. split.
  - apply (scrape_loop_called scrapers (mkState [] [] [])).
  - apply (scrape_loop_listings scrapers (mkState [] [] [])).
Qed.

End ScrapeAll.

(** The ebay adapter raises; the craigslist and facebook results are kept. *)
Example scrape_all_with_failing_adapter :
  exists st,
    ScraperManager.scrape_all_platforms ["LS engine"] 5 Examples.adapters = Py.Returns st /\
    ScraperManager.called st = ["craigslist"; "ebay"; "facebook"] /\
    ScraperManager.all_listings st = [Examples.stored 1; Examples.stored 2; Examples.stored 3].
Proof. eexists. repeat split. Qed.

(** ** Deduplicating insert *)

Section Dedup.

Import DatabaseManager.

Lemma init_database_wf : db_wf init_database.
Proof. split; [constructor|constructor]. Qed.

Lemma max_rowid_nonneg rows : 0 <= max_rowid rows.
Proof. induction rows; simpl; lia. Qed.

Lemma next_rowid_pos db : 1 <= next_rowid db.
Proof. unfold next_rowid. pose proof (max_rowid_nonneg (listings db)). lia. Qed.

Lemma url_taken_In db u : url_taken db u = true <-> In u (List.map l_url (listings db)).
Proof.
  unfold url_taken. rewrite existsb_exists, in_map_iff. split.
  - intros (r & Hr & E). apply String.eqb_eq in E. eauto.
  - intros (r & E & Hr). exists r. split; [done|]. by apply String.eqb_eq.
Qed.

Lemma url_taken_not_In db u : url_taken db u = false <-> ~ In u (List.map l_url (listings db)).
Proof.
  rewrite <- url_taken_In. destruct (url_taken db u); split; congruence.
Qed.

Lemma filter_url_absent rows u :
  ~ In u (List.map l_url rows) ->
  List.filter (fun r => String.eqb (l_url r) u) rows = [].
Proof.
  induction rows as [|r rows IH]; simpl; intros H; [done|].
  destruct (String.eqb_spec (l_url r) u); [tauto|]. apply IH. tauto.
Qed.

Lemma count_url_NoDup rows u :
  NoDup (List.map l_url rows) -> In u (List.map l_url rows) ->
  length (List.filter (fun r => String.eqb (l_url r) u) rows) = 1%nat.
Proof.
  induction rows as [|r rows IH]; simpl; intros Hnd Hin; [done|].
  apply NoDup_cons in Hnd as [Hnotin Hnd].
  rewrite list_elem_of_In in Hnotin.
  destruct (String.eqb_spec (l_url r) u) as [E|E]; simpl.
  - subst u. by rewrite filter_url_absent.
  - destruct Hin as [|Hin]; [done|]. by apply IH.
Qed.

(** What [insert_listing] does, by cases on whether the url is stored. *)
Lemma insert_listing_new now db L :
  url_taken db (url L) = false ->
  exists row,
    l_url row = url L /\ l_id row = next_rowid db /\
    listings (fst (insert_listing now db L)) = (listings db ++ [row])%list /\
    snd (insert_listing now db L) = Py.Returns (Some (next_rowid db)).
Proof.
  intros H. unfold insert_listing, execute_insert_or_ignore. rewrite H. simpl.
  eexists. repeat split; reflexivity.
Qed.

Lemma insert_listing_duplicate now db L :
  url_taken db (url L) = true ->
  listings (fst (insert_listing now db L)) = listings db /\
  snd (insert_listing now db L) = Py.Returns (Some 0).
Proof.
  intros H. unfold insert_listing, execute_insert_or_ignore. rewrite H. by simpl.
Qed.

Lemma insert_listing_wf now db L : db_wf db -> db_wf (fst (insert_listing now db L)).
Proof.
  intros [Hnd Hpos]. destruct (url_taken db (url L)) eqn:E.
  - destruct (insert_listing_duplicate now db L E) as [Hl _].
    unfold db_wf. by rewrite Hl.
  - destruct (insert_listing_new now db L E) as (row & Hu & Hi & Hl & _).
    unfold db_wf. rewrite Hl. split.
    + rewrite map_app. simpl. apply NoDup_app. split; [done|]. split.
      * intros u Hin Hin'. apply list_elem_of_In in Hin.
        apply list_elem_of_In in Hin'. destruct Hin' as [<-|[]].
        rewrite Hu in Hin. by apply url_taken_not_In in E.
      * apply NoDup_singleton.
    + apply Forall_app. split; [done|]. constructor; [|done].
      rewrite Hi. apply next_rowid_pos.
Qed.

Lemma insert_listing_stores now db L :
  url_taken (fst (insert_listing now db L)) (url L) = true.
Proof.
  destruct (url_taken db (url L)) eqn:E.
  - destruct (insert_listing_duplicate now db L E) as [Hl _].
    unfold url_taken in *. by rewrite Hl.
  - destruct (insert_listing_new now db L E) as (row & Hu & _ & Hl & _).
    unfold url_taken. rewrite Hl, existsb_app. simpl.
    rewrite Hu, String.eqb_refl. by rewrite orb_true_r.
Qed.

(** C1. For two listings with the same [url] inserted one after the other
    into a database that satisfies the table constraints: exactly one row with
    that url is stored, the second [insert_listing] leaves the stored rows
    unchanged and raises nothing, and the value it returns is the integer 0
    (the [lastrowid] of a connection on which no row was stored), not [None].
    That value is falsy and is the id of no row. *)
Theorem C1_duplicate_insert (now1 now2 : Z) (db : DB) (L1 L2 : Listing) :
  db_wf db -> url L1 = url L2 ->
  let db1 := fst (insert_listing now1 db L1) in
  let db2 := fst (insert_listing now2 db1 L2) in
  let r2 := snd (insert_listing now2 db1 L2) in
  rows_with_url db2 (url L1) = 1%nat /\
  listings db2 = listings db1 /\
  r2 = Py.Returns (Some 0) /\
  r2 <> Py.Returns None /\
  id_truthy (Some 0) = false /\
  Forall (fun r => l_id r <> 0) (listings db2).
Proof.
  intros Hwf Hurl db1 db2 r2.
  pose proof (insert_listing_wf now1 db L1 Hwf) as Hwf1. fold db1 in Hwf1.
  pose proof (insert_listing_stores now1 db L1) as Htaken. fold db1 in Htaken.
  rewrite Hurl in Htaken.
  destruct (insert_listing_duplicate now2 db1 L2 Htaken) as [Hl Hr].
  fold db2 in Hl. fold r2 in Hr.
  split; [|split; [done|split; [done|split; [by rewrite Hr|split; [done|]]]]].
  - unfold rows_with_url. rewrite Hl, Hurl. destruct Hwf1 as [Hnd _].
    apply count_url_NoDup; [done|]. by apply url_taken_In.
  - rewrite Hl. destruct Hwf1 as [_ Hpos].
    eapply Forall_impl; [exact Hpos|]. simpl. intros r Hr1. lia.
Qed.

(** The same listing inserted twice into a new database: the first call
    returns id 1, the second returns 0. *)
Lemma C1_witness :
  snd (insert_listing 10 init_database test_listing) = Py.Returns (Some 1) /\
  snd (insert_listing 20 (fst (insert_listing 10 init_database test_listing))
         test_listing) = Py.Returns (Some 0) /\
  rows_with_url
    (fst (insert_listing 20 (fst (insert_listing 10 init_database test_listing))
            test_listing))
    (url test_listing) = 1%nat.
Proof.
  pose proof (C1_duplicate_insert 10 20 init_database test_listing test_listing
                init_database_wf eq_refl) as H.
  simpl in H. destruct H as (H1 & _ & H2 & _).
  split; [reflexivity|]. split; [exact H2|exact H1].
Defined.

End Dedup.

(** ** Hot-deal notifications *)

Section Notify.

Import DatabaseManager Notifications JobScheduler.

Variables (now : Z) (notifiers : gmap string Notifier).

Lemma discord_never_raises webhook_url requests_post listing :
  exists success,
    discord_send_hot_deal_alert webhook_url requests_post listing = Py.Returns success.
Proof.
  unfold discord_send_hot_deal_alert.
  destruct (negb _); [by eexists|].
  destruct (requests_post listing) as [code|e]; [|by eexists].
  destruct (code =? 204); by eexists.
Qed.

Lemma main_notifiers_report webhook_url email_configured requests_post
    requests_post_summary smtp_alert smtp_summary deal :
  reports_by_result
    (main_notifiers webhook_url email_configured requests_post
       requests_post_summary smtp_alert smtp_summary) deal.
Proof.
  intros channel notifier. unfold main_notifiers.
  destruct email_configured, (setting_truthy webhook_url);
    rewrite ?lookup_insert; repeat case_decide; rewrite ?lookup_empty;
    intros [= <-]; simpl; eauto using discord_never_raises.
Qed.

Lemma notify_channel_logs channel deal db :
  reports_by_result notifiers deal -> is_Some (id deal) ->
  exists rows,
    notify_channel now notifiers channel deal db =
      (mkDB (listings db) (listings_seq db) (training_data db) (training_seq db)
         (notifications db ++ rows)
         (notifications_seq db + Z.of_nat (length rows)),
       Py.Returns tt) /\
    log_entries rows = channel_entry notifiers deal channel.
Proof.
  intros Hrep [i Hi]. unfold notify_channel, channel_entry. rewrite Hi.
  destruct (notifiers !! channel) as [n|] eqn:En.
  - destruct (Hrep channel n En) as [b Hb]. rewrite Hb.
    eexists [_]. split; [reflexivity|reflexivity].
  - exists []. split; [|done]. destruct db; simpl.
    by rewrite app_nil_r, Z.add_0_r.
Qed.

Lemma send_logs st deal :
  reports_by_result notifiers deal -> is_Some (id deal) ->
  exists rows,
    notifications (database (_send_hot_deal_notifications now notifiers st deal)) =
      (notifications (database st) ++ rows)%list /\
    log_entries rows = deal_entries notifiers deal.
Proof.
  intros Hrep Hid. unfold _send_hot_deal_notifications.
  destruct (notify_channel_logs "discord" deal (database st) Hrep Hid)
    as (rows1 & -> & H1).
  match goal with |- context [notify_channel now notifiers "email" deal ?d] =>
    destruct (notify_channel_logs "email" deal d Hrep Hid) as (rows2 & -> & H2)
  end.
  exists (rows1 ++ rows2)%list. simpl. split.
  - by rewrite app_assoc.
  - unfold log_entries, deal_entries in *. by rewrite map_app, H1, H2.
Qed.

Lemma notify_hot_deals_logs hot_deals st :
  Forall (fun deal => reports_by_result notifiers deal /\ is_Some (id deal)) hot_deals ->
  exists rows,
    notifications (database (notify_hot_deals now notifiers st hot_deals)) =
      (notifications (database st) ++ rows)%list /\
    log_entries rows = concat (List.map (deal_entries notifiers) hot_deals).
Proof.
  unfold notify_hot_deals. revert st.
  induction hot_deals as [|deal deals IH]; intros st Hall; simpl.
  - exists []. by rewrite app_nil_r.
  - apply Forall_cons in Hall as [[Hrep Hid] Hall].
    destruct (send_logs st deal Hrep Hid) as (rows1 & E1 & H1).
    destruct (IH (_send_hot_deal_notifications now notifiers st deal) Hall)
      as (rows2 & E2 & H2).
    exists (rows1 ++ rows2)%list. split.
    + by rewrite E2, E1, app_assoc.
    + unfold log_entries in *. by rewrite map_app, H1, H2.
Qed.

(** C8. When the notifiers report their outcome as the success flag they
    return (as [DiscordNotifier] does, which catches every exception, and as
    the notifier interface specifies), a hot deal dispatched to the discord
    and email channels is sent on both, whatever the first one answers, and
    the notification log gains one entry per channel carrying that channel's
    own flag, [false] for a channel that failed. Over a list of hot deals
    every deal is handled in turn, and the log grows by the entries of each.
    The notifiers that [main.py] configures do report by their result. *)
Theorem C8_channels_logged_separately :
  (forall st deal discord email listing_id s_discord s_email,
     notifiers !! "discord" = Some discord ->
     notifiers !! "email" = Some email ->
     id deal = Some listing_id ->
     send_hot_deal_alert discord deal = Py.Returns s_discord ->
     send_hot_deal_alert email deal = Py.Returns s_email ->
     exists rows,
       notifications (database (_send_hot_deal_notifications now notifiers st deal)) =
         (notifications (database st) ++ rows)%list /\
       log_entries rows =
         [(listing_id, "discord", s_discord); (listing_id, "email", s_email)]) /\
  (forall st hot_deals,
     Forall (fun deal => reports_by_result notifiers deal /\ is_Some (id deal)) hot_deals ->
     exists rows,
       notifications (database (notify_hot_deals now notifiers st hot_deals)) =
         (notifications (database st) ++ rows)%list /\
       log_entries rows = concat (List.map (deal_entries notifiers) hot_deals)) /\
  (forall webhook_url email_configured requests_post requests_post_summary
          smtp_alert smtp_summary deal,
     reports_by_result
       (main_notifiers webhook_url email_configured requests_post
          requests_post_summary smtp_alert smtp_summary) deal).
Proof.
  split; [|split].
  - intros st deal discord email i sd se Hd He Hi Hsd Hse.
    unfold _send_hot_deal_notifications, notify_channel.
    rewrite Hd, Hsd, Hi. simpl. rewrite He, Hse. simpl.
    eexists [_; _]. split; [by rewrite <- app_assoc|reflexivity].
  - intros st hot_deals Hall. by apply notify_hot_deals_logs.
  - apply main_notifiers_report.
Qed.

End Notify.

(** The discord webhook answers 500 and the e-mail is sent: two log entries,
    the first with [success = false]. *)
Lemma C8_witness :
  exists rows,
    DatabaseManager.notifications
      (JobScheduler.database
         (JobScheduler._send_hot_deal_notifications 0 Scenario.both_channels
            Scenario.start Scenario.hot_deal)) = ([] ++ rows)%list /\
    JobScheduler.log_entries rows = [(7, "discord", false); (7, "email", true)].
Proof.
  destruct (C8_channels_logged_separately 0 Scenario.both_channels) as (H & _ & _).
  apply (H Scenario.start
           Scenario.hot_deal Scenario.discord_down Scenario.email_up 7 false true);
    reflexivity.
Defined.

(** ** List lookups *)

Section Lookups.

Lemma lookup_map {A B} (f : A -> B) (l : list A) (i : nat) :
  List.map f l !! i = f <$> (l !! i).
Proof. revert i. induction l as [|x l IH]; intros [|i]; simpl; auto. Qed.

Lemma lookup_combine {A B} (xs : list A) (ys : list B) (i : nat) :
  List.combine xs ys !! i =
  match xs !! i, ys !! i with
  | Some x, Some y => Some (x, y)
  | _, _ => None
  end.
Proof.
  revert ys i. induction xs as [|x xs IH]; intros [|y ys] [|i]; simpl; auto.
  by destruct (xs !! i).
Qed.

Lemma lookup_repeat {A} (x : A) (n i : nat) :
  (i < n)%nat -> repeat x n !! i = Some x.
Proof.
  revert i. induction n as [|n IH]; intros [|i] H; simpl; try lia; auto.
  apply IH. lia.
Qed.

Lemma lookup_map2_num f xs ys i x y :
  xs !! i = Some x -> ys !! i = Some y ->
  Pandas.map2_num f xs ys !! i = Some (Pandas.lift2 f x y).
Proof.
  intros Hx Hy. unfold Pandas.map2_num.
  by rewrite lookup_map, lookup_combine, Hx, Hy.
Qed.

Lemma length_map2_num f xs ys :
  length xs = length ys -> length (Pandas.map2_num f xs ys) = length xs.
Proof.
  intros H. unfold Pandas.map2_num.
  rewrite List.length_map, List.length_combine. lia.
Qed.

Lemma lookup_cell (xs : list (option Q)) (i : nat) :
  (i < length xs)%nat -> xs !! i = Some (LabelSpec.cell xs i).
Proof.
  intros H. unfold LabelSpec.cell.
  destruct (lookup_lt_is_Some_2 xs i H) as [x ->]. done.
Qed.

End Lookups.

(** ** Synthetic labels *)

Section SyntheticLabels.

Import Pandas DealScoreModel LabelSpec.

Variable ext : External.Lib.

Lemma elem_of_unique (xs : list (option string)) y : y ∈ unique xs <-> y ∈ xs.
Proof.
  induction xs as [|x xs IH]; simpl; [done|].
  rewrite !elem_of_cons, <- IH, !list_elem_of_In, filter_In, <- !list_elem_of_In.
  destruct (decide (y = x)) as [->|Hne]; [tauto|].
  rewrite bool_decide_eq_false_2 by done. simpl. tauto.
Qed.

Lemma NoDup_unique (xs : list (option string)) : NoDup (unique xs).
Proof.
  induction xs as [|x xs IH]; simpl; [constructor|].
  apply NoDup_cons. split.
  - rewrite list_elem_of_In, filter_In. intros [_ H].
    by rewrite bool_decide_eq_true_2 in H.
  - apply NoDup_ListNoDup, List.NoDup_filter, NoDup_ListNoDup, IH.
Qed.

Section PriceTerm.

Variables (plat : list (option string)) (prices : list (option Q)) (n : nat).
Hypothesis Hplat : length plat = n.
Hypothesis Hprices : length prices = n.

Local Abbreviation group := (LabelSpec.group plat prices).
Local Abbreviation guard := (LabelSpec.guard ext plat prices).
Local Abbreviation upd := (LabelSpec.upd ext plat prices).
Local Abbreviation add_price_term := (DealScoreModel.add_price_term ext).

Lemma add_price_term_length deal p :
  length deal = n -> length (add_price_term plat prices deal p) = n.
Proof.
  intros Hd. unfold DealScoreModel.add_price_term. destruct (_ && _); [|done].
  unfold platform_mask.
  rewrite List.length_map, !List.length_combine, List.length_map. lia.
Qed.

Lemma add_price_term_lookup deal p i x pr d :
  length deal = n ->
  plat !! i = Some x -> prices !! i = Some pr -> deal !! i = Some d ->
  add_price_term plat prices deal p !! i = Some (upd p x pr d).
Proof.
  intros Hd Hx Hpr Hdi. unfold DealScoreModel.add_price_term, LabelSpec.upd, LabelSpec.guard, LabelSpec.group.
  destruct (_ && _); simpl; [|done].
  rewrite lookup_map, !lookup_combine. unfold platform_mask.
  rewrite lookup_map, Hx, Hpr, Hdi. simpl. unfold on_platform.
  by destruct p, x.
Qed.

Lemma fold_price_term_length ps deal :
  length deal = n -> length (fold_left (add_price_term plat prices) ps deal) = n.
Proof.
  revert deal. induction ps as [|p ps IH]; intros deal Hd; simpl; [done|].
  apply IH. by apply add_price_term_length.
Qed.

Lemma fold_price_term_lookup ps deal i x pr d :
  length deal = n ->
  plat !! i = Some x -> prices !! i = Some pr -> deal !! i = Some d ->
  fold_left (add_price_term plat prices) ps deal !! i =
  Some (fold_left (fun d p => upd p x pr d) ps d).
Proof.
  revert deal d. induction ps as [|p ps IH]; intros deal d Hd Hx Hpr Hdi; simpl; [done|].
  apply IH; [by apply add_price_term_length|done..|].
  by apply add_price_term_lookup.
Qed.

Lemma on_platform_eq p x : on_platform p x = true -> p = x.
Proof.
  destruct p as [a|], x as [b|]; simpl; try done.
  intros H%String.eqb_eq. by subst.
Qed.

Lemma row_fold_other ps x pr d :
  x ∉ ps -> fold_left (fun d p => upd p x pr d) ps d = d.
Proof.
  revert d. induction ps as [|p ps IH]; intros d Hnotin; simpl; [done|].
  apply not_elem_of_cons in Hnotin as [Hne Hnotin].
  rewrite IH by done. unfold LabelSpec.upd.
  destruct (on_platform p x) eqn:E; [|by rewrite andb_false_r].
  apply on_platform_eq in E. congruence.
Qed.

Lemma row_fold_own ps x pr d :
  NoDup ps -> x ∈ ps ->
  fold_left (fun d p => upd p x pr d) ps d = upd x x pr d.
Proof.
  revert d. induction ps as [|p ps IH]; intros d Hnd Hin; simpl.
  - by apply elem_of_nil in Hin.
  - apply NoDup_cons in Hnd as [Hnotin Hnd].
    destruct (decide (x = p)) as [->|Hne].
    + by apply row_fold_other.
    + apply elem_of_cons in Hin as [?|Hin]; [done|].
      rewrite IH by done. f_equal. unfold LabelSpec.upd.
      destruct (on_platform p x) eqn:E; [|by rewrite andb_false_r].
      apply on_platform_eq in E. congruence.
Qed.

Lemma mask_list_nil_mask {A} (xs : list A) (mask : list bool) :
  Forall (fun b => b = false) mask -> mask_list mask xs = [].
Proof.
  revert xs. induction mask as [|b mask IH]; intros [|x xs] H; simpl; try done.
  apply Forall_cons in H as [-> H]. by apply IH.
Qed.

Lemma guard_None : guard None = false.
Proof.
  unfold LabelSpec.guard, LabelSpec.group. rewrite mask_list_nil_mask; [done|].
  unfold platform_mask. apply Forall_forall. intros b Hb.
  apply list_elem_of_In, in_map_iff in Hb as (x & <- & _). done.
Qed.

(** The price stage for record [i]: its own platform's iteration, and no
    other, may adjust it. *)
Lemma price_stage_lookup deal i x pr d :
  length deal = n ->
  plat !! i = Some x -> prices !! i = Some pr -> deal !! i = Some d ->
  fold_left (add_price_term plat prices) (unique plat) deal !! i =
  Some (if guard x then
          lift2 Qplus d (lift2 Qmult (Some 0.3%Q)
                           (lift2 Qminus (Some 1%Q) (rank_pct (group x) pr)))
        else d).
Proof.
  intros Hd Hx Hpr Hdi.
  rewrite (fold_price_term_lookup _ _ i x pr d) by done. f_equal.
  rewrite row_fold_own; [|apply NoDup_unique|].
  - unfold LabelSpec.upd. destruct x as [b|]; [|by rewrite guard_None].
    simpl. by rewrite String.eqb_refl, andb_true_r.
  - apply elem_of_unique. by eapply list_elem_of_lookup_2.
Qed.

End PriceTerm.

Lemma has_column_lookup df name :
  has_column df name = true <-> is_Some (lookup_col df name).
Proof.
  unfold has_column, columns. induction df as [|[n c] df IH]; simpl.
  - split; [done|by intros [? ?]].
  - destruct (String.eqb name n); simpl; [by split; eauto|exact IH].
Qed.

Lemma get_num_has_column df name xs :
  get_num df name = Py.Returns xs -> has_column df name = true.
Proof.
  unfold get_num, get. intros H. apply has_column_lookup.
  destruct (lookup_col df name); [by eexists|done].
Qed.

Lemma cell_map (g : option Q -> option Q) xs i :
  (i < length xs)%nat -> cell (List.map g xs) i = g (cell xs i).
Proof.
  intros H. unfold cell. rewrite lookup_map.
  by destruct (lookup_lt_is_Some_2 xs i H) as [x ->].
Qed.

Lemma cell_map2_num f xs ys i :
  (i < length xs)%nat -> (i < length ys)%nat ->
  cell (map2_num f xs ys) i = lift2 f (cell xs i) (cell ys i).
Proof.
  intros Hx Hy. unfold cell.
  destruct (lookup_lt_is_Some_2 xs i Hx) as [x Ex].
  destruct (lookup_lt_is_Some_2 ys i Hy) as [y Ey].
  by rewrite (lookup_map2_num f xs ys i x y Ex Ey), Ex, Ey.
Qed.

(** The price stage of [_create_synthetic_labels], for record [i]. *)
Lemma price_stage c n (deal : list (option Q)) i :
  length (platform c) = n -> length (price c) = n -> (i < n)%nat ->
  deal =
    (if existsb (fun x => bool_decide (is_Some x)) (price c)
     then fold_left (add_price_term ext (platform c) (price c)) (unique (platform c))
            (repeat (Some 0.5%Q) n)
     else repeat (Some 0.5%Q) n) ->
  length deal = n /\
  cell deal i =
    (if price_varies ext c i then lift2 Qplus (Some 0.5%Q) (price_term c i)
     else Some 0.5%Q).
Proof.
  intros Hp Hpr Hi ->.
  destruct (lookup_lt_is_Some_2 (platform c) i ltac:(lia)) as [x Ex].
  destruct (lookup_lt_is_Some_2 (price c) i ltac:(lia)) as [pr Epr].
  assert (Hgroup : platform_prices c i = LabelSpec.group (platform c) (price c) x).
  { unfold platform_prices, LabelSpec.group. by rewrite Ex. }
  assert (Hvar : price_varies ext c i =
                 existsb (fun x => bool_decide (is_Some x)) (price c) &&
                 LabelSpec.guard ext (platform c) (price c) x).
  { unfold price_varies, LabelSpec.guard. by rewrite Hgroup. }
  rewrite Hvar.
  destruct (existsb (fun x => bool_decide (is_Some x)) (price c)) eqn:Eany; cbn [andb].
  - split; [apply (fold_price_term_length _ _ n); [done..|apply repeat_length]|].
    unfold cell.
    rewrite (price_stage_lookup (platform c) (price c) n Hp Hpr _ i x pr (Some 0.5%Q));
      [|apply repeat_length|done..|by apply lookup_repeat].
    simpl. unfold price_term, cell. by rewrite Hgroup, Epr.
  - split; [apply repeat_length|].
    unfold cell. by rewrite lookup_repeat.
Qed.

Lemma length_map2_num' f xs ys n :
  length xs = n -> length ys = n -> length (map2_num f xs ys) = n.
Proof. intros <- H. by apply length_map2_num. Qed.

(** The stages after the price stage, for record [i]. *)
Lemma adjust_stage c n (deal : list (option Q)) :
  length (condition_score c) = n -> length (lq4_priority_score c) = n ->
  length (estimated_distance c) = n -> length (platform_reliability c) = n ->
  length deal = n ->
  let labels :=
    List.map (clip 0 1)
      (map2_num Qplus
         (map2_num Qminus
            (map2_num Qplus
               (map2_num Qplus deal
                  (List.map (lift2 Qmult (Some 0.2%Q))
                     (List.map
                        (fun x => div_cells
                           (lift2 Qminus x (series_min (condition_score c)))
                           (lift2 Qplus
                              (lift2 Qminus (series_max (condition_score c))
                                 (series_min (condition_score c)))
                              (Some (1 # 100000000)%Q)))
                        (condition_score c))))
               (List.map (lift2 Qmult (Some 0.3%Q))
                  (List.map
                     (fun x => div_cells x
                        (lift2 Qplus (series_max (lq4_priority_score c))
                           (Some (1 # 100000000)%Q)))
                     (lq4_priority_score c))))
            (List.map (fun d => clip 0 0.2 (lift2 Qdiv d (Some 1000%Q)))
               (estimated_distance c)))
         (List.map (lift2 Qmult (Some 0.1%Q)) (platform_reliability c))) in
  length labels = n /\
  forall i, (i < n)%nat -> labels !! i = Some (adjust c i (cell deal i)).
Proof.
  intros Lcs Llq4 Ldist Lrel Ldeal labels.
  assert (Llabels : length labels = n).
  { subst labels. rewrite List.length_map.
    repeat apply length_map2_num'; rewrite ?List.length_map; done. }
  split; [done|]. intros i Hi.
  rewrite lookup_cell by lia. f_equal. subst labels.
  assert (L1 := length_map2_num').
  rewrite cell_map;
    [|rewrite (L1 _ _ _ n); [lia|repeat apply L1; rewrite ?List.length_map; done|
                             by rewrite List.length_map]].
  rewrite cell_map2_num;
    [|rewrite (L1 _ _ _ n); [lia|repeat apply L1; rewrite ?List.length_map; done|
                             by rewrite List.length_map]
     |rewrite List.length_map; lia].
  rewrite cell_map2_num;
    [|rewrite (L1 _ _ _ n); [lia|repeat apply L1; rewrite ?List.length_map; done|
                             by rewrite !List.length_map]
     |rewrite List.length_map; lia].
  rewrite cell_map2_num;
    [|rewrite (L1 _ _ _ n); [lia|done|by rewrite !List.length_map]
     |rewrite !List.length_map; lia].
  rewrite cell_map2_num; [|lia|rewrite !List.length_map; lia].
  rewrite !cell_map by (rewrite ?List.length_map; lia).
  reflexivity.
Qed.

Lemma synthetic_labels_rows df c :
  columns_of df c ->
  exists labels,
    _create_synthetic_labels ext df = Py.Returns (set df "deal_score" (NumCol labels)) /\
    length labels = len df /\
    forall i, (i < len df)%nat -> labels !! i = Some (heuristic_label ext c i).
Proof.
  intros (Hplat & Hprice & Hcs & Hlq4 & Hdist & Hrel & Lplat & Lprice & Lcs & Llq4 & Ldist & Lrel).
  unfold _create_synthetic_labels.
  rewrite (get_num_has_column _ _ _ Hprice), (get_num_has_column _ _ _ Hcs),
    (get_num_has_column _ _ _ Hlq4), (get_num_has_column _ _ _ Hdist),
    (get_num_has_column _ _ _ Hrel).
  rewrite Hprice, Hcs, Hlq4, Hdist, Hrel, Hplat.
  cbn [Py.bind].
  destruct (existsb (fun x => bool_decide (is_Some x)) (price c)) eqn:Eany; cbn [Py.bind].
  - set (deal := fold_left _ _ _).
    assert (Hstage : forall i, (i < len df)%nat ->
              length deal = len df /\
              cell deal i = (if price_varies ext c i
                             then lift2 Qplus (Some 0.5%Q) (price_term c i)
                             else Some 0.5%Q)).
    { intros i Hi. apply (price_stage c (len df)); [done..|by rewrite Eany]. }
    assert (Ldeal : length deal = len df).
    { apply (fold_price_term_length _ _ (len df)); [done..|apply repeat_length]. }
    eexists. split; [reflexivity|].
    destruct (adjust_stage c (len df) deal Lcs Llq4 Ldist Lrel Ldeal) as [HL Hrows].
    split; [exact HL|]. intros i Hi. rewrite (Hrows i Hi).
    unfold heuristic_label. by destruct (Hstage i Hi) as [_ ->].
  - set (deal := repeat _ _).
    assert (Hstage : forall i, (i < len df)%nat ->
              length deal = len df /\
              cell deal i = (if price_varies ext c i
                             then lift2 Qplus (Some 0.5%Q) (price_term c i)
                             else Some 0.5%Q)).
    { intros i Hi. apply (price_stage c (len df)); [done..|by rewrite Eany]. }
    assert (Ldeal : length deal = len df) by apply repeat_length.
    eexists. split; [reflexivity|].
    destruct (adjust_stage c (len df) deal Lcs Llq4 Ldist Lrel Ldeal) as [HL Hrows].
    split; [exact HL|]. intros i Hi. rewrite (Hrows i Hi).
    unfold heuristic_label. by destruct (Hstage i Hi) as [_ ->].
Qed.

End SyntheticLabels.

Section SyntheticLabelClaim.

Import Pandas DealScoreModel LabelSpec.

(** Two ebay listings at the same price get no price term, whatever else
    the library computes, once it finds the standard deviation of the two
    equal prices not positive. *)
Lemma same_price_label (ext : External.Lib) :
  External.std_positive ext [Some 1000%Q; Some 1000%Q] = false ->
  price_varies ext same_price 0 = false /\
  cell_eqb (heuristic_label ext same_price 0) (Some 0.58%Q) = true /\
  _create_synthetic_labels ext (frame same_price) =
    Py.Returns (set (frame same_price) "deal_score"
                  (NumCol [heuristic_label ext same_price 0;
                           heuristic_label ext same_price 1])).
Proof.
  intros Hstd.
  assert (Hv : forall i, price_varies ext same_price i = false).
  { intros i. unfold price_varies, platform_prices.
    destruct i as [|[|i]]; cbn; by rewrite ?Hstd. }
  split; [apply Hv|]. split.
  - unfold heuristic_label. by rewrite Hv.
  - destruct (synthetic_labels_rows ext (frame same_price) same_price)
      as (labels & -> & Hlen & Hrows); [by repeat split|].
    do 2 f_equal. f_equal.
    pose proof (Hrows 0%nat ltac:(cbn; lia)) as H0.
    pose proof (Hrows 1%nat ltac:(cbn; lia)) as H1.
    destruct labels as [|l0 [|l1 [|l2 labels]]]; try done.
    cbn in H0, H1. congruence.
Qed.




End SyntheticLabelClaim.

(** ** Prediction *)

Section Predict.

Import Pandas DealScoreModel.

Lemma bind_Returns_inv {A B} (m : Py.outcome A) (k : A -> Py.outcome B) b :
  Py.bind m k = Py.Returns b -> exists a, m = Py.Returns a /\ k a = Py.Returns b.
Proof. destruct m as [a|e]; simpl; [eauto|done]. Qed.

Lemma select_present df names :
  (forall name, In name names -> has_column df name = true) ->
  exists X,
    select df names = Py.Returns X /\
    columns X = names /\
    forall name, In name names -> lookup_col X name = lookup_col df name.
Proof.
  induction names as [|n names IH]; intros Hall; simpl.
  - by exists [].
  - destruct IH as (X & -> & Hcols & Hlook); [intros; apply Hall; by right|].
    assert (Hn : is_Some (lookup_col df n)).
    { apply has_column_lookup, Hall. by left. }
    destruct Hn as [c Hc]. unfold get. rewrite Hc. simpl.
    exists ((n, c) :: X). split; [done|]. split; [simpl; by rewrite Hcols|].
    intros name [->|Hin]; simpl.
    + by rewrite String.eqb_refl.
    + destruct (String.eqb_spec name n) as [->|]; [done|by apply Hlook].
Qed.

Lemma select_missing df pre c post :
  (forall name, In name pre -> has_column df name = true) ->
  has_column df c = false ->
  select df (pre ++ c :: post) = Py.Raises (Py.KeyError c).
Proof.
  intros Hpre Hc. induction pre as [|n pre IH]; simpl.
  - unfold get. destruct (lookup_col df c) eqn:E; [|done].
    assert (has_column df c = true) by (apply has_column_lookup; eauto). congruence.
  - assert (Hn : is_Some (lookup_col df n)).
    { apply has_column_lookup, Hpre. by left. }
    destruct Hn as [cn Hcn]. unfold get at 1. rewrite Hcn. simpl.
    rewrite IH; [done|]. intros; apply Hpre; by right.
Qed.

Lemma lookup_col_fillna0 X name :
  lookup_col (fillna0 X) name = fillna0_col <$> lookup_col X name.
Proof.
  induction X as [|[n c] X IH]; simpl; [done|].
  destruct (String.eqb name n); [done|exact IH].
Qed.

Lemma clip_score_range (raw : Q) : (0 <= clip_score raw <= 1)%Q.
Proof.
  unfold clip_score. split.
  - apply Q.min_glb; [apply Q.le_max_r|done].
  - apply Q.le_min_r.
Qed.

(** What [predict_deal_scores] computes once a model and a scaler are
    loaded. *)
Lemma predict_loaded ext now0 now1 st df fitted fitted_scaler :
  model st = Some fitted -> scaler st = Some fitted_scaler ->
  predict_deal_scores ext now0 now1 st df =
    (try! df_features := FeatureEngineer.create_features ext now0 now1 df in
     try! cols := match feature_columns st with
                  | Some cols => Py.Returns cols
                  | None => Py.Raises (Py.KeyError "None")
                  end in
     try! X := select df_features cols in
     try! X_scaled := Py.of_lib (Sklearn.transform fitted_scaler (fillna0 X)) in
     try! scores := Py.of_lib (Sklearn.predict fitted X_scaled) in
     Py.Returns (List.map clip_score scores)).
Proof. intros Hm Hs. unfold predict_deal_scores. by rewrite Hm, Hs. Qed.

(** C2 (amended). With a model and a scaler loaded, [predict_deal_scores]
    selects from the engineered features exactly the feature columns
    recorded at training time, in the recorded order, and treats every NaN
    cell of them as 0 before scaling. A recorded column that the engineered
    features of the batch do not contain is not zero-filled: the prediction
    fails with a [KeyError] naming the first such column. *)
Theorem C2_predict_selects_recorded_columns
    ext now0 now1 st df fitted fitted_scaler cols df_features :
  model st = Some fitted -> scaler st = Some fitted_scaler ->
  feature_columns st = Some cols ->
  FeatureEngineer.create_features ext now0 now1 df = Py.Returns df_features ->
  ((forall name, In name cols -> has_column df_features name = true) ->
   exists X,
     select df_features cols = Py.Returns X /\
     columns (fillna0 X) = cols /\
     (forall name xs,
        In name cols -> get df_features name = Py.Returns (NumCol xs) ->
        get (fillna0 X) name =
          Py.Returns (NumCol (List.map (fun x => Some (default 0%Q x)) xs))) /\
     predict_deal_scores ext now0 now1 st df =
       (try! X_scaled := Py.of_lib (Sklearn.transform fitted_scaler (fillna0 X)) in
        try! scores := Py.of_lib (Sklearn.predict fitted X_scaled) in
        Py.Returns (List.map clip_score scores))) /\
  (forall pre c post,
     cols = (pre ++ c :: post)%list ->
     (forall name, In name pre -> has_column df_features name = true) ->
     has_column df_features c = false ->
     predict_deal_scores ext now0 now1 st df = Py.Raises (Py.KeyError c)).
Proof.
  intros Hm Hs Hcols Hfeat.
  rewrite (predict_loaded ext now0 now1 st df fitted fitted_scaler Hm Hs).
  rewrite Hfeat, Hcols. cbn [Py.bind]. split.
  - intros Hall. destruct (select_present df_features cols Hall) as (X & HX & HcX & Hlook).
    exists X. rewrite HX. cbn [Py.bind]. split; [done|]. split; [|split; [|done]].
    + unfold fillna0, columns in *. rewrite map_map. simpl. exact HcX.
    + intros name xs Hin Hget. unfold get in *.
      rewrite lookup_col_fillna0, (Hlook name Hin).
      destruct (lookup_col df_features name) as [c|]; [|done].
      injection Hget as ->. done.
  - intros pre c post -> Hpre Hc. by rewrite (select_missing df_features pre c post Hpre Hc).
Qed.

End Predict.

Section PredictErrors.

Import Pandas DealScoreModel.

Lemma nve_returns {A} (a : A) : Py.never_value_error (Py.Returns a).
Proof. by intros msg. Qed.

Lemma nve_bind {A B} (m : Py.outcome A) (k : A -> Py.outcome B) :
  Py.never_value_error m -> (forall a, Py.never_value_error (k a)) ->
  Py.never_value_error (Py.bind m k).
Proof.
  intros Hm Hk msg. destruct m as [a|e]; simpl; [apply Hk|].
  intros [= ->]. by apply (Hm msg).
Qed.

Lemma nve_get df name : Py.never_value_error (get df name).
Proof. intros msg. unfold get. by destruct (lookup_col df name). Qed.

Lemma nve_get_num df name : Py.never_value_error (get_num df name).
Proof.
  apply nve_bind; [apply nve_get|]. intros [?|?|?]; by intros msg.
Qed.

Lemma nve_get_str df name : Py.never_value_error (get_str df name).
Proof.
  apply nve_bind; [apply nve_get|]. intros [?|?|?]; by intros msg.
Qed.

Lemma nve_of_lib {A} (r : Py.result A) : Py.never_value_error (Py.of_lib r).
Proof. intros msg. by destruct r. Qed.

Lemma nve_select df names : Py.never_value_error (select df names).
Proof.
  induction names as [|n names IH]; simpl; [apply nve_returns|].
  apply nve_bind; [apply nve_get|]. intros c.
  apply nve_bind; [exact IH|]. intros rest. apply nve_returns.
Qed.

Ltac nve_step :=
  first
    [ apply nve_returns
    | apply nve_get_num
    | apply nve_get_str
    | apply nve_get
    | apply nve_of_lib
    | apply nve_select
    | apply nve_bind; [|intros ?] ].

Variable ext : External.Lib.

Lemma nve_parse_all xs : Py.never_value_error (FeatureEngineer.parse_all ext xs).
Proof.
  induction xs as [|x xs IH]; simpl; [apply nve_returns|].
  apply nve_bind; [destruct x; nve_step|]. intros k.
  apply nve_bind; [exact IH|]. intros. apply nve_returns.
Qed.

Lemma nve_parse_dates xs : Py.never_value_error (FeatureEngineer.parse_dates ext xs).
Proof.
  induction xs as [|x xs IH]; simpl; [apply nve_returns|].
  apply nve_bind.
  - destruct x; [|apply nve_returns].
    apply nve_bind; [apply nve_of_lib|]. intros. apply nve_returns.
  - intros t. apply nve_bind; [exact IH|]. intros. apply nve_returns.
Qed.

Lemma nve_parse_keywords c : Py.never_value_error (FeatureEngineer.parse_keywords ext c).
Proof.
  destruct c; simpl; [apply nve_returns|apply nve_parse_all|apply nve_returns].
Qed.

Lemma nve_to_datetime c : Py.never_value_error (FeatureEngineer.to_datetime ext c).
Proof.
  destruct c; simpl; [apply nve_returns|apply nve_parse_dates|by intros msg].
Qed.

Lemma nve_create_features now0 now1 df :
  Py.never_value_error (FeatureEngineer.create_features ext now0 now1 df).
Proof.
  unfold FeatureEngineer.create_features.
  repeat nve_step; [apply nve_parse_keywords|apply nve_to_datetime].
Qed.

(** C3. [predict_deal_scores] raises its "Model not trained yet" error
    exactly when no model or no scaler is loaded. With both loaded, every
    score it returns lies in [0,1]: the scores are the regressor's raw
    outputs passed through [np.clip(., 0, 1)], which maps a raw value of any
    magnitude into [0,1]. *)
Theorem C3_untrained_error_and_clipping now0 now1 st df :
  (predict_deal_scores ext now0 now1 st df = Py.Raises (Py.ValueError untrained_message)
   <-> model st = None \/ scaler st = None) /\
  (forall scores,
     is_Some (model st) -> is_Some (scaler st) ->
     predict_deal_scores ext now0 now1 st df = Py.Returns scores ->
     (exists raw, scores = List.map clip_score raw) /\
     Forall (fun s => (0 <= s <= 1)%Q) scores) /\
  (forall raw : Q, (0 <= clip_score raw <= 1)%Q).
Proof.
  split; [|split; [|exact clip_score_range]].
  - split.
    + intros Hraise.
      destruct (model st) as [fitted|] eqn:Hm; [|by left].
      destruct (scaler st) as [fitted_scaler|] eqn:Hs; [|by right].
      exfalso. revert Hraise.
      rewrite (predict_loaded ext now0 now1 st df fitted fitted_scaler Hm Hs).
      apply nve_bind; [apply nve_create_features|]. intros feats.
      repeat nve_step. by destruct (feature_columns st).
    + unfold predict_deal_scores. intros [->| ->]; [done|]. by destruct (model st).
  - intros scores [fitted Hm] [fitted_scaler Hs].
    rewrite (predict_loaded ext now0 now1 st df fitted fitted_scaler Hm Hs).
    intros H.
    apply bind_Returns_inv in H as (feats & _ & H).
    apply bind_Returns_inv in H as (cols & _ & H).
    apply bind_Returns_inv in H as (X & _ & H).
    apply bind_Returns_inv in H as (X_scaled & _ & H).
    apply bind_Returns_inv in H as (raw & _ & H).
    injection H as <-. split; [by exists raw|].
    apply Forall_forall. intros s Hs'.
    apply list_elem_of_In, in_map_iff in Hs' as (r & <- & _). apply clip_score_range.
Qed.

End PredictErrors.

Section PredictExamples.

Import Pandas DealScoreModel Examples.

(** The scorer trained on the synthetic data predicts for the ebay batch:
    all 21 recorded columns are engineered, and raw outputs 4, 0.5 and -995
    become 1, 0.5 and 0. *)
Lemma C2_witness :
  predict_deal_scores Doubles.ext 0 0 trained_on_test_listing
    (frame_of_listings ebay_only) = Py.Returns [1%Q; 0.50%Q; 0%Q].
Proof.
  destruct (FeatureEngineer.create_features Doubles.ext 0 0 (frame_of_listings ebay_only))
    as [feats|e] eqn:Hfeat; [|by vm_compute in Hfeat].
  destruct (C2_predict_selects_recorded_columns Doubles.ext 0 0
              trained_on_test_listing (frame_of_listings ebay_only)
              Doubles.regressor Doubles.scaler synthetic_columns feats
              ltac:(vm_compute; reflexivity) ltac:(vm_compute; reflexivity)
              ltac:(vm_compute; reflexivity) Hfeat) as [H _].
  destruct H as (X & HX & _ & _ & ->).
  - vm_compute in Hfeat. injection Hfeat as <-.
    intros name Hin. simpl in Hin.
    repeat (destruct Hin as [<-|Hin]; [reflexivity|]). destruct Hin.
  - vm_compute in Hfeat. injection Hfeat as <-.
    vm_compute in HX. injection HX as <-. vm_compute. reflexivity.
Defined.

(** The scorer trained on craigslist and ebay listings recorded the column
    [platform_craigslist]; an ebay-only batch has no such column, and the
    prediction raises instead of filling it with zeros. *)
Lemma C2_counterexample :
  is_Some (model trained_on_two_platforms) /\
  is_Some (scaler trained_on_two_platforms) /\
  (exists cols, feature_columns trained_on_two_platforms = Some cols /\
                In "platform_craigslist" cols) /\
  predict_deal_scores Doubles.ext 0 0 trained_on_two_platforms
    (frame_of_listings ebay_only) = Py.Raises (Py.KeyError "platform_craigslist").
Proof.
  split; [eexists; vm_compute; reflexivity|].
  split; [eexists; vm_compute; reflexivity|]. split.
  - eexists. split; [vm_compute; reflexivity|]. simpl. tauto.
  - vm_compute. reflexivity.
Qed.

(** Raw regressor outputs 4, 0.5 and -995 are returned as 1, 0.5 and 0. *)
Lemma C3_witness :
  predict_deal_scores Doubles.ext 0 0 trained_on_test_listing
    (frame_of_listings ebay_only) = Py.Returns [1%Q; 0.50%Q; 0%Q] /\
  Forall (fun s => (0 <= s <= 1)%Q) [1%Q; 0.50%Q; 0%Q].
Proof.
  assert (H : predict_deal_scores Doubles.ext 0 0 trained_on_test_listing
                (frame_of_listings ebay_only) = Py.Returns [1%Q; 0.50%Q; 0%Q])
    by (vm_compute; reflexivity).
  split; [exact H|].
  destruct (C3_untrained_error_and_clipping Doubles.ext 0 0 trained_on_test_listing
              (frame_of_listings ebay_only)) as (_ & Hclip & _).
  apply (Hclip _); [eexists; vm_compute; reflexivity..|exact H].
Defined.

End PredictExamples.

(** ** Rectangular data frames *)

Section Rect.

Import Pandas.

Lemma rect_set n df name c : rect n df -> col_len c = n -> rect n (set df name c).
Proof.
  unfold rect. intros Hdf Hc. induction df as [|[m c0] df IH]; simpl.
  - by repeat constructor.
  - apply Forall_cons in Hdf as [H0 Hdf].
    destruct (String.eqb name m); apply Forall_cons; auto.
Qed.

Lemma rect_lookup n df name c : rect n df -> lookup_col df name = Some c -> col_len c = n.
Proof.
  unfold rect. intros Hdf. induction df as [|[m c0] df IH]; simpl; [done|].
  apply Forall_cons in Hdf as [H0 Hdf].
  destruct (String.eqb name m); [by intros [= <-]|auto].
Qed.

Lemma rect_get n df name c : rect n df -> get df name = Py.Returns c -> col_len c = n.
Proof.
  intros Hdf. unfold get. destruct (lookup_col df name) eqn:E; [|done].
  intros [= <-]. by eapply rect_lookup.
Qed.

Lemma rect_get_num n df name xs :
  rect n df -> get_num df name = Py.Returns xs -> length xs = n.
Proof.
  intros Hdf H. apply bind_Returns_inv in H as (c & Hc & H).
  destruct c; try done. injection H as <-. by apply (rect_get n df name _ Hdf Hc).
Qed.

Lemma rect_get_str n df name xs :
  rect n df -> get_str df name = Py.Returns xs -> length xs = n.
Proof.
  intros Hdf H. apply bind_Returns_inv in H as (c & Hc & H).
  destruct c; try done. injection H as <-. by apply (rect_get n df name _ Hdf Hc).
Qed.

Lemma rect_len n df : rect n df -> df <> [] -> len df = n.
Proof.
  unfold rect. destruct df as [|[m c] df]; [done|]. intros H _.
  by apply Forall_cons in H as [H _].
Qed.

Lemma set_nonempty df name c : set df name c <> [].
Proof. destruct df as [|[m c0] df]; simpl; [done|]. by destruct (String.eqb name m). Qed.

Lemma get_nonempty df name c : get df name = Py.Returns c -> df <> [].
Proof. by destruct df. Qed.

Lemma columns_set_incl df name c x : In x (columns df) -> In x (columns (set df name c)).
Proof.
  unfold columns. induction df as [|[m c0] df IH]; simpl; [done|].
  destruct (String.eqb name m); simpl; tauto.
Qed.

Lemma columns_set_own df name c : In name (columns (set df name c)).
Proof.
  unfold columns. induction df as [|[m c0] df IH]; simpl; [by left|].
  destruct (String.eqb_spec name m) as [->|]; simpl; tauto.
Qed.

Lemma length_mask_list {A} (mask : list bool) (xs : list A) :
  length mask = length xs ->
  length (mask_list mask xs) = length (List.filter (fun b => b) mask).
Proof.
  revert xs. induction mask as [|b mask IH]; intros [|x xs] H; simpl in *; try done.
  destruct b; simpl; rewrite IH; auto.
Qed.

Lemma mask_list_filter {A} (p : A -> bool) (xs : list A) :
  mask_list (List.map p xs) xs = List.filter p xs.
Proof. induction xs as [|x xs IH]; simpl; [done|]. destruct (p x); by rewrite IH. Qed.

Lemma filter_id_map {A} (p : A -> bool) (xs : list A) :
  length (List.filter (fun b => b) (List.map p xs)) = length (List.filter p xs).
Proof. induction xs as [|x xs IH]; simpl; [done|]. destruct (p x); simpl; by rewrite IH. Qed.

Lemma rect_select n df names X :
  rect n df -> select df names = Py.Returns X -> rect n X.
Proof.
  intros Hdf. revert X. induction names as [|m names IH]; simpl; intros X H.
  - injection H as <-. apply Forall_nil_2.
  - apply bind_Returns_inv in H as (c & Hc & H).
    apply bind_Returns_inv in H as (rest & Hrest & H). injection H as <-.
    apply Forall_cons. split; [by apply (rect_get n df m)|by apply IH].
Qed.

Lemma select_columns df names X : select df names = Py.Returns X -> columns X = names.
Proof.
  revert X. induction names as [|m names IH]; simpl; intros X H.
  - by injection H as <-.
  - apply bind_Returns_inv in H as (c & Hc & H).
    apply bind_Returns_inv in H as (rest & Hrest & H). injection H as <-.
    unfold columns in *. simpl. by rewrite (IH rest).
Qed.

Lemma rect_fillna0 n df : rect n df -> rect n (fillna0 df).
Proof.
  unfold rect, fillna0. rewrite Forall_map. intros Hdf.
  eapply Forall_impl; [exact Hdf|].
  intros [m c] H. simpl in *. destruct c; simpl in *; by rewrite ?List.length_map.
Qed.

Lemma rect_mask_rows n mask df :
  rect n df -> length mask = n ->
  rect (length (List.filter (fun b => b) mask)) (mask_rows mask df).
Proof.
  intros Hdf Hmask. unfold rect, mask_rows in *. rewrite Forall_map.
  eapply Forall_impl; [exact Hdf|]. intros [m c] H. simpl in *.
  destruct c; simpl in *; apply length_mask_list; congruence.
Qed.

End Rect.

Section RectFeatures.

Import Pandas FeatureEngineer.

Variable ext : External.Lib.

Ltac len_solve :=
  simpl;
  unfold str_len, str_word_count, fillna_str, contains_flag, text_combined, map2_num;
  repeat (rewrite List.length_map || rewrite List.length_combine || rewrite repeat_length);
  lia.

Ltac rect_solve :=
  repeat (apply rect_set; [|len_solve]); assumption.

Tactic Notation "inv_get" hyp(H) ident(x) ident(Hx) ident(L) constr(n) :=
  apply bind_Returns_inv in H as (x & Hx & H);
  pose proof Hx as L;
  first [ eapply (rect_get_str n) in L; [|rect_solve]
        | eapply (rect_get_num n) in L; [|rect_solve]
        | eapply (rect_get n) in L; [|rect_solve] ].

Lemma rect_text n df df' :
  rect n df -> _create_text_features ext df = Py.Returns df' -> rect n df'.
Proof.
  intros Hdf H. unfold _create_text_features in H.
  inv_get H title Ht Lt n. inv_get H description Hd Ld n.
  injection H as <-. rect_solve.
Qed.

Lemma length_parse_all xs ks :
  parse_all ext xs = Py.Returns ks -> length ks = length xs.
Proof.
  revert ks. induction xs as [|x xs IH]; simpl; intros ks H.
  - by injection H as <-.
  - apply bind_Returns_inv in H as (k & _ & H).
    apply bind_Returns_inv in H as (ks' & Hks & H). injection H as <-.
    simpl. by rewrite (IH ks').
Qed.

Lemma length_parse_keywords c ks :
  parse_keywords ext c = Py.Returns ks -> length ks = col_len c.
Proof.
  destruct c; simpl; intros H.
  - injection H as <-. by rewrite List.length_map.
  - by apply length_parse_all.
  - by injection H as <-.
Qed.

Lemma rect_condition n df df' :
  rect n df -> _create_condition_features ext df = Py.Returns df' -> rect n df'.
Proof.
  intros Hdf H. unfold _create_condition_features in H.
  inv_get H kw Hkw Lkw n.
  apply bind_Returns_inv in H as (parsed & Hp & H).
  pose proof (length_parse_keywords _ _ Hp) as Lp. rewrite Lkw in Lp.
  inv_get H title Ht Lt n. inv_get H description Hd Ld n.
  injection H as <-. rect_solve.
Qed.

Lemma rect_location n df df' :
  rect n df -> _create_location_features df = Py.Returns df' -> rect n df'.
Proof.
  intros Hdf H. unfold _create_location_features in H.
  inv_get H location Hl Ll n. injection H as <-. rect_solve.
Qed.

Lemma rect_platform_loop n (platform : list (option string)) ps df :
  rect n df -> length platform = n ->
  rect n
    (fold_left
       (fun df p =>
          set df (platform_column p)
            (NumCol
               (List.map (fun x => Some (bool_to_int
                                           match p, x with
                                           | Some a, Some b => String.eqb b a
                                           | _, _ => false
                                           end)) platform)))
       ps df).
Proof.
  revert df. induction ps as [|p ps IH]; intros df Hdf L; simpl; [done|].
  apply IH; [|done]. apply rect_set; [done|]. simpl. by rewrite List.length_map.
Qed.

Lemma rect_platform n df df' :
  rect n df -> _create_platform_features df = Py.Returns df' -> rect n df'.
Proof.
  intros Hdf H. unfold _create_platform_features in H.
  inv_get H platform Hp Lp n. injection H as <-.
  apply rect_set; [|len_solve]. by apply rect_platform_loop.
Qed.

Lemma length_parse_dates xs ts :
  parse_dates ext xs = Py.Returns ts -> length ts = length xs.
Proof.
  revert ts. induction xs as [|x xs IH]; simpl; intros ts H.
  - by injection H as <-.
  - apply bind_Returns_inv in H as (t & _ & H).
    apply bind_Returns_inv in H as (ts' & Hts & H). injection H as <-.
    simpl. by rewrite (IH ts').
Qed.

Lemma length_to_datetime c ts :
  to_datetime ext c = Py.Returns ts -> length ts = col_len c.
Proof.
  destruct c; simpl; intros H; [by injection H as <-|by apply length_parse_dates|done].
Qed.

Lemma rect_temporal n now0 now1 df df' :
  rect n df -> df <> [] ->
  _create_temporal_features ext now0 now1 df = Py.Returns df' -> rect n df'.
Proof.
  intros Hdf Hne H. unfold _create_temporal_features in H.
  assert (Hdf0 : rect n (if negb (has_column df "scraped_at")
                         then set df "scraped_at" (NumCol (repeat (Some now0) (len df)))
                         else df)).
  { destruct (negb _); [|done]. apply rect_set; [done|].
    simpl. by rewrite repeat_length, (rect_len n df). }
  revert H Hdf0. generalize (if negb (has_column df "scraped_at")
                         then set df "scraped_at" (NumCol (repeat (Some now0) (len df)))
                         else df). clear Hdf Hne df. intros df H Hdf.
  inv_get H raw Hr Lr n.
  apply bind_Returns_inv in H as (scraped_at & Hs & H).
  pose proof (length_to_datetime _ _ Hs) as Ls. rewrite Lr in Ls.
  injection H as <-. rect_solve.
Qed.

Lemma rect_engine n df df' :
  rect n df -> _create_engine_features ext df = Py.Returns df' ->
  rect n df' /\ In "lq4_priority_score" (columns df').
Proof.
  intros Hdf H. unfold _create_engine_features in H.
  inv_get H title Ht Lt n. inv_get H description Hd Ld n.
  inv_get H f1 H1 L1 n. inv_get H f2 H2 L2 n. inv_get H f3 H3 L3 n.
  inv_get H f4 H4 L4 n. inv_get H f5 H5 L5 n.
  injection H as <-. split; [rect_solve|apply columns_set_own].
Qed.

Lemma rect_create_features n now0 now1 df df' :
  rect n df -> create_features ext now0 now1 df = Py.Returns df' ->
  rect n df' /\ In "lq4_priority_score" (columns df').
Proof.
  intros Hdf H. unfold create_features in H.
  inv_get H price Hp Lp n. inv_get H title Ht Lt n.
  apply bind_Returns_inv in H as (df1 & H1 & H).
  eapply (rect_text n) in H1; [|rect_solve].
  apply bind_Returns_inv in H as (df2 & H2 & H).
  eapply (rect_condition n) in H2; [|done].
  apply bind_Returns_inv in H as (df3 & H3 & H).
  eapply (rect_location n) in H3; [|done].
  apply bind_Returns_inv in H as (df4 & H4 & H).
  pose proof H4 as H4'. eapply (rect_platform n) in H4; [|done].
  apply bind_Returns_inv in H as (df5 & H5 & H).
  eapply (rect_temporal n) in H5; [|done|].
  - apply bind_Returns_inv in H as (df6 & H6 & H). injection H as <-.
    by eapply (rect_engine n) in H6.
  - unfold _create_platform_features in H4'.
    apply bind_Returns_inv in H4' as (pl & _ & H4'). injection H4' as <-.
    apply set_nonempty.
Qed.

End RectFeatures.

Section RectLabels.

Import Pandas DealScoreModel.

Lemma rect_synthetic_labels ext n df df' :
  rect n df -> df <> [] ->
  _create_synthetic_labels ext df = Py.Returns df' ->
  rect n df' /\ forall x, In x (columns df) -> In x (columns df').
Proof.
  intros Hdf Hne H. unfold _create_synthetic_labels in H.
  pose proof (rect_len n df Hdf Hne) as Hlen. rewrite Hlen in H.
  assert (L0 : length (repeat (Some 0.5%Q) n) = n) by apply repeat_length.
  revert H L0. generalize (repeat (Some 0.5%Q) n). intros d0 H L0.
  apply bind_Returns_inv in H as (d1 & H1 & H).
  assert (L1 : length d1 = n).
  { destruct (has_column df "price"); [|by injection H1 as <-].
    apply bind_Returns_inv in H1 as (price & Hp & H1).
    pose proof (rect_get_num n _ _ _ Hdf Hp) as Lp.
    destruct (existsb _ price); [|by injection H1 as <-].
    apply bind_Returns_inv in H1 as (plat & Hpl & H1).
    pose proof (rect_get_str n _ _ _ Hdf Hpl) as Lpl.
    injection H1 as <-. by apply (fold_price_term_length ext plat price n). }
  apply bind_Returns_inv in H as (d2 & H2 & H).
  assert (L2 : length d2 = n).
  { destruct (has_column df "condition_score"); [|by injection H2 as <-].
    apply bind_Returns_inv in H2 as (cs & Hc & H2).
    pose proof (rect_get_num n _ _ _ Hdf Hc) as Lc.
    injection H2 as <-. apply length_map2_num'; by rewrite ?List.length_map. }
  apply bind_Returns_inv in H as (d3 & H3 & H).
  assert (L3 : length d3 = n).
  { destruct (has_column df "lq4_priority_score"); [|by injection H3 as <-].
    apply bind_Returns_inv in H3 as (cs & Hc & H3).
    pose proof (rect_get_num n _ _ _ Hdf Hc) as Lc.
    injection H3 as <-. apply length_map2_num'; by rewrite ?List.length_map. }
  apply bind_Returns_inv in H as (d4 & H4 & H).
  assert (L4 : length d4 = n).
  { destruct (has_column df "estimated_distance"); [|by injection H4 as <-].
    apply bind_Returns_inv in H4 as (cs & Hc & H4).
    pose proof (rect_get_num n _ _ _ Hdf Hc) as Lc.
    injection H4 as <-. apply length_map2_num'; by rewrite ?List.length_map. }
  apply bind_Returns_inv in H as (d5 & H5 & H).
  assert (L5 : length d5 = n).
  { destruct (has_column df "platform_reliability"); [|by injection H5 as <-].
    apply bind_Returns_inv in H5 as (cs & Hc & H5).
    pose proof (rect_get_num n _ _ _ Hdf Hc) as Lc.
    injection H5 as <-. apply length_map2_num'; by rewrite ?List.length_map. }
  injection H as <-. split.
  - apply rect_set; [done|]. simpl. by rewrite List.length_map.
  - intros x. apply columns_set_incl.
Qed.

End RectLabels.

(** ** Fitting on the synthetic training set *)

Section FittedOnSynthetic.

Import Pandas DealScoreModel.

Variables (ext : External.Lib) (sk : Sklearn.Lib).

Lemma synthetic_complete :
  Sklearn.complete (fst (_create_synthetic_training_data ext)) = true.
Proof.
  unfold _create_synthetic_training_data, synthetic_columns, Sklearn.complete.
  cbn [fst List.map forallb snd Sklearn.complete_col].
  assert (H : forall name, forallb (fun x => bool_decide (is_Some x)) (draws ext name) = true).
  { intros name. unfold draws. apply forallb_forall. intros x Hx.
    apply in_map_iff in Hx as (i & <- & _). by apply bool_decide_eq_true_2. }
  by rewrite !H.
Qed.

Lemma synthetic_rect :
  rect n_samples (fst (_create_synthetic_training_data ext)).
Proof.
  unfold _create_synthetic_training_data, synthetic_columns, rect.
  cbn [fst List.map].
  repeat (apply Forall_cons; split;
          [cbn [snd col_len]; unfold draws; by rewrite List.length_map, length_seq|]).
  apply Forall_nil_2.
Qed.

Lemma synthetic_len : len (fst (_create_synthetic_training_data ext)) = n_samples.
Proof.
  unfold _create_synthetic_training_data, draws, synthetic_columns, len.
  cbn [fst List.map col_len]. by rewrite List.length_map, length_seq.
Qed.

Lemma synthetic_labels_present :
  price_draws_vary ext = true ->
  forallb (fun l => bool_decide (is_Some l)) (snd (_create_synthetic_training_data ext)) = true.
Proof.
  unfold price_draws_vary, _create_synthetic_training_data. cbn [snd].
  destruct (series_min (draws ext "price")) as [lo|]; [|done].
  destruct (series_max (draws ext "price")) as [hi|]; [|done].
  intros Hvary. apply negb_true_iff in Hvary.
  apply forallb_forall. intros l Hl. apply in_map_iff in Hl as (i & <- & _).
  unfold synthetic_label. cbn [lift2 div_cells]. unfold div_nan. rewrite Hvary.
  cbn [lift2 clip fmap option_fmap option_map]. by apply bool_decide_eq_true_2.
Qed.

Lemma fit_on_synthetic st :
  Sklearn.fits_complete_data sk -> price_draws_vary ext = true ->
  exists fitted fitted_scaler metrics,
    fit_on sk st (fst (_create_synthetic_training_data ext),
                  snd (_create_synthetic_training_data ext),
                  synthetic_columns) =
      (mkState (Some fitted) (Some fitted_scaler) (Some synthetic_columns),
       Py.Returns metrics).
Proof.
  intros Hsk Hvary.
  destruct (Hsk (fst (_create_synthetic_training_data ext))
                (snd (_create_synthetic_training_data ext)))
    as (fitted_scaler & Xs & Xt & fitted & metrics & H1 & H2 & H3 & H4).
  - apply synthetic_complete.
  - rewrite synthetic_len. apply synthetic_rect.
  - rewrite synthetic_len. unfold n_samples. lia.
  - rewrite synthetic_len. unfold _create_synthetic_training_data. cbn [snd].
    by rewrite List.length_map, length_seq.
  - by apply synthetic_labels_present.
  - exists fitted, fitted_scaler, metrics. unfold fit_on.
    destruct (Sklearn.train_test_split sk _ _) as [[[X_train X_test] y_train] y_test].
    cbn [fst snd] in *. rewrite H1, H2, H3, H4. reflexivity.
Qed.

End FittedOnSynthetic.

Lemma doubles_fit_complete_data : Sklearn.fits_complete_data Doubles.sk.
Proof.
  intros X y _ _ _ _ _. cbn.
  exists Doubles.scaler, []. cbn.
  destruct (Pandas.lookup_col X "price") as [[xs|xs|xs]|];
    eexists; exists Doubles.regressor, Doubles.metrics; by repeat split.
Qed.

Lemma doubles_price_draws_vary : DealScoreModel.price_draws_vary Doubles.ext = true.
Proof. vm_compute. reflexivity. Qed.

Section TrainingSet.

Import Pandas DealScoreModel.

Variables (ext : External.Lib) (sk : Sklearn.Lib).

Lemma prepare_rows n now0 now1 df X y cols :
  rect n df ->
  prepare_training_data ext now0 now1 df = Py.Returns (X, y, cols) ->
  exists labels,
    training_labels ext now0 now1 df = Py.Returns labels /\
    y = List.filter valid_label labels /\
    len X = usable_rows labels.
Proof.
  intros Hdf H. unfold prepare_training_data in H. unfold training_labels.
  apply bind_Returns_inv in H as (feats & Hfeat & H). rewrite Hfeat. cbn [Py.bind].
  destruct (rect_create_features ext n now0 now1 df feats Hdf Hfeat) as [Rfeat Hlq4].
  apply bind_Returns_inv in H as (feats' & Hfeat' & H). rewrite Hfeat'. cbn [Py.bind].
  assert (Rfeat' : rect n feats' /\ In "lq4_priority_score" (columns feats')).
  { destruct (negb _).
    - apply rect_synthetic_labels with (n := n) in Hfeat' as [R I]; [auto|done|].
      intros ->. by simpl in Hlq4.
    - by injection Hfeat' as <-. }
  destruct Rfeat' as [Rfeat' Hlq4'].
  apply bind_Returns_inv in H as (X0 & HX0 & H).
  apply bind_Returns_inv in H as (y0 & Hy0 & H).
  injection H as <- <- <-.
  exists y0. split; [done|]. split; [by rewrite mask_list_filter|].
  pose proof (rect_get_num n _ _ _ Rfeat' Hy0) as Ly0.
  pose proof (rect_select n _ _ _ Rfeat' HX0) as RX0.
  pose proof (select_columns _ _ _ HX0) as CX0.
  unfold usable_rows. rewrite <- (filter_id_map valid_label y0).
  apply (rect_len (length (List.filter (fun b => b) (List.map valid_label y0)))).
  - apply (rect_mask_rows n); [by apply rect_fillna0|by rewrite List.length_map].
  - assert (Hin : In "lq4_priority_score" (columns X0)).
    { rewrite CX0. apply filter_In. split; [done|reflexivity]. }
    destruct X0; [done|]. done.
Qed.

Lemma synthetic_label_range lo hi p c l r rel d noise :
  match synthetic_label lo hi p c l r rel d noise with
  | Some v => (0 <= v <= 1)%Q
  | None => True
  end.
Proof.
  unfold synthetic_label, clip.
  destruct (lift2 Qplus _ noise) as [v|]; simpl; [|done].
  apply clip_score_range.
Qed.

(** C6 (amended). A row of the training input is usable when its label is
    present and within [0,1]; the price is not examined. If fewer than 10
    rows are usable, [train_model] replaces the training set by the
    synthetic one, [n_samples] = 1000 rows of drawn features whose labels
    are computed by the label formula and clipped to [0,1], and training
    produces a fitted model rather than failing: it returns its measures and
    leaves a fitted regressor, a fitted scaler and the synthetic columns as
    feature columns. Here scikit-learn is taken to fit any complete numeric
    table of ten or more labelled rows, and the drawn prices not to be all
    the same. With 10 or more usable rows [train_model] fits on those
    rows. *)
Theorem C6_synthetic_fallback n now0 now1 st df X y cols :
  rect n df ->
  prepare_training_data ext now0 now1 df = Py.Returns (X, y, cols) ->
  exists labels,
    training_labels ext now0 now1 df = Py.Returns labels /\
    y = List.filter valid_label labels /\
    len X = usable_rows labels /\
    ((usable_rows labels < 10)%nat ->
     train_model ext sk now0 now1 st df =
       fit_on sk st (fst (_create_synthetic_training_data ext),
                     snd (_create_synthetic_training_data ext),
                     synthetic_columns)) /\
    ((10 <= usable_rows labels)%nat ->
     train_model ext sk now0 now1 st df = fit_on sk st (X, y, cols)) /\
    len (fst (_create_synthetic_training_data ext)) = 1000%nat /\
    columns (fst (_create_synthetic_training_data ext)) = synthetic_columns /\
    length (snd (_create_synthetic_training_data ext)) = 1000%nat /\
    Forall (fun label => match label with
                         | Some v => (0 <= v <= 1)%Q
                         | None => True
                         end)
      (snd (_create_synthetic_training_data ext)) /\
    ((usable_rows labels < 10)%nat ->
     Sklearn.fits_complete_data sk ->
     price_draws_vary ext = true ->
     exists fitted fitted_scaler metrics,
       train_model ext sk now0 now1 st df =
         (mkState (Some fitted) (Some fitted_scaler) (Some synthetic_columns),
          Py.Returns metrics)).
Proof.
  intros Hdf Hprep.
  destruct (prepare_rows n now0 now1 df X y cols Hdf Hprep) as (labels & Hl & Hy & HX).
  exists labels. split; [done|]. split; [done|]. split; [done|].
  unfold train_model. rewrite Hprep. unfold training_set. rewrite HX.
  split; [|split; [|split; [|split; [|split; [|split]]]]];
    [| | | | | | intros Hlt Hsk Hvary; apply Nat.ltb_lt in Hlt as ->;
              apply (fit_on_synthetic ext sk st Hsk Hvary)].
  - intros Hlt. by apply Nat.ltb_lt in Hlt as ->.
  - intros Hge. by apply Nat.ltb_ge in Hge as ->.
  - unfold _create_synthetic_training_data, draws, synthetic_columns, len.
    cbn [fst List.map col_len]. by rewrite List.length_map, length_seq.
  - reflexivity.
  - unfold _create_synthetic_training_data. cbn [snd].
    by rewrite List.length_map, length_seq.
  - unfold _create_synthetic_training_data. cbn [snd].
    apply Forall_forall. intros label Hin.
    apply list_elem_of_In, in_map_iff in Hin as (i & <- & _).
    apply synthetic_label_range.
Qed.

End TrainingSet.

Section TrainingExamples.

Import Pandas DealScoreModel Examples.

Lemma rect_frame_of_listings ls : rect (length ls) (frame_of_listings ls).
Proof.
  unfold frame_of_listings, rect.
  repeat (apply Forall_cons; split; [simpl; by rewrite List.length_map|]).
  repeat (apply Forall_app; split);
    try (destruct (existsb _ ls); [|apply Forall_nil_2];
         apply Forall_cons; split; [simpl; by rewrite List.length_map|apply Forall_nil_2]).
Qed.

(** Training on the single test listing, as [main.py --test] does: the
    row limit is not reached, the synthetic set is fitted and its columns
    are recorded. *)
Lemma C6_witness :
  train_model Doubles.ext Doubles.sk 0 0 init (frame_of_listings [test_listing]) =
    fit_on Doubles.sk init
      (fst (_create_synthetic_training_data Doubles.ext),
       snd (_create_synthetic_training_data Doubles.ext),
       synthetic_columns) /\
  feature_columns trained_on_test_listing = Some synthetic_columns /\
  exists fitted fitted_scaler metrics,
    train_model Doubles.ext Doubles.sk 0 0 init (frame_of_listings [test_listing]) =
      (mkState (Some fitted) (Some fitted_scaler) (Some synthetic_columns),
       Py.Returns metrics).
Proof.
  destruct (prepare_training_data Doubles.ext 0 0 (frame_of_listings [test_listing]))
    as [[[X y] cols]|e] eqn:Hprep; [|by vm_compute in Hprep].
  destruct (C6_synthetic_fallback Doubles.ext Doubles.sk 1 0 0 init
              (frame_of_listings [test_listing]) X y cols
              (rect_frame_of_listings [test_listing]) Hprep)
    as (labels & Hl & _ & _ & Hfall & _ & _ & _ & _ & _ & Hfit).
  assert (Hfew : (usable_rows labels < 10)%nat).
  { vm_compute in Hl. injection Hl as <-. vm_compute. lia. }
  split; [by apply Hfall|]. split; [vm_compute; reflexivity|].
  apply Hfit; [exact Hfew|exact doubles_fit_complete_data|exact doubles_price_draws_vary].
Defined.

(** Ten scored listings with price 0: none is usable in the words of the
    claim, yet all ten are kept and the model is fitted on them, with their
    own feature columns, not on the synthetic set. *)
Lemma C6_counterexample :
  usable_rows_claimed (List.map deal_score free_engines) (List.map price free_engines) = 0%nat /\
  exists X y cols,
    prepare_training_data Doubles.ext 0 0 (frame_of_listings free_engines) =
      Py.Returns (X, y, cols) /\
    len X = 10%nat /\
    training_set Doubles.ext (X, y, cols) = (X, y, cols) /\
    train_model Doubles.ext Doubles.sk 0 0 init (frame_of_listings free_engines) =
      fit_on Doubles.sk init (X, y, cols) /\
    cols <> synthetic_columns.
Proof.
  split; [reflexivity|].
  destruct (prepare_training_data Doubles.ext 0 0 (frame_of_listings free_engines))
    as [[[X y] cols]|e] eqn:Hprep; [|by vm_compute in Hprep].
  exists X, y, cols. split; [done|].
  unfold train_model. rewrite Hprep.
  vm_compute in Hprep. injection Hprep as <- <- <-.
  split; [reflexivity|]. split; [reflexivity|]. split; [reflexivity|]. discriminate.
Qed.

End TrainingExamples.

(** ** Training on the stored listings *)

Section TrainingFrame.

Import Pandas DatabaseManager DealScoreModel FeatureEngineer.

Variables (ext : External.Lib) (sk : Sklearn.Lib).

Lemma lookup_platform_loop (f : option string -> Column) ps df m :
  (forall p, platform_column p <> m) ->
  lookup_col (fold_left (fun df p => set df (platform_column p) (f p)) ps df) m =
  lookup_col df m.
Proof.
  intros Hne. revert df. induction ps as [|p ps IH]; intros df; [done|].
  cbn [fold_left]. rewrite IH. by apply lookup_col_set_ne.
Qed.

Lemma has_of_lookup df name c :
  lookup_col df name = Some c -> has_column df name = true.
Proof. intros H. apply has_column_lookup. by eexists. Qed.

Ltac through_sets :=
  repeat first
    [ rewrite lookup_col_set_eq
    | rewrite lookup_col_set_ne by discriminate
    | rewrite lookup_platform_loop
        by (intros ?; unfold platform_column; cbn; discriminate) ].

Ltac read_column H :=
  unfold get_num, get_str, get; through_sets; rewrite ?H; cbn [Py.bind].

(** On a table that has the columns of a stored listing, with the
    condition keywords already decoded and the time of scraping already a
    time, feature engineering returns, and it leaves the [deal_score]
    column as it was. *)
Lemma create_features_returns now0 now1 df price title description kws location
    platform scraped_at :
  lookup_col df "price" = Some (NumCol price) ->
  lookup_col df "title" = Some (StrCol title) ->
  lookup_col df "description" = Some (StrCol description) ->
  lookup_col df "condition_keywords" = Some (ObjCol kws) ->
  lookup_col df "location" = Some (StrCol location) ->
  lookup_col df "platform" = Some (StrCol platform) ->
  lookup_col df "scraped_at" = Some (NumCol scraped_at) ->
  exists feats,
    create_features ext now0 now1 df = Py.Returns feats /\
    lookup_col feats "deal_score" = lookup_col df "deal_score" /\
    lookup_col feats "location" = Some (StrCol location).
Proof.
  intros Hprice Htitle Hdesc Hkw Hloc Hplat Hsa.
  unfold create_features.
  read_column Hprice. read_column Htitle.
  unfold _create_text_features.
  read_column Htitle. read_column Hdesc.
  unfold _create_condition_features.
  read_column Hkw. cbn [parse_keywords Py.bind].
  read_column Htitle. read_column Hdesc.
  unfold _create_location_features.
  read_column Hloc.
  unfold _create_platform_features.
  read_column Hplat.
  unfold _create_temporal_features.
  match goal with
  | |- context [has_column ?d "scraped_at"] =>
      rewrite (has_of_lookup d "scraped_at" (NumCol scraped_at))
        by (through_sets; exact Hsa)
  end.
  cbn [negb].
  read_column Hsa. cbn [to_datetime Py.bind].
  unfold _create_engine_features.
  read_column Htitle. read_column Hdesc.
  read_column Htitle.
  eexists. split; [reflexivity|]. split; through_sets; [reflexivity|exact Hloc].
Qed.

Lemma lookup_col_mask_rows mask X name :
  lookup_col (mask_rows mask X) name = mask_col mask <$> lookup_col X name.
Proof.
  induction X as [|[n c] X IH]; [done|].
  cbn. by destruct (String.eqb name n).
Qed.

Lemma incomplete_of_text X name xs :
  lookup_col X name = Some (StrCol xs) -> Sklearn.complete X = false.
Proof.
  unfold Sklearn.complete.
  induction X as [|[n c] X IH]; [done|].
  cbn [lookup_col forallb snd]. destruct (String.eqb name n).
  - intros [= ->]. reflexivity.
  - intros H. rewrite (IH H). apply andb_false_r.
Qed.

Lemma has_column_In df name : In name (columns df) -> has_column df name = true.
Proof.
  intros H. unfold has_column. apply existsb_exists. exists name.
  split; [done|apply String.eqb_refl].
Qed.

(** Training data are prepared from such a table without an exception when
    it has a numeric [deal_score] column: the labels are that column, and
    the text column [location], which the exclusion list does not name, is
    among the features. *)
Lemma prepare_scored n now0 now1 df price title description kws location
    platform scraped_at scores :
  rect n df ->
  lookup_col df "price" = Some (NumCol price) ->
  lookup_col df "title" = Some (StrCol title) ->
  lookup_col df "description" = Some (StrCol description) ->
  lookup_col df "condition_keywords" = Some (ObjCol kws) ->
  lookup_col df "location" = Some (StrCol location) ->
  lookup_col df "platform" = Some (StrCol platform) ->
  lookup_col df "scraped_at" = Some (NumCol scraped_at) ->
  lookup_col df "deal_score" = Some (NumCol scores) ->
  exists X y cols,
    prepare_training_data ext now0 now1 df = Py.Returns (X, y, cols) /\
    training_labels ext now0 now1 df = Py.Returns scores /\
    len X = usable_rows scores /\
    In "location" cols /\
    lookup_col X "location" =
      Some (StrCol (mask_list (List.map valid_label scores)
                      (List.map (fun x => Some (default "0" x)) location))).
Proof.
  intros Hrect Hprice Htitle Hdesc Hkw Hloc Hplat Hsa Hscore.
  destruct (create_features_returns now0 now1 df _ _ _ _ _ _ _
              Hprice Htitle Hdesc Hkw Hloc Hplat Hsa) as (feats & Hfeats & Hkeep & Hloc').
  rewrite Hscore in Hkeep.
  assert (Hlabels : training_labels ext now0 now1 df = Py.Returns scores).
  { unfold training_labels. rewrite Hfeats. cbn [Py.bind].
    rewrite (has_of_lookup _ _ _ Hkeep). cbn [negb Py.bind].
    unfold get_num, get. by rewrite Hkeep. }
  set (cols := List.filter (fun col => negb (str_mem col exclude_cols)) (columns feats)).
  destruct (select_present feats cols) as (X0 & HX0 & Hcols & Hlook).
  { intros name Hin. apply filter_In in Hin as [Hin _]. by apply has_column_In. }
  assert (Hin : In "location" cols).
  { apply filter_In. split; [|reflexivity].
    apply has_of_lookup in Hloc'. unfold has_column in Hloc'.
    apply existsb_exists in Hloc' as (x & Hx & E). by apply String.eqb_eq in E as ->. }
  assert (Hprep : prepare_training_data ext now0 now1 df =
                  Py.Returns (mask_rows (List.map valid_label scores) (fillna0 X0),
                              mask_list (List.map valid_label scores) scores, cols)).
  { unfold prepare_training_data. rewrite Hfeats. cbn [Py.bind].
    rewrite (has_of_lookup _ _ _ Hkeep). cbn [negb Py.bind].
    fold cols. rewrite HX0. cbn [Py.bind].
    unfold get_num, get. by rewrite Hkeep. }
  do 3 eexists. split; [exact Hprep|]. split; [exact Hlabels|].
  destruct (prepare_rows ext n now0 now1 df _ _ _ Hrect Hprep) as (labels & Hl & _ & HX).
  split; [congruence|]. split; [exact Hin|].
  rewrite lookup_col_mask_rows, lookup_col_fillna0, (Hlook _ Hin), Hloc'. reflexivity.
Qed.

Lemma rect_training_frame db :
  rect (length (training_rows db)) (get_listings_for_training db).
Proof.
  unfold get_listings_for_training, rect.
  repeat (apply Forall_cons; split; [cbn [snd col_len]; by rewrite List.length_map|]).
  apply Forall_nil_2.
Qed.

(** The scores stored with the rows that the retraining job pulls. *)
Lemma prepare_training_frame now0 now1 db :
  let scores := List.map (fun lt => l_deal_score (fst lt)) (training_rows db) in
  exists X y cols,
    prepare_training_data ext now0 now1 (get_listings_for_training db) =
      Py.Returns (X, y, cols) /\
    len X = usable_rows scores /\
    In "location" cols /\
    lookup_col X "location" =
      Some (StrCol (mask_list (List.map valid_label scores)
                      (List.map (fun x => Some (default "0" x))
                         (List.map (fun lt => l_location (fst lt)) (training_rows db))))).
Proof.
  intros scores.
  destruct (prepare_scored (length (training_rows db)) now0 now1
              (get_listings_for_training db) _ _ _ _ _ _ _ scores
              (rect_training_frame db) eq_refl eq_refl eq_refl eq_refl eq_refl eq_refl
              eq_refl eq_refl)
    as (X & y & cols & Hprep & _ & HX & Hin & Hloc).
  by exists X, y, cols.
Qed.


End TrainingFrame.

(** ** Retraining job *)

Section Retraining.

Import Pandas DatabaseManager DealScoreModel JobScheduler.

Variables (ext : External.Lib) (sk : Sklearn.Lib).





(** With ten or more scored rows the training set is the stored rows, and
    the text column [location], which [exclude_cols] does not name, is one
    of its features. *)
Lemma retraining_scored_rows_location now0 now1 st :
  let rows := training_rows (database st) in
  let scores := List.map (fun lt => l_deal_score (fst lt)) rows in
  (10 <= usable_rows scores)%nat ->
  exists X y cols,
    train_model ext sk now0 now1 (scorer st) (get_listings_for_training (database st)) =
      fit_on sk (scorer st) (X, y, cols) /\
    len X = usable_rows scores /\
    In "location" cols /\
    Sklearn.complete X = false.
Proof.
  intros rows scores Hmany.
  destruct (prepare_training_frame ext now0 now1 (database st))
    as (X & y & cols & Hprep & HX & Hin & Hloc).
  exists X, y, cols. unfold train_model. rewrite Hprep. unfold training_set.
  fold rows scores in HX, Hloc. rewrite HX.
  apply Nat.ltb_ge in Hmany as ->. split; [done|]. split; [done|]. split; [done|].
  exact (incomplete_of_text _ _ _ Hloc).
Qed.

End Retraining.

Section RetrainingExamples.

Import Pandas DatabaseManager DealScoreModel JobScheduler Examples.



(** Sixty stored, labeled listings: the job retrains and writes the
    artifacts. *)
Example retraining_sixty_labeled :
  length (training_rows (labeled_db 60)) = 60%nat /\
  files (_run_model_retraining Doubles.ext Doubles.sk 0 0 (scheduler_on (labeled_db 60)))
    = mkFiles (Some Doubles.regressor) (Some (Some Doubles.scaler))
        (Some (Some synthetic_columns, "GradientBoostingRegressor")).
Proof. split; vm_compute; reflexivity. Qed.

(** Sixty stored, labeled listings, every one scored: the stored rows are
    the training set, the scaler refuses the text column [location], and
    the job writes nothing. *)
Example retraining_sixty_scored :
  length (training_rows (scored_db 60)) = 60%nat /\
  length (labeled_priced (scored_db 60)) = 60%nat /\
  files (_run_model_retraining Doubles.ext Doubles.strict_sk 0 0
           (scheduler_on (scored_db 60))) = no_files.
Proof. repeat split; vm_compute; reflexivity. Qed.


End RetrainingExamples.

(** ** Price extraction *)

Section Prices.

Import BaseScraper.

Lemma keep_chars_cons keep c s :
  keep_chars keep (String c s) =
  if keep c then String c (keep_chars keep s) else keep_chars keep s.
Proof. reflexivity. Qed.

Lemma keep_chars_app keep (a b : string) :
  keep_chars keep (a ++ b) = keep_chars keep a ++ keep_chars keep b.
Proof.
  induction a as [|c a IH]; [reflexivity|].
  rewrite str_app_cons, !keep_chars_cons, IH. by destruct (keep c).
Qed.

Lemma keep_chars_twice k1 k2 s :
  keep_chars k2 (keep_chars k1 s) = keep_chars (fun c => k1 c && k2 c) s.
Proof.
  induction s as [|c s IH]; [reflexivity|].
  rewrite !keep_chars_cons. destruct (k1 c); cbn [andb]; [|exact IH].
  rewrite keep_chars_cons, IH. by destruct (k2 c).
Qed.

Lemma keep_chars_ext k1 k2 s :
  (forall c, k1 c = k2 c) -> keep_chars k1 s = keep_chars k2 s.
Proof.
  intros H. induction s as [|c s IH]; [reflexivity|].
  by rewrite !keep_chars_cons, H, IH.
Qed.

Lemma digit_not_comma c : is_digit c = true -> is_comma c = false.
Proof.
  unfold is_digit, is_comma. intros H.
  apply andb_true_iff in H as [H1 H2].
  apply N.leb_le in H1. apply N.eqb_neq. lia.
Qed.

Lemma dot_not_comma c : is_dot c = true -> is_comma c = false.
Proof.
  unfold is_dot, is_comma. intros H. apply N.eqb_eq in H.
  apply N.eqb_neq. lia.
Qed.

Lemma digit_not_dot c : is_digit c = true -> is_dot c = false.
Proof.
  unfold is_digit, is_dot. intros H.
  apply andb_true_iff in H as [H1 H2].
  apply N.leb_le in H1. apply N.eqb_neq. lia.
Qed.

(** The cleaned text is the digits and dots of the price text, in order. *)
Lemma price_clean_digits_dots (t : string) :
  price_clean t = keep_chars (fun c => is_digit c || is_dot c) t.
Proof.
  unfold price_clean. rewrite keep_chars_twice. apply keep_chars_ext.
  intros c. destruct (is_digit c) eqn:Hd.
  - by rewrite (digit_not_comma c Hd).
  - destruct (is_dot c) eqn:Hp; [by rewrite (dot_not_comma c Hp)|].
    by destruct (is_comma c).
Qed.

Lemma price_clean_app (a b : string) :
  price_clean (a ++ b) = price_clean a ++ price_clean b.
Proof. rewrite !price_clean_digits_dots. apply keep_chars_app. Qed.

Lemma str_truthy_app_cons (a b : string) c :
  Py.str_truthy (a ++ String c b) = true.
Proof. by destruct a. Qed.

(** X1. [extract_price] reads only the digits and dots of the price text:
    a character that is neither (a currency sign, a comma, a blank, a minus
    sign, a letter) can be dropped anywhere without changing the result. *)
Theorem extract_price_skips (a b : string) (c : ascii) :
  is_digit c = false -> is_dot c = false ->
  extract_price (Some (a ++ String c b)) = extract_price (Some (a ++ b)).
Proof.
  intros Hd Hp. unfold extract_price.
  rewrite str_truthy_app_cons. cbn [negb].
  assert (Hc : price_clean (a ++ String c b) = price_clean (a ++ b)).
  { rewrite !price_clean_app. f_equal.
    rewrite !price_clean_digits_dots, keep_chars_cons. by rewrite Hd, Hp. }
  rewrite Hc.
  destruct (Py.str_truthy (a ++ b)) eqn:Ht; [reflexivity|].
  destruct a; [|discriminate]. destruct b; [|discriminate].
  reflexivity.
Qed.

Local Abbreviation dd := (fun c => is_digit c || is_dot c).

Lemma digits_value_clean (t : string) (acc : Z) :
  digits_value acc (keep_chars dd t) = None <-> (1 <= count_chars is_dot t)%nat.
Proof.
  revert acc. induction t as [|c t IH]; intros acc.
  - simpl. split; [done|lia].
  - rewrite keep_chars_cons. cbn [count_chars].
    destruct (is_digit c) eqn:Hd.
    + rewrite (digit_not_dot c Hd). cbn [orb digits_value]. rewrite Hd. apply IH.
    + destruct (is_dot c) eqn:Hp; cbn [orb digits_value].
      * rewrite Hd. split; [lia|done].
      * apply IH.
Qed.

Lemma length_clean (t : string) :
  String.length (keep_chars dd t) =
  (count_chars is_digit t + count_chars is_dot t)%nat.
Proof.
  induction t as [|c t IH]; [reflexivity|].
  rewrite keep_chars_cons. cbn [count_chars].
  destruct (is_digit c) eqn:Hd.
  - rewrite (digit_not_dot c Hd). cbn [orb String.length]. lia.
  - destruct (is_dot c); cbn [orb String.length]; lia.
Qed.

Lemma split_dot_clean (t : string) :
  exists a r, split_dot (keep_chars dd t) = (a, r) /\
    (forall acc, is_Some (digits_value acc a)) /\
    match r with
    | None => count_chars is_dot t = 0%nat /\ String.length a = count_chars is_digit t
    | Some b => exists t2, b = keep_chars dd t2 /\
                  count_chars is_dot t = S (count_chars is_dot t2) /\
                  count_chars is_digit t =
                    (String.length a + count_chars is_digit t2)%nat
    end.
Proof.
  induction t as [|c t (a & r & Hs & Ha & Hr)].
  - exists "", None. repeat split; done.
  - rewrite keep_chars_cons. cbn [count_chars].
    destruct (is_digit c) eqn:Hd.
    + rewrite (digit_not_dot c Hd). cbn [orb split_dot].
      rewrite (digit_not_dot c Hd), Hs.
      exists (String c a), r. split; [done|]. split.
      * intros acc. cbn [digits_value]. rewrite Hd. apply Ha.
      * destruct r as [b|].
        -- destruct Hr as (t2 & -> & H1 & H2). exists t2.
           cbn [String.length]. repeat split; [done|lia].
        -- cbn [String.length]. lia.
    + destruct (is_dot c) eqn:Hp; cbn [orb split_dot].
      * rewrite Hp. exists "", (Some (keep_chars dd t)).
        split; [done|]. split; [intros acc; by eexists|].
        exists t. repeat split.
      * exists a, r. done.
Qed.

Lemma float_decimal_clean (t : string) :
  (exists msg, float_decimal (keep_chars dd t) = Py.Raises (Py.ValueError msg)) <->
  count_chars is_digit t = 0%nat \/ (2 <= count_chars is_dot t)%nat.
Proof.
  unfold float_decimal.
  destruct (split_dot_clean t) as (a & r & -> & Ha & Hr).
  destruct (Ha 0) as [i Hi]. rewrite Hi.
  destruct r as [b|]; simpl (from_option _ _ _).
  - destruct Hr as (t2 & -> & H1 & H2).
    rewrite length_clean.
    pose proof (digits_value_clean t2 0) as Hdv.
    destruct (_ =? _)%nat eqn:E.
    + apply Nat.eqb_eq in E. split; [intros _; lia|by eexists].
    + apply Nat.eqb_neq in E.
      destruct (digits_value 0 (keep_chars dd t2)) as [f|].
      * split; [by intros [? ?]|].
        intros H. assert (Some f = None) by (apply Hdv; lia). done.
      * split; [intros _; right; destruct Hdv as [Hdv _]; specialize (Hdv eq_refl); lia|by eexists].
  - destruct Hr as [H1 H2]. cbn [String.length digits_value].
    destruct (_ =? _)%nat eqn:E.
    + apply Nat.eqb_eq in E. split; [intros _; lia|by eexists].
    + apply Nat.eqb_neq in E. split; [by intros [? ?]|lia].
Qed.

Lemma float_decimal_raises_value_error (s : string) (e : Py.exn) :
  float_decimal s = Py.Raises e -> exists msg, e = Py.ValueError msg.
Proof.
  unfold float_decimal. destruct (split_dot s) as [a r].
  destruct (_ =? _)%nat; [intros [= <-]; by eexists|].
  destruct (digits_value 0 a), (digits_value 0 (default "" r));
    intros [= <-] || intros [=]; by eexists.
Qed.

Lemma digits_value_nonneg (s : string) (acc v : Z) :
  0 <= acc -> digits_value acc s = Some v -> 0 <= v.
Proof.
  revert acc. induction s as [|c s IH]; intros acc Hacc; cbn [digits_value].
  - intros [= <-]. done.
  - destruct (is_digit c) eqn:Hd; [|done].
    apply IH. unfold is_digit in Hd. apply andb_true_iff in Hd as [H1 _].
    apply N.leb_le in H1. lia.
Qed.

Lemma float_decimal_nonneg (s : string) (v : Q) :
  float_decimal s = Py.Returns v -> (0 <= v)%Q.
Proof.
  unfold float_decimal. destruct (split_dot s) as [a r].
  destruct (_ =? _)%nat; [done|].
  destruct (digits_value 0 a) as [i|] eqn:Hi; [|done].
  destruct (digits_value 0 (default "" r)) as [f|] eqn:Hf; [|done].
  intros [= <-].
  apply digits_value_nonneg in Hi; [|lia]. apply digits_value_nonneg in Hf; [|lia].
  assert (H0 : (inject_Z 0 <= inject_Z i)%Q) by (rewrite <- Zle_Qle; exact Hi).
  assert (H1 : (inject_Z 0 <= inject_Z f)%Q) by (rewrite <- Zle_Qle; exact Hf).
  assert (H2 : (0 <= / inject_Z (10 ^ Z.of_nat (String.length (default "" r))))%Q).
  { apply Qinv_le_0_compat. change 0%Q with (inject_Z 0). rewrite <- Zle_Qle. apply Z.pow_nonneg. lia. }
  pose proof (Qmult_le_0_compat _ _ H1 H2) as H3.
  unfold Qdiv. 
  apply (Qplus_le_compat 0 _ 0 _ H0) in H3. exact H3.
Qed.

(** X2. [extract_price] never raises, and it finds no price exactly when the
    text holds no digit or holds two dots or more. *)
Theorem extract_price_none_iff (t : string) :
  (exists r, extract_price (Some t) = Py.Returns r) /\
  (extract_price (Some t) = Py.Returns None <->
   count_chars is_digit t = 0%nat \/ (2 <= count_chars is_dot t)%nat).
Proof.
  unfold extract_price.
  destruct t as [|c t]; [split; [by eexists|split; [left; reflexivity|done]]|].
  cbn [Py.str_truthy negb]. rewrite price_clean_digits_dots.
  pose proof (float_decimal_clean (String c t)) as Hiff.
  destruct (float_decimal _) as [v|e] eqn:Hf.
  - split; [by eexists|]. split; [done|].
    intros H. apply Hiff in H as [msg H]. done.
  - destruct (float_decimal_raises_value_error _ _ Hf) as [msg ->].
    split; [by eexists|]. split; [|done].
    intros _. apply Hiff. by eexists.
Qed.

(** X3. A price that [extract_price] returns is never negative: a leading
    minus sign is dropped with the other symbols. *)
Theorem extract_price_nonneg (t : option string) (p : Q) :
  extract_price t = Py.Returns (Some p) -> (0 <= p)%Q.
Proof.
  unfold extract_price. destruct t as [t|]; [|done].
  destruct (negb _); [done|].
  destruct (float_decimal _) as [v|e] eqn:Hf.
  - intros [= <-]. by apply float_decimal_nonneg in Hf.
  - by destruct e.
Qed.

End Prices.

Lemma extract_price_skips_witness :
  BaseScraper.extract_price (Some "$1,500.00") =
  BaseScraper.extract_price (Some "1,500.00").
Proof.
  apply (extract_price_skips "" "1,500.00" "$"); reflexivity.
Defined.

Lemma extract_price_nonneg_witness :
  BaseScraper.extract_price (Some "-$75.50") = Py.Returns (Some (7550 # 100)) /\
  (0 <= 7550 # 100)%Q.
Proof.
  split; [reflexivity|].
  apply (extract_price_nonneg (Some "-$75.50")). reflexivity.
Defined.

(** ** Condition keywords, from the scraper to the features *)

Section Keywords.

Import BaseScraper FeatureEngineer.

Lemma filter_prefix_own (tag : string) (l : list string) :
  List.filter (String.prefix tag) (List.map (fun k => tag ++ k) l) =
  List.map (fun k => tag ++ k) l.
Proof.
  induction l as [|k l IH]; [reflexivity|].
  cbn [List.map List.filter]. by rewrite prefix_app, IH.
Qed.

Lemma filter_good_of_bad (l : list string) :
  List.filter (String.prefix "good_") (List.map (fun k => "bad_" ++ k) l) = [].
Proof. induction l as [|k l IH]; [reflexivity|exact IH]. Qed.

Lemma filter_bad_of_good (l : list string) :
  List.filter (String.prefix "bad_") (List.map (fun k => "good_" ++ k) l) = [].
Proof. induction l as [|k l IH]; [reflexivity|exact IH]. Qed.

Lemma keywords_lowercase :
  Forall (fun k => Py.lower k = k)
    (Config.GOOD_CONDITION_KEYWORDS ++ Config.BAD_CONDITION_KEYWORDS).
Proof. repeat (apply Forall_cons; split; [reflexivity|]). apply Forall_nil_2. Qed.

Lemma filter_lower_keyword (text : string) (l : list string) :
  Forall (fun k => Py.lower k = k) l ->
  List.filter (fun keyword => Py.str_in (Py.lower keyword) text) l =
  List.filter (fun keyword => Py.str_in keyword text) l.
Proof.
  induction 1 as [|k l Hk _ IH]; [reflexivity|].
  cbn [List.filter]. by rewrite Hk, IH.
Qed.

(** X4. The tags that [extract_condition_keywords] writes are the ones that
    [_create_condition_features] counts: for the keywords extracted from a
    text, the good count is the number of good keywords occurring in the
    lowercased text, the bad count the number of bad ones, and no extracted
    keyword is left out of both counts. *)
Theorem condition_counts_of_extracted (text : string) :
  let keywords := extract_condition_keywords text in
  count_tagged "good_" keywords =
    Z.of_nat (length (List.filter (fun k => Py.str_in k (Py.lower text))
                        Config.GOOD_CONDITION_KEYWORDS)) /\
  count_tagged "bad_" keywords =
    Z.of_nat (length (List.filter (fun k => Py.str_in k (Py.lower text))
                        Config.BAD_CONDITION_KEYWORDS)) /\
  count_tagged "good_" keywords + count_tagged "bad_" keywords =
    Z.of_nat (length keywords).
Proof.
  pose proof keywords_lowercase as Hlow.
  apply Forall_app in Hlow as [Hg Hb].
  intros keywords. subst keywords. unfold extract_condition_keywords, count_tagged.
  destruct text as [|c text]; [by vm_compute|].
  cbn [Py.str_truthy negb].
  set (text_lower := Py.lower (String c text)).
  rewrite !List.filter_app, !filter_prefix_own, filter_good_of_bad,
    filter_bad_of_good, !(filter_lower_keyword _ _ Hg), !(filter_lower_keyword _ _ Hb).
  rewrite app_nil_r. cbn [app].
  rewrite !List.length_app, !List.length_map. lia.
Qed.

Lemma str_truthy_lower (t : string) : Py.str_truthy (Py.lower t) = Py.str_truthy t.
Proof. by destruct t. Qed.

(** X5. The text checks ignore letter case: two titles and descriptions
    that agree after lowercasing get the same relevance verdict and the same
    condition keywords, and two locations that agree after lowercasing the
    same estimated distance. *)
Theorem text_checks_ignore_case (t t' d d' : string) :
  Py.lower t = Py.lower t' -> Py.lower d = Py.lower d' ->
  is_relevant_listing t d = is_relevant_listing t' d' /\
  extract_condition_keywords t = extract_condition_keywords t' /\
  _estimate_distance (Some t) = _estimate_distance (Some t').
Proof.
  intros Ht Hd.
  assert (Htr : Py.str_truthy t = Py.str_truthy t')
    by (by rewrite <- (str_truthy_lower t), Ht, str_truthy_lower).
  split; [|split].
  - unfold is_relevant_listing. by rewrite !lower_app, Ht, Hd.
  - unfold extract_condition_keywords. by rewrite Htr, Ht.
  - unfold _estimate_distance. by rewrite Htr, Ht.
Qed.

End Keywords.

Lemma text_checks_ignore_case_witness :
  BaseScraper.is_relevant_listing "LS ENGINE" "Needs Work" =
    BaseScraper.is_relevant_listing "ls engine" "needs work" /\
  BaseScraper.extract_condition_keywords "LS ENGINE" =
    BaseScraper.extract_condition_keywords "ls engine" /\
  FeatureEngineer._estimate_distance (Some "LS ENGINE") =
    FeatureEngineer._estimate_distance (Some "ls engine").
Proof.
  apply (text_checks_ignore_case "LS ENGINE" "ls engine" "Needs Work" "needs work");
    reflexivity.
Defined.

(** ** Ranges of the engineered features *)

Section FeatureRanges.

Import Pandas FeatureEngineer.

Variable ext : External.Lib.

Lemma count_upper_le (s : string) : (count_upper s <= String.length s)%nat.
Proof.
  induction s as [|c s IH]; [done|].
  cbn [count_upper String.length]. destruct (is_upper c); lia.
Qed.

(** X6. [_caps_ratio] is a proportion: it lies between 0 and 1 for every
    text, missing and empty ones included. *)
Theorem caps_ratio_range (text : option string) :
  (0 <= _caps_ratio text <= 1)%Q.
Proof.
  unfold _caps_ratio. destruct text as [[|c s]|]; [done| |done].
  cbn [Py.str_truthy negb].
  pose proof (count_upper_le (String c s)) as Hle.
  set (u := count_upper _) in *. set (n := String.length _) in *.
  assert (Hn : (0 < n)%nat) by (subst n; cbn [String.length]; lia).
  assert (Hq : (0 < inject_Z (Z.of_nat n))%Q).
  { change 0%Q with (inject_Z 0). rewrite <- Zlt_Qlt. lia. }
  split.
  - apply Qle_shift_div_l; [exact Hq|]. rewrite Qmult_0_l.
    change 0%Q with (inject_Z 0). rewrite <- Zle_Qle. lia.
  - apply Qle_shift_div_r; [exact Hq|]. rewrite Qmult_1_l.
    rewrite <- Zle_Qle. lia.
Qed.

Lemma first_match_bound (table : list (string * Z)) (lo hi : Z) text d :
  Forall (fun kv => lo <= snd kv <= hi) table ->
  first_match table text = Some d -> lo <= d <= hi.
Proof.
  induction 1 as [|[k v] table Hkv _ IH]; [done|].
  cbn [first_match]. destruct (Py.str_in k text); [|exact IH].
  by intros [= <-].
Qed.

Lemma estimate_distance_range (location : option string) :
  0 <= _estimate_distance location <= 2900.
Proof.
  unfold _estimate_distance. destruct location as [l|]; [|lia].
  destruct (negb _); [lia|].
  destruct (first_match city_distances _) as [d|] eqn:Hc.
  - eapply first_match_bound; [|exact Hc].
    repeat (apply Forall_cons; split; [simpl; lia|]). apply Forall_nil_2.
  - destruct (first_match state_distances _) as [d|] eqn:Hs; [|lia].
    eapply first_match_bound; [|exact Hs].
    repeat (apply Forall_cons; split; [simpl; lia|]). apply Forall_nil_2.
Qed.

Lemma lt_flag_mono (a b : Q) (x : option Q) :
  (a <= b)%Q -> lt_flag a x = Some 1%Q -> lt_flag b x = Some 1%Q.
Proof.
  unfold lt_flag. intros Hab. destruct x as [d|]; [|done].
  destruct (Qlt_le_dec d a) as [H|H]; [|done]. intros _.
  destruct (Qlt_le_dec d b) as [H'|H']; [done|].
  exfalso. apply (Qlt_irrefl d). eapply Qlt_le_trans; [exact H|].
  by eapply Qle_trans.
Qed.

(** X7. The location features agree with each other: every row gets a
    distance between 0 and 2900 miles, never a missing one, and a row
    flagged local is also flagged regional. *)
Theorem location_features_consistent (df df' : DataFrame) :
  _create_location_features df = Py.Returns df' ->
  exists dist loc reg,
    get_num df' "estimated_distance" = Py.Returns dist /\
    get_num df' "is_local" = Py.Returns loc /\
    get_num df' "is_regional" = Py.Returns reg /\
    Forall (fun d => exists z, d = Some (inject_Z z) /\ 0 <= z <= 2900) dist /\
    forall i, loc !! i = Some (Some 1%Q) -> reg !! i = Some (Some 1%Q).
Proof.
  intros H. unfold _create_location_features in H.
  apply bind_Returns_inv in H as (location & Hl & H). injection H as <-.
  set (dist := List.map (fun l => Some (inject_Z (_estimate_distance l))) location).
  exists dist, (List.map (lt_flag 100) dist), (List.map (lt_flag 300) dist).
  unfold get_num.
  repeat split.
  - repeat (rewrite get_set_ne by discriminate). by rewrite get_set_eq.
  - repeat (rewrite get_set_ne by discriminate). by rewrite get_set_eq.
  - repeat (rewrite get_set_ne by discriminate). by rewrite get_set_eq.
  - subst dist. apply List.Forall_map. apply List.Forall_forall. intros l _.
    eexists. split; [reflexivity|apply estimate_distance_range].
  - intros i. rewrite !lookup_map. destruct (dist !! i) as [d|]; [|done].
    cbn [fmap option_fmap option_map]. intros Hd; apply (inj Some) in Hd. f_equal.
    apply (lt_flag_mono 100 300); [unfold Qle; simpl; lia|exact Hd].
Qed.

Lemma map2_num_map {A} (op : Q -> Q -> Q) (g h : A -> option Q) (l : list A) :
  map2_num op (List.map g l) (List.map h l) =
  List.map (fun t => lift2 op (g t) (h t)) l.
Proof.
  unfold map2_num. induction l as [|t l IH]; [reflexivity|].
  cbn [List.map List.combine fst snd]. by rewrite <- IH.
Qed.

(** X8. [lq4_priority_score] is present on every row of the output of
    [_create_engine_features] and lies between 0 and 9 (3 for LQ4, 2 for an
    LS engine, 1 for Chevy, 1 for V8 and 2 for the 6.0 displacement). *)
Theorem lq4_priority_score_range (df df' : DataFrame) :
  _create_engine_features ext df = Py.Returns df' ->
  exists scores,
    get_num df' "lq4_priority_score" = Py.Returns scores /\
    Forall (fun s => exists q, s = Some q /\ (0 <= q <= 9)%Q) scores.
Proof.
  intros H. unfold _create_engine_features in H.
  apply bind_Returns_inv in H as (title & Ht & H).
  apply bind_Returns_inv in H as (description & Hd & H).
  apply bind_Returns_inv in H as (f1 & H1 & H).
  apply bind_Returns_inv in H as (f2 & H2 & H).
  apply bind_Returns_inv in H as (f3 & H3 & H).
  apply bind_Returns_inv in H as (f4 & H4 & H).
  apply bind_Returns_inv in H as (f5 & H5 & H).
  injection H as <-.
  unfold get_num in H1, H2, H3, H4, H5.
  repeat (rewrite get_set_ne in H1 by discriminate). rewrite get_set_eq in H1.
  repeat (rewrite get_set_ne in H2 by discriminate). rewrite get_set_eq in H2.
  repeat (rewrite get_set_ne in H3 by discriminate). rewrite get_set_eq in H3.
  repeat (rewrite get_set_ne in H4 by discriminate). rewrite get_set_eq in H4.
  repeat (rewrite get_set_ne in H5 by discriminate). rewrite get_set_eq in H5.
  cbn [Py.bind] in H1, H2, H3, H4, H5.
  injection H1 as <-. injection H2 as <-. injection H3 as <-.
  injection H4 as <-. injection H5 as <-.
  eexists. split; [unfold get_num; by rewrite get_set_eq|].
  unfold contains_flag. rewrite !List.map_map, !map2_num_map.
  apply List.Forall_map. apply List.Forall_forall. intros t _.
  destruct t as [s|]; cbn [lift2 fmap option_fmap option_map].
  - destruct (External.re_search ext _ s), (External.re_search ext _ s),
      (External.re_search ext _ s), (External.re_search ext _ s),
      (External.re_search ext _ s);
      (eexists; split; [reflexivity|split; unfold Qle; simpl; lia]).
  - eexists; split; [reflexivity|split; unfold Qle; simpl; lia].
Qed.

End FeatureRanges.

Lemma location_features_consistent_witness :
  exists df' dist loc reg,
    FeatureEngineer._create_location_features
      [("location", Pandas.StrCol [Some "Brooklyn, NY"; None])] = Py.Returns df' /\
    Pandas.get_num df' "estimated_distance" = Py.Returns dist /\
    Pandas.get_num df' "is_local" = Py.Returns loc /\
    Pandas.get_num df' "is_regional" = Py.Returns reg /\
    Forall (fun d => exists z, d = Some (inject_Z z) /\ 0 <= z <= 2900) dist /\
    forall i, loc !! i = Some (Some 1%Q) -> reg !! i = Some (Some 1%Q).
Proof.
  eexists.
  destruct (location_features_consistent
              [("location", Pandas.StrCol [Some "Brooklyn, NY"; None])] _ eq_refl)
    as (dist & loc & reg & H).
  exists dist, loc, reg. split; [reflexivity|exact H].
Defined.

Lemma lq4_priority_score_range_witness :
  exists df' scores,
    FeatureEngineer._create_engine_features Doubles.ext
      [("title", Pandas.StrCol [Some "LQ4 6.0"]);
       ("description", Pandas.StrCol [None])] = Py.Returns df' /\
    Pandas.get_num df' "lq4_priority_score" = Py.Returns scores /\
    Forall (fun s => exists q, s = Some q /\ (0 <= q <= 9)%Q) scores.
Proof.
  eexists.
  destruct (lq4_priority_score_range Doubles.ext
              [("title", Pandas.StrCol [Some "LQ4 6.0"]);
               ("description", Pandas.StrCol [None])] _ eq_refl)
    as (scores & H).
  exists scores. split; [reflexivity|exact H].
Defined.

(** ** One platform at a time, and the scraper self-test *)

Ltac distinct_names :=
  apply NoDup_ListNoDup; repeat constructor; cbn; intuition discriminate.

Section ScrapePlatform.

Import ScraperManager.

Variables (SEARCH_TERMS : list string) (MAX_PAGES_PER_SITE : Z).

Lemma dict_get_None {V} (d : list (string * V)) (k : string) :
  FeatureEngineer.dict_get d k = None <-> ~ In k (List.map fst d).
Proof.
  induction d as [|[k' v] d IH]; simpl; [tauto|].
  destruct (String.eqb_spec k k') as [->|Hne]; [split; [done|tauto]|].
  rewrite IH. split; [intros H [?|?]; [congruence|tauto]|tauto].
Qed.

Lemma dict_get_In {V} (d : list (string * V)) (k : string) (v : V) :
  NoDup (List.map fst d) -> In (k, v) d -> FeatureEngineer.dict_get d k = Some v.
Proof.
  induction d as [|[k' v'] d IH]; simpl; [done|].
  rewrite NoDup_cons. intros [Hk Hd] [[= -> ->]|Hin].
  - by rewrite String.eqb_refl.
  - destruct (String.eqb_spec k k') as [->|Hne]; [|by apply IH].
    exfalso. apply Hk. apply list_elem_of_In.
    apply in_map_iff. by exists (k', v).
Qed.

(** X9. [scrape_platform] rejects a name that is not registered with
    [ValueError] before any adapter runs, and for a registered name it hands
    back exactly what that adapter returned or raised: an adapter's
    exception is not caught here, unlike in [scrape_all_platforms]. *)
Theorem scrape_platform_passes_through (scrapers : Scrapers) (st : State) :
  NoDup (List.map fst scrapers) ->
  (forall name, ~ In name (List.map fst scrapers) ->
     scrape_platform SEARCH_TERMS MAX_PAGES_PER_SITE scrapers name st =
       (st, Py.Raises (Py.ValueError ("Unknown platform: " ++ name)))) /\
  (forall name scraper, In (name, scraper) scrapers ->
     let r := scrape_platform SEARCH_TERMS MAX_PAGES_PER_SITE scrapers name st in
     snd r = scraper SEARCH_TERMS MAX_PAGES_PER_SITE /\
     called (fst r) = (called st ++ [name])%list).
Proof.
  intros Hnd. split.
  - intros name Hname. unfold scrape_platform, lookup_scraper.
    by rewrite (proj2 (dict_get_None scrapers name) Hname).
  - intros name scraper Hin. unfold scrape_platform, lookup_scraper.
    rewrite (dict_get_In scrapers name scraper Hnd Hin).
    by destruct (scraper _ _).
Qed.

(** X10. Scraping all platforms collects what scraping each registered
    platform on its own returns, in registry order; a platform whose own
    scrape raises contributes nothing. *)
Theorem scrape_all_is_scrape_each (scrapers : Scrapers) (st0 : State) :
  NoDup (List.map fst scrapers) ->
  exists st,
    scrape_all_platforms SEARCH_TERMS MAX_PAGES_PER_SITE scrapers = Py.Returns st /\
    all_listings st =
      concat
        (List.map
           (fun name =>
              match snd (scrape_platform SEARCH_TERMS MAX_PAGES_PER_SITE
                           scrapers name st0) with
              | Py.Returns listings => listings
              | Py.Raises _ => []
              end)
           (List.map fst scrapers)).
Proof.
  intros Hnd. eexists. split; [reflexivity|]. cbn [all_listings].
  rewrite (scrape_loop_listings SEARCH_TERMS MAX_PAGES_PER_SITE scrapers
             (mkState [] [] [])).
  cbn [all_listings app]. f_equal. rewrite List.map_map.
  apply List.map_ext_in. intros [name scraper] Hin.
  unfold contribution, scrape_platform, lookup_scraper. cbn [fst snd].
  rewrite (dict_get_In scrapers name scraper Hnd Hin).
  by destruct (scraper _ _).
Qed.

Lemma test_loop_lookup (scrapers : Scrapers) (acc : gmap string bool) name :
  NoDup (List.map fst scrapers) ->
  fold_left test_one scrapers acc !! name =
  match FeatureEngineer.dict_get scrapers name with
  | Some scraper =>
      Some match scraper test_terms 1 with
           | Py.Returns listings => (0 <? length listings)%nat
           | Py.Raises _ => false
           end
  | None => acc !! name
  end.
Proof.
  revert acc. induction scrapers as [|[k s] scrapers IH]; intros acc; [done|].
  cbn [List.map fst]. rewrite NoDup_cons. intros [Hk Hnd].
  cbn [fold_left FeatureEngineer.dict_get]. rewrite (IH _ Hnd).
  destruct (String.eqb_spec name k) as [->|Hne].
  - assert (Hnone : FeatureEngineer.dict_get scrapers k = None).
    { apply dict_get_None. intros Hin. apply Hk. by apply list_elem_of_In. }
    rewrite Hnone. unfold test_one.
    destruct (s test_terms 1); by rewrite lookup_insert_eq.
  - destruct (FeatureEngineer.dict_get scrapers name); [done|].
    unfold test_one. destruct (s test_terms 1); by rewrite lookup_insert_ne.
Qed.

(** X11. [test_scrapers] never raises and reports on exactly the
    registered platforms: a platform passes when its adapter returned at
    least one listing for the test terms, and fails when it returned none
    or raised. *)
Theorem test_scrapers_verdicts (scrapers : Scrapers) :
  NoDup (List.map fst scrapers) ->
  exists results,
    test_scrapers scrapers = Py.Returns results /\
    (forall name, is_Some (results !! name) <-> In name (List.map fst scrapers)) /\
    (forall name scraper, In (name, scraper) scrapers ->
       (results !! name = Some true <->
        exists listings, scraper test_terms 1 = Py.Returns listings /\ listings <> []) /\
       (results !! name = Some false <->
        scraper test_terms 1 = Py.Returns [] \/
        exists e, scraper test_terms 1 = Py.Raises e)).
Proof.
  intros Hnd. eexists. split; [reflexivity|]. split.
  - intros name. rewrite (test_loop_lookup scrapers ∅ name Hnd).
    destruct (FeatureEngineer.dict_get scrapers name) as [s|] eqn:Hg.
    + split; [intros _|by eexists].
      destruct (in_dec string_dec name (List.map fst scrapers)) as [|Hn]; [done|].
      apply dict_get_None in Hn. congruence.
    + rewrite lookup_empty. split; [by intros [? ?]|].
      intros Hin. by apply dict_get_None in Hg.
  - intros name scraper Hin.
    rewrite (test_loop_lookup scrapers ∅ name Hnd),
      (dict_get_In scrapers name scraper Hnd Hin).
    destruct (scraper test_terms 1) as [[|l ls]|e]; cbn [length Nat.ltb Nat.leb].
    + split; split; [done|by intros (? & [= <-] & ?)|by left|done].
    + split; split; [by eexists|done|done|by intros [?|[? ?]]].
    + split; split; [done|by intros (? & ? & ?)|right; by eexists|done].
Qed.

End ScrapePlatform.

Lemma scrape_platform_passes_through_witness :
  ScraperManager.scrape_platform ["LS engine"] 5 Examples.adapters "amazon"
      (ScraperManager.mkState [] [] []) =
    (ScraperManager.mkState [] [] [],
     Py.Raises (Py.ValueError "Unknown platform: amazon")) /\
  (exists e,
     snd (ScraperManager.scrape_platform ["LS engine"] 5 Examples.adapters "ebay"
            (ScraperManager.mkState [] [] [])) = Py.Raises e).
Proof.
  destruct (scrape_platform_passes_through ["LS engine"] 5 Examples.adapters
              (ScraperManager.mkState [] [] [])) as [Hunknown Hknown].
  - distinct_names.
  - split.
    + apply Hunknown. cbn. intuition discriminate.
    + eexists. reflexivity.
Defined.

Lemma scrape_all_is_scrape_each_witness :
  exists st,
    ScraperManager.scrape_all_platforms ["LS engine"] 5 Examples.adapters = Py.Returns st /\
    ScraperManager.all_listings st =
      ([Examples.stored 1] ++ [] ++ [Examples.stored 2; Examples.stored 3])%list.
Proof.
  destruct (scrape_all_is_scrape_each ["LS engine"] 5 Examples.adapters
              (ScraperManager.mkState [] [] [])
              ltac:(distinct_names))
    as (st & Hst & Hall).
  exists st. split; [exact Hst|]. rewrite Hall. reflexivity.
Defined.

Lemma test_scrapers_verdicts_witness :
  exists results,
    ScraperManager.test_scrapers Examples.adapters = Py.Returns results /\
    results !! "craigslist" = Some true /\
    results !! "ebay" = Some false /\
    results !! "amazon" = None.
Proof.
  destruct (test_scrapers_verdicts Examples.adapters
              ltac:(distinct_names))
    as (results & Hr & Hkeys & Hverdict).
  exists results. split; [exact Hr|]. split; [|split].
  - apply (Hverdict "craigslist" (fun _ _ => Py.Returns [Examples.stored 1]));
      [by left|]. eexists. split; [reflexivity|discriminate].
  - apply (Hverdict "ebay" (fun _ _ => Py.Raises (Py.ExternalError "timeout")));
      [right; by left|]. right. by eexists.
  - destruct (results !! "amazon") eqn:E; [|reflexivity].
    exfalso. assert (Hs : is_Some (results !! "amazon")) by (rewrite E; by eexists).
    apply Hkeys in Hs. cbn in Hs. intuition discriminate.
Defined.

(** ** The database under sequences of calls *)

Section DatabaseCalls.

Import DatabaseManager.

Lemma update_deal_score_ids db i s h :
  List.map l_id (listings (update_deal_score db i s h)) = List.map l_id (listings db).
Proof.
  unfold update_deal_score. cbn [listings]. rewrite List.map_map.
  apply List.map_ext. intros r. by destruct (l_id r =? i).
Qed.

Lemma update_deal_score_urls db i s h :
  List.map l_url (listings (update_deal_score db i s h)) = List.map l_url (listings db).
Proof.
  unfold update_deal_score. cbn [listings]. rewrite List.map_map.
  apply List.map_ext. intros r. by destruct (l_id r =? i).
Qed.

Lemma max_rowid_ge rows r : In r rows -> l_id r <= max_rowid rows.
Proof.
  induction rows as [|r' rows IH]; [done|].
  intros [->|Hin]; cbn [max_rowid fold_right]; [lia|].
  specialize (IH Hin). unfold max_rowid in IH. lia.
Qed.

Lemma Forall_ids (P : Z -> Prop) (rows : list ListingRow) :
  Forall (fun r => P (l_id r)) rows <-> Forall P (List.map l_id rows).
Proof. symmetry. apply List.Forall_map. Qed.

Lemma insert_listing_seq now db L :
  listings_seq (fst (insert_listing now db L)) = next_rowid db.
Proof.
  unfold insert_listing, execute_insert_or_ignore. by destruct (url_taken db (url L)).
Qed.

Lemma insert_listing_others now db L :
  training_data (fst (insert_listing now db L)) = training_data db /\
  notifications (fst (insert_listing now db L)) = notifications db.
Proof.
  unfold insert_listing, execute_insert_or_ignore. by destruct (url_taken db (url L)).
Qed.

Lemma insert_listing_ids now db L :
  ids_increasing db -> ids_increasing (fst (insert_listing now db L)).
Proof.
  intros [Hs Hb]. unfold ids_increasing. rewrite insert_listing_seq.
  assert (Hlt : Forall (fun r => 1 <= l_id r <= next_rowid db) (listings db)).
  { eapply Forall_impl; [exact Hb|]. cbn. intros r Hr. unfold next_rowid. lia. }
  destruct (url_taken db (url L)) eqn:E.
  - destruct (insert_listing_duplicate now db L E) as [-> _]. done.
  - destruct (insert_listing_new now db L E) as (row & _ & Hi & -> & _).
    rewrite map_app. cbn [List.map]. split.
    + apply StronglySorted_app. split; [|split; [done|repeat constructor]].
      intros x1 x2 Hx1 Hx2. apply list_elem_of_In in Hx1.
      apply list_elem_of_In in Hx2. destruct Hx2 as [<-|[]]. rewrite Hi.
      apply in_map_iff in Hx1 as (r & <- & Hr).
      rewrite Forall_forall in Hb. specialize (Hb r (proj2 (list_elem_of_In _ _) Hr)).
      cbn in Hb. unfold next_rowid. lia.
    + apply Forall_app. split; [done|]. apply Forall_singleton. rewrite Hi.
      pose proof (next_rowid_pos db). lia.
Qed.

Lemma update_deal_score_wf db i s h :
  db_wf db -> db_wf (update_deal_score db i s h).
Proof.
  intros [Hu Hi]. split; [by rewrite update_deal_score_urls|].
  apply (Forall_ids (fun i => 1 <= i)). rewrite update_deal_score_ids.
  by apply (Forall_ids (fun i => 1 <= i)).
Qed.

Lemma update_deal_score_increasing db i s h :
  ids_increasing db -> ids_increasing (update_deal_score db i s h).
Proof.
  intros [Hs Hb]. split; [by rewrite update_deal_score_ids|].
  change (listings_seq (update_deal_score db i s h)) with (listings_seq db).
  apply (Forall_ids (fun i => 1 <= i <= listings_seq db)).
  rewrite update_deal_score_ids.
  by apply (Forall_ids (fun i => 1 <= i <= listings_seq db)).
Qed.

Lemma call_wf db c : db_wf db -> db_wf (call db c).
Proof.
  destruct c; cbn [call]; [apply insert_listing_wf|apply update_deal_score_wf|done|done].
Qed.

Lemma call_increasing db c : ids_increasing db -> ids_increasing (call db c).
Proof.
  destruct c; cbn [call];
    [apply insert_listing_ids|apply update_deal_score_increasing|done|done].
Qed.

Lemma calls_invariant db cs :
  db_wf db -> ids_increasing db -> db_wf (calls db cs) /\ ids_increasing (calls db cs).
Proof.
  revert db. induction cs as [|c cs IH]; intros db Hw Hi; [done|].
  cbn [calls fold_left]. apply IH; [by apply call_wf|by apply call_increasing].
Qed.

Lemma init_database_increasing : ids_increasing init_database.
Proof. split; constructor. Qed.

(** X12. Whatever sequence of inserts, score updates, notification records
    and labels is applied to a new database, the stored listings keep
    distinct urls, and their ids are positive, strictly increasing in
    storage order and never above the recorded AUTOINCREMENT sequence: an id
    is never reused. *)
Theorem reachable_database_invariant (cs : list Call) :
  let db := calls init_database cs in
  NoDup (List.map l_url (listings db)) /\
  StronglySorted Z.lt (List.map l_id (listings db)) /\
  Forall (fun r => 1 <= l_id r <= listings_seq db) (listings db).
Proof.
  destruct (calls_invariant init_database cs init_database_wf init_database_increasing)
    as [[Hu _] [Hs Hb]].
  done.
Qed.

(** The part of a listing row that no call rewrites. *)
Local Abbreviation scraped r :=
  (l_id r, l_platform r, l_title r, l_description r, l_price r, l_location r,
   l_seller_name r, l_url r, l_image_urls r, l_condition_keywords r,
   l_scraped_at r, l_is_active r).

Lemma call_grows db c :
  (exists more, List.map (fun r => scraped r) (listings (call db c)) =
                (List.map (fun r => scraped r) (listings db) ++ more)%list) /\
  (exists more, training_data (call db c) = (training_data db ++ more)%list) /\
  (exists more, notifications (call db c) = (notifications db ++ more)%list).
Proof.
  destruct c as [now L|i s h|now i t b|now i g r n]; cbn [call].
  - destruct (insert_listing_others now db L) as [-> ->].
    split; [|split; exists []; by rewrite app_nil_r].
    destruct (url_taken db (url L)) eqn:E.
    + destruct (insert_listing_duplicate now db L E) as [-> _].
      exists []. by rewrite app_nil_r.
    + destruct (insert_listing_new now db L E) as (row & _ & _ & -> & _).
      eexists. by rewrite map_app.
  - split; [|split; exists []; by rewrite app_nil_r].
    exists []. rewrite app_nil_r. unfold update_deal_score. cbn [listings].
    rewrite List.map_map. apply List.map_ext. intros r. by destruct (l_id r =? i).
  - split; [exists []; by rewrite app_nil_r|].
    split; [exists []; by rewrite app_nil_r|]. by eexists.
  - split; [exists []; by rewrite app_nil_r|].
    split; [by eexists|exists []; by rewrite app_nil_r].
Qed.

(** X13. The database only grows. After any sequence of calls the scraped
    fields of the listings stored before are still there, in the same order
    and unchanged (only [deal_score] and [is_hot_deal] are ever rewritten),
    and the label rows and notification records stored before are an
    initial segment of the ones stored after. *)
Theorem database_only_grows (db : DB) (cs : list Call) :
  (exists more, List.map (fun r => scraped r) (listings (calls db cs)) =
                (List.map (fun r => scraped r) (listings db) ++ more)%list) /\
  (exists more, training_data (calls db cs) = (training_data db ++ more)%list) /\
  (exists more, notifications (calls db cs) = (notifications db ++ more)%list).
Proof.
  revert db. induction cs as [|c cs IH]; intros db.
  - repeat split; exists []; by rewrite app_nil_r.
  - cbn [calls fold_left].
    destruct (IH (call db c)) as ((m1 & H1) & (m2 & H2) & (m3 & H3)).
    destruct (call_grows db c) as ((k1 & K1) & (k2 & K2) & (k3 & K3)).
    unfold calls in *. rewrite H1, H2, H3, K1, K2, K3.
    repeat split; eexists; by rewrite <- app_assoc.
Qed.

(** X14. [update_deal_score] with an id that no stored listing has changes
    nothing; this is what happens with the id 0 that a duplicate insert
    returns. *)
Theorem update_deal_score_unknown_id (db : DB) (listing_id : Z) (score : Q)
    (is_hot : bool) :
  ~ In listing_id (List.map l_id (listings db)) ->
  update_deal_score db listing_id score is_hot = db.
Proof.
  intros Hno. unfold update_deal_score. destruct db as [ls sq td ts ns nq].
  cbn [listings listings_seq training_data training_seq notifications
       notifications_seq] in *.
  f_equal. rewrite <- (List.map_id ls) at 2. apply List.map_ext_in.
  intros r Hr. destruct (Z.eqb_spec (l_id r) listing_id) as [E|]; [|done].
  exfalso. apply Hno. rewrite <- E. by apply in_map.
Qed.

Lemma map_update_below (rows : list ListingRow) (i : Z) (s : Q) (h : bool) :
  Forall (fun r => l_id r < i) rows ->
  List.map (fun r =>
       if l_id r =? i then
         mkListingRow (l_id r) (l_platform r) (l_title r) (l_description r)
           (l_price r) (l_location r) (l_seller_name r) (l_url r)
           (l_image_urls r) (l_condition_keywords r) (l_scraped_at r)
           (l_is_active r) (Some s) h
       else r) rows = rows.
Proof.
  induction 1 as [|r rows Hr _ IH]; [done|].
  cbn [List.map]. rewrite IH. destruct (Z.eqb_spec (l_id r) i); [lia|done].
Qed.

(** X15. Insert, then score. In a database reached from a new one, a
    listing with a url not yet stored is inserted under a truthy id, and
    [update_deal_score] with that id sets the score and the hot-deal flag of
    that row and of no other. *)
Theorem insert_then_score (cs : list Call) (now : Z) (L : Listing) (score : Q)
    (is_hot : bool) :
  let db := calls init_database cs in
  url_taken db (url L) = false ->
  exists i row,
    snd (insert_listing now db L) = Py.Returns (Some i) /\
    id_truthy (Some i) = true /\
    listings (update_deal_score (fst (insert_listing now db L)) i score is_hot) =
      (listings db ++ [row])%list /\
    l_url row = url L /\ l_id row = i /\
    l_deal_score row = Some score /\ l_is_hot_deal row = is_hot.
Proof.
  intros db Hfree.
  destruct (calls_invariant init_database cs init_database_wf init_database_increasing)
    as [_ [_ Hb]]. fold db in Hb.
  destruct (insert_listing_new now db L Hfree) as (row & Hu & Hi & Hl & Hr).
  exists (next_rowid db). eexists. split; [exact Hr|]. split.
  { cbn [id_truthy]. pose proof (next_rowid_pos db).
    destruct (Z.eqb_spec (next_rowid db) 0); [lia|done]. }
  split.
  { unfold update_deal_score. cbn [listings]. rewrite Hl, map_app.
    rewrite map_update_below.
    - cbn [List.map]. rewrite Hi, Z.eqb_refl. reflexivity.
    - eapply Forall_impl; [exact Hb|]. cbn. intros r Hr'. unfold next_rowid. lia. }
  cbn. by rewrite Hu.
Qed.

(** X16. For one listing the last score written is the one stored, and
    score updates of different listings can be made in either order. *)
Theorem update_deal_score_last_wins (db : DB) (i j : Z) (s1 s2 : Q) (h1 h2 : bool) :
  update_deal_score (update_deal_score db i s1 h1) i s2 h2 =
    update_deal_score db i s2 h2 /\
  (i <> j ->
   update_deal_score (update_deal_score db i s1 h1) j s2 h2 =
     update_deal_score (update_deal_score db j s2 h2) i s1 h1).
Proof.
  unfold update_deal_score. cbn [listings listings_seq training_data training_seq
    notifications notifications_seq]. split.
  - f_equal. rewrite List.map_map. apply List.map_ext. intros r.
    destruct (l_id r =? i) eqn:E; cbn [l_id]; by rewrite ?E.
  - intros Hne. f_equal. rewrite !List.map_map. apply List.map_ext. intros r.
    destruct (l_id r =? i) eqn:Ei, (l_id r =? j) eqn:Ej; cbn [l_id];
      rewrite ?Ei, ?Ej; try done.
    apply Z.eqb_eq in Ei, Ej. congruence.
Qed.

End DatabaseCalls.

Lemma update_deal_score_unknown_id_witness :
  DatabaseManager.update_deal_score
    (fst (DatabaseManager.insert_listing 10 DatabaseManager.init_database test_listing))
    0 (9 # 10) true =
  fst (DatabaseManager.insert_listing 10 DatabaseManager.init_database test_listing).
Proof.
  apply update_deal_score_unknown_id. cbn. intuition discriminate.
Defined.

Lemma insert_then_score_witness :
  exists i row,
    snd (DatabaseManager.insert_listing 10 DatabaseManager.init_database test_listing) =
      Py.Returns (Some i) /\
    DatabaseManager.id_truthy (Some i) = true /\
    DatabaseManager.listings
      (DatabaseManager.update_deal_score
         (fst (DatabaseManager.insert_listing 10 DatabaseManager.init_database
                 test_listing)) i (9 # 10) true) = [row] /\
    DatabaseManager.l_url row = url test_listing /\
    DatabaseManager.l_id row = i /\
    DatabaseManager.l_deal_score row = Some (9 # 10) /\
    DatabaseManager.l_is_hot_deal row = true.
Proof.
  exact (insert_then_score [] 10 test_listing (9 # 10) true eq_refl).
Defined.

Lemma update_deal_score_last_wins_witness :
  DatabaseManager.update_deal_score
    (DatabaseManager.update_deal_score (Examples.unlabeled_db 2) 1 (1 # 2) false)
    2 (9 # 10) true =
  DatabaseManager.update_deal_score
    (DatabaseManager.update_deal_score (Examples.unlabeled_db 2) 2 (9 # 10) true)
    1 (1 # 2) false.
Proof.
  apply (update_deal_score_last_wins (Examples.unlabeled_db 2) 1 2). discriminate.
Defined.

(** ** Labels and the training query *)

Section TrainingQuery.

Import DatabaseManager.

(** The rows one listing contributes to the training query. *)
Local Abbreviation joined db l :=
  (if priced l then Nat.max 1 (length (labels_of db (l_id l))) else 0%nat).

Lemma filter_joined (l : ListingRow) (ts : list TrainingRow) :
  length (List.filter (fun lt : ListingRow * option TrainingRow => priced (fst lt))
            match ts with
            | [] => [(l, None)]
            | t :: ts' => List.map (fun t => (l, Some t)) (t :: ts')
            end) =
  if priced l then Nat.max 1 (length ts) else 0%nat.
Proof.
  destruct ts as [|t ts]; [cbn; by destruct (priced l)|].
  set (rows := List.map _ _).
  assert (Hlen : length rows = S (length ts)) by (subst rows; by rewrite List.length_map).
  assert (Hall : forall lt, In lt rows -> fst lt = l).
  { subst rows. intros lt Hin. by apply in_map_iff in Hin as (t0 & <- & _). }
  destruct (priced l) eqn:Hp.
  - rewrite List.forallb_filter_id; [rewrite Hlen; cbn [length]; lia|].
    apply forallb_forall. intros lt Hin. by rewrite (Hall lt Hin).
  - replace (List.filter _ rows) with (@nil (ListingRow * option TrainingRow)); [done|].
    symmetry. clear Hlen. induction rows as [|lt rows IH]; [done|].
    cbn [List.filter]. rewrite (Hall lt (or_introl eq_refl)), Hp.
    apply IH. intros lt' Hin. apply Hall. by right.
Qed.

Lemma training_rows_sum (db : DB) (rows : list ListingRow) :
  length (List.filter (fun lt : ListingRow * option TrainingRow => priced (fst lt))
            (flat_map (fun l =>
               match List.filter (fun t => t_listing_id t =? l_id l) (training_data db) with
               | [] => [(l, None)]
               | ts => List.map (fun t => (l, Some t)) ts
               end) rows)) =
  list_sum (List.map (fun l => joined db l) rows).
Proof.
  induction rows as [|l rows IH]; [reflexivity|].
  change (flat_map ?f (l :: rows)) with (f l ++ flat_map f rows)%list.
  rewrite List.filter_app, List.length_app, IH, filter_joined. reflexivity.
Qed.

(** X17. The size of the training query: every listing with a positive
    price appears once per label row that names it, and once, without a
    label, when none does; listings without a positive price and labels of
    unknown listings do not appear. The data frame handed to the model has
    that many rows. *)
Theorem training_rows_count (db : DB) :
  length (training_rows db) =
    list_sum (List.map (fun l => joined db l) (listings db)) /\
  Pandas.len (get_listings_for_training db) = length (training_rows db).
Proof.
  split; [apply training_rows_sum|].
  unfold get_listings_for_training. cbn [Pandas.len Pandas.col_len].
  by rewrite List.length_map.
Qed.

Lemma labels_of_add now db i g r n j :
  labels_of (add_training_label now db i g r n) j =
  (labels_of db j ++
   if i =? j then [mkTrainingRow (training_seq db + 1) i (Some g) r n now] else [])%list.
Proof.
  unfold labels_of, add_training_label. cbn [training_data].
  rewrite List.filter_app. cbn [List.filter t_listing_id]. by destruct (i =? j).
Qed.

Lemma sorted_ids_NoDup (ids : list Z) : StronglySorted Z.lt ids -> NoDup ids.
Proof.
  induction 1 as [|i ids _ IH Hlt]; [constructor|].
  apply NoDup_cons. split; [|done].
  intros Hin. rewrite Forall_forall in Hlt. specialize (Hlt i Hin). lia.
Qed.

Lemma list_sum_cons (x : nat) (xs : list nat) :
  list_sum (x :: xs) = (x + list_sum xs)%nat.
Proof. reflexivity. Qed.

Lemma joined_sum_add now db i g r n (rows : list ListingRow) :
  NoDup (List.map l_id rows) ->
  list_sum (List.map (fun l => joined (add_training_label now db i g r n) l) rows) =
  (list_sum (List.map (fun l => joined db l) rows) +
   if existsb (fun l => (l_id l =? i)%Z && priced l) rows
   then (if labels_of db i is [] then 0 else 1)
   else 0)%nat.
Proof.
  induction rows as [|l rows IH]; [done|].
  cbn [List.map]. rewrite NoDup_cons. intros [Hl Hnd].
  cbn [existsb]. rewrite !list_sum_cons, (IH Hnd), labels_of_add, Z.eqb_sym.
  destruct (Z.eqb_spec (l_id l) i) as [E|E]; cbn [andb orb].
  - assert (Hrest : existsb (fun l0 => (l_id l0 =? i) && priced l0) rows = false).
    { apply not_true_iff_false. intros Hex. apply existsb_exists in Hex as (l' & Hin & Hl').
      apply andb_true_iff in Hl' as [Hid _]. apply Z.eqb_eq in Hid.
      apply Hl. apply list_elem_of_In. rewrite E, <- Hid. by apply in_map. }
    rewrite Hrest, E. destruct (priced l); cbn [orb]; [|lia].
    rewrite List.length_app. cbn [length].
    destruct (labels_of db i) as [|t ts]; cbn [length]; lia.
  - rewrite app_nil_r. lia.
Qed.

(** X18. [add_training_label] never replaces a label. In a database
    reached from a new one, labelling a listing that has a positive price
    and is labelled already adds one more row to the training query;
    labelling it for the first time keeps the number of rows, the listing's
    unlabelled row becoming its labelled one. *)
Theorem relabel_adds_row (cs : list Call) (now : Z) (row : ListingRow)
    (is_good_deal : bool) (user_rating : option Z) (notes : option string) :
  let db := calls init_database cs in
  let db' := add_training_label now db (l_id row) is_good_deal user_rating notes in
  In row (listings db) -> priced row = true ->
  length (labels_of db' (l_id row)) = S (length (labels_of db (l_id row))) /\
  length (training_rows db') =
    (length (training_rows db) +
     if labels_of db (l_id row) is [] then 0 else 1)%nat.
Proof.
  intros db db' Hin Hp. split.
  - subst db'. rewrite labels_of_add, Z.eqb_refl, List.length_app. cbn [length]. lia.
  - destruct (calls_invariant init_database cs init_database_wf
                init_database_increasing) as [_ [Hs _]]. fold db in Hs.
    unfold training_rows, left_join. subst db'.
    rewrite !training_rows_sum.
    change (listings (add_training_label now db (l_id row) is_good_deal user_rating notes))
      with (listings db).
    rewrite (joined_sum_add now db (l_id row) is_good_deal user_rating notes
               (listings db) (sorted_ids_NoDup _ Hs)).
    assert (Hex : existsb (fun l => (l_id l =? l_id row) && priced l) (listings db) = true).
    { apply existsb_exists. exists row. by rewrite Z.eqb_refl, Hp. }
    by rewrite Hex.
Qed.

End TrainingQuery.

Lemma relabel_adds_row_witness :
  let db := DatabaseManager.calls DatabaseManager.init_database
              [DatabaseManager.InsertListing 10 test_listing;
               DatabaseManager.AddTrainingLabel 20 1 true (Some 5) None] in
  length (DatabaseManager.training_rows db) = 1%nat /\
  length (DatabaseManager.training_rows
            (DatabaseManager.add_training_label 30 db 1 false (Some 1) None)) = 2%nat.
Proof.
  intros db. split; [reflexivity|].
  exact (proj2 (relabel_adds_row
                  [DatabaseManager.InsertListing 10 test_listing;
                   DatabaseManager.AddTrainingLabel 20 1 true (Some 5) None]
                  30 _ false (Some 1) None
                  (or_introl eq_refl) eq_refl)).
Defined.

(** ** Saved and loaded models *)

Section ModelArtifacts.

Import DealScoreModel.

(** X19. What [save_model] writes, [load_model] reads back: after a
    successful save, loading into any scorer gives the saved scorer (model,
    scaler and feature columns) and reports success. Saving a scorer
    without a model raises [ValueError] and writes nothing; loading when no
    file exists reports failure and leaves the scorer as it was. *)
Theorem save_load_round_trip (st st0 : State) (files : Files) :
  (is_Some (model st) ->
   exists files',
     save_model st files = (files', Py.Returns tt) /\
     load_model st0 files' = (st, true)) /\
  (model st = None ->
   exists msg, save_model st files = (files, Py.Raises (Py.ValueError msg))) /\
  load_model st0 no_files = (st0, false).
Proof.
  split; [|split].
  - intros [fitted Hm]. destruct st as [m sc cols]. cbn in Hm. subst m.
    eexists. split; reflexivity.
  - intros Hm. unfold save_model. rewrite Hm. by eexists.
  - reflexivity.
Qed.

End ModelArtifacts.

Lemma save_load_round_trip_witness :
  exists files',
    DealScoreModel.save_model Examples.trained_on_test_listing DealScoreModel.no_files =
      (files', Py.Returns tt) /\
    DealScoreModel.load_model DealScoreModel.init files' =
      (Examples.trained_on_test_listing, true).
Proof.
  apply (save_load_round_trip Examples.trained_on_test_listing DealScoreModel.init
           DealScoreModel.no_files).
  eexists. vm_compute. reflexivity.
Defined.

(** ** The columns the synthetic model needs *)

Section EngineeredColumns.

Import Pandas FeatureEngineer DealScoreModel.

Variable ext : External.Lib.

Lemma has_set_own df n c : has_column (set df n c) n = true.
Proof. apply has_column_lookup. rewrite lookup_col_set_eq. by eexists. Qed.

Lemma has_set_other df n m c :
  has_column df n = true -> has_column (set df m c) n = true.
Proof.
  intros H. destruct (string_dec m n) as [->|Hne]; [apply has_set_own|].
  apply has_column_lookup. rewrite lookup_col_set_ne by done.
  by apply has_column_lookup.
Qed.

Ltac has_solve :=
  repeat first [assumption | apply has_set_own | apply has_set_other].

Ltac added_solve :=
  repeat (apply Forall_cons; split; [has_solve|]); apply Forall_nil_2.

(** Every column of [df] is a column of [df']. *)
Local Abbreviation keeps df df' :=
  (forall n, has_column df n = true -> has_column df' n = true).

Lemma text_columns df df' :
  _create_text_features ext df = Py.Returns df' ->
  keeps df df' /\
  Forall (fun n => has_column df' n = true)
    ["title_length"; "title_word_count"; "description_length"; "has_description"].
Proof.
  intros H. unfold _create_text_features in H.
  apply bind_Returns_inv in H as (title & _ & H).
  apply bind_Returns_inv in H as (description & _ & H).
  injection H as <-. split; [intros n Hn; has_solve|added_solve].
Qed.

Lemma condition_columns df df' :
  _create_condition_features ext df = Py.Returns df' ->
  keeps df df' /\
  Forall (fun n => has_column df' n = true)
    ["good_condition_count"; "bad_condition_count"; "condition_score";
     "is_rebuilt"; "is_new"; "needs_work"].
Proof.
  intros H. unfold _create_condition_features in H.
  apply bind_Returns_inv in H as (kw & _ & H).
  apply bind_Returns_inv in H as (parsed & _ & H).
  apply bind_Returns_inv in H as (title & _ & H).
  apply bind_Returns_inv in H as (description & _ & H).
  injection H as <-. split; [intros n Hn; has_solve|added_solve].
Qed.

Lemma location_columns df df' :
  _create_location_features df = Py.Returns df' ->
  keeps df df' /\
  Forall (fun n => has_column df' n = true) ["estimated_distance"; "is_local"].
Proof.
  intros H. unfold _create_location_features in H.
  apply bind_Returns_inv in H as (location & _ & H).
  injection H as <-. split; [intros n Hn; has_solve|added_solve].
Qed.

Lemma platform_loop_keeps (f : option string -> Column) ps df n :
  has_column df n = true ->
  has_column (fold_left (fun df p => set df (platform_column p) (f p)) ps df) n = true.
Proof.
  revert df. induction ps as [|p ps IH]; intros df H; [done|].
  cbn [fold_left]. apply IH. by apply has_set_other.
Qed.

Lemma platform_columns df df' :
  _create_platform_features df = Py.Returns df' ->
  keeps df df' /\
  Forall (fun n => has_column df' n = true) ["platform_reliability"].
Proof.
  intros H. unfold _create_platform_features in H.
  apply bind_Returns_inv in H as (platform & _ & H).
  injection H as <-. split; [|added_solve].
  intros n Hn. apply has_set_other.
  by apply (platform_loop_keeps
              (fun p => NumCol
                 (List.map (fun x => Some (bool_to_int
                                             match p, x with
                                             | Some a, Some b => String.eqb b a
                                             | _, _ => false
                                             end)) platform))).
Qed.

Lemma temporal_columns now0 now1 df df' :
  _create_temporal_features ext now0 now1 df = Py.Returns df' -> keeps df df'.
Proof.
  intros H. unfold _create_temporal_features in H.
  apply bind_Returns_inv in H as (raw & _ & H).
  apply bind_Returns_inv in H as (scraped_at & _ & H).
  injection H as <-. intros n Hn.
  destruct (negb (has_column df "scraped_at")); has_solve.
Qed.

Lemma engine_columns df df' :
  _create_engine_features ext df = Py.Returns df' ->
  keeps df df' /\
  Forall (fun n => has_column df' n = true)
    ["is_lq4"; "is_ls_engine"; "is_chevy"; "is_v8"; "lq4_priority_score";
     "is_complete_engine"].
Proof.
  intros H. unfold _create_engine_features in H.
  apply bind_Returns_inv in H as (title & _ & H).
  apply bind_Returns_inv in H as (description & _ & H).
  apply bind_Returns_inv in H as (f1 & _ & H).
  apply bind_Returns_inv in H as (f2 & _ & H).
  apply bind_Returns_inv in H as (f3 & _ & H).
  apply bind_Returns_inv in H as (f4 & _ & H).
  apply bind_Returns_inv in H as (f5 & _ & H).
  injection H as <-. split; [intros n Hn; has_solve|added_solve].
Qed.

Ltac split_added :=
  repeat match goal with
         | H : Forall _ (_ :: _) |- _ => apply Forall_cons in H as [? H]
         | H : Forall _ [] |- _ => clear H
         end.

Lemma synthetic_columns_present now0 now1 df df' :
  create_features ext now0 now1 df = Py.Returns df' ->
  forall name, In name synthetic_columns -> has_column df' name = true.
Proof.
  intros H. unfold create_features in H.
  apply bind_Returns_inv in H as (price & Hprice & H).
  apply get_num_has_column in Hprice.
  apply bind_Returns_inv in H as (title & _ & H).
  apply bind_Returns_inv in H as (df1 & H1 & H).
  apply text_columns in H1 as [K1 A1].
  apply bind_Returns_inv in H as (df2 & H2 & H).
  apply condition_columns in H2 as [K2 A2].
  apply bind_Returns_inv in H as (df3 & H3 & H).
  apply location_columns in H3 as [K3 A3].
  apply bind_Returns_inv in H as (df4 & H4 & H).
  apply platform_columns in H4 as [K4 A4].
  apply bind_Returns_inv in H as (df5 & H5 & H).
  pose proof (temporal_columns _ _ _ _ H5) as K5.
  apply bind_Returns_inv in H as (df6 & H6 & H).
  apply engine_columns in H6 as [K6 A6].
  injection H as <-. split_added.
  assert (A0 : has_column
                 (set (set df "log_price"
                         (NumCol (List.map (fun p => Some (External.log1p ext (default 0%Q p)))
                                    price)))
                    "price_per_word"
                    (NumCol (map2_num Qdiv price
                               (List.map (fmap (fun n : Q => (n + 1)%Q))
                                  (str_word_count title))))) "price" = true)
    by has_solve.
  assert (A0' : has_column
                 (set (set df "log_price"
                         (NumCol (List.map (fun p => Some (External.log1p ext (default 0%Q p)))
                                    price)))
                    "price_per_word"
                    (NumCol (map2_num Qdiv price
                               (List.map (fmap (fun n : Q => (n + 1)%Q))
                                  (str_word_count title))))) "log_price" = true)
    by has_solve.
  intros name Hin. cbn in Hin.
  repeat (destruct Hin as [<-|Hin];
          [repeat first [assumption | apply K6 | apply K5 | apply K4 | apply K3
                        | apply K2 | apply K1]|]).
  destruct Hin.
Qed.

(** X20. A scorer whose feature columns are those of the synthetic training
    set can score every batch that [create_features] accepts: the 21 columns
    it selects are always among the engineered ones, so the selection never
    raises [KeyError]. *)
Theorem synthetic_columns_always_engineered (now0 now1 : Q) (st : State)
    (df df_features : DataFrame) :
  feature_columns st = Some synthetic_columns ->
  create_features ext now0 now1 df = Py.Returns df_features ->
  (exists X, select df_features synthetic_columns = Py.Returns X /\
             columns X = synthetic_columns) /\
  forall key, predict_deal_scores ext now0 now1 st df <> Py.Raises (Py.KeyError key).
Proof.
  intros Hcols Hfeat.
  destruct (select_present df_features synthetic_columns
              (synthetic_columns_present now0 now1 df df_features Hfeat))
    as (X & HX & HcX & _).
  split; [by exists X|].
  intros key. unfold predict_deal_scores.
  destruct (model st) as [fitted|]; [|done].
  destruct (scaler st) as [fitted_scaler|]; [|done].
  rewrite Hfeat, Hcols. cbn [Py.bind]. rewrite HX. cbn [Py.bind].
  destruct (Sklearn.transform fitted_scaler (fillna0 X)) as [M|msg]; [|done].
  cbn [Py.of_lib Py.bind].
  by destruct (Sklearn.predict fitted M).
Qed.

End EngineeredColumns.

Lemma synthetic_columns_always_engineered_witness :
  exists X,
    Pandas.select
      (match FeatureEngineer.create_features Doubles.ext 0 0
               (frame_of_listings Examples.ebay_only) with
       | Py.Returns df_features => df_features
       | Py.Raises _ => []
       end) DealScoreModel.synthetic_columns = Py.Returns X /\
    Pandas.columns X = DealScoreModel.synthetic_columns.
Proof.
  destruct (FeatureEngineer.create_features Doubles.ext 0 0
              (frame_of_listings Examples.ebay_only)) as [feats|e] eqn:Hfeat;
    [|by vm_compute in Hfeat].
  exact (proj1 (synthetic_columns_always_engineered Doubles.ext 0 0
                  Examples.trained_on_test_listing
                  (frame_of_listings Examples.ebay_only) feats
                  ltac:(vm_compute; reflexivity) Hfeat)).
Defined.

(** ** Range of the synthetic labels and order of the price ranks *)

Lemma rank_arith (lv ev lw ew qn : Q) :
  (0 <= lv)%Q -> (1 <= ev)%Q -> (1 <= ew)%Q ->
  (lv + ev <= lw)%Q -> (lw + ew <= qn)%Q ->
  (0 < (lv + (ev + 1) / 2) / qn)%Q /\
  ((lv + (ev + 1) / 2) / qn < (lw + (ew + 1) / 2) / qn)%Q /\
  ((lw + (ew + 1) / 2) / qn <= 1)%Q.
Proof.
  intros HLv HEv HEw Hvw Hwn.
  change ((ev + 1) / 2)%Q with ((ev + 1) * (1 # 2))%Q.
  change ((ew + 1) / 2)%Q with ((ew + 1) * (1 # 2))%Q.
  assert (Hn : (0 < qn)%Q) by lra.
  assert (Hin : (0 < / qn)%Q) by (by apply Qinv_lt_0_compat).
  split; [|split].
  - apply Qlt_shift_div_l; [done|]. lra.
  - unfold Qdiv. apply Qmult_lt_compat_r; [done|]. lra.
  - apply Qle_shift_div_r; [done|]. lra.
Qed.

Lemma price_term_arith (rv rw : Q) :
  (0 < rv)%Q -> (rv < rw)%Q -> (rw <= 1)%Q ->
  (0 <= 0.3 * (1 - rw))%Q /\
  (0.3 * (1 - rw) < 0.3 * (1 - rv))%Q /\
  (0.3 * (1 - rv) < 0.3)%Q.
Proof. intros H1 H2 H3. repeat split; lra. Qed.

Section LabelRange.

Import Pandas DealScoreModel.

Lemma clip_unit_range (x : option Q) :
  match clip 0 1 x with
  | Some v => (0 <= v <= 1)%Q
  | None => x = None
  end.
Proof. destruct x as [v|]; [apply (clip_score_range v)|done]. Qed.

Lemma valid_label_unit (v : Q) : (0 <= v <= 1)%Q -> valid_label (Some v) = true.
Proof.
  intros [H0 H1]. unfold valid_label.
  destruct (Qlt_le_dec v 0) as [H|_]; [exfalso; by apply (Qlt_not_le v 0)|].
  destruct (Qlt_le_dec 1 v) as [H|_]; [exfalso; by apply (Qlt_not_le 1 v)|].
  done.
Qed.

(** X21. Every label that [_create_synthetic_labels] writes is missing or
    lies in [0, 1], so the validity filter of [prepare_training_data] drops
    a synthetically labelled row only when its label is missing. *)
Theorem synthetic_labels_in_unit_interval (ext : External.Lib) (df df' : DataFrame) :
  _create_synthetic_labels ext df = Py.Returns df' ->
  exists labels,
    get_num df' "deal_score" = Py.Returns labels /\
    Forall (fun y => match y with
                     | Some v => (0 <= v <= 1)%Q
                     | None => True
                     end) labels /\
    Forall (fun y => valid_label y = true <-> y <> None) labels.
Proof.
  intros H. unfold _create_synthetic_labels in H.
  apply bind_Returns_inv in H as (d1 & _ & H).
  apply bind_Returns_inv in H as (d2 & _ & H).
  apply bind_Returns_inv in H as (d3 & _ & H).
  apply bind_Returns_inv in H as (d4 & _ & H).
  apply bind_Returns_inv in H as (d5 & _ & H).
  injection H as <-. eexists. split; [unfold get_num; by rewrite get_set_eq|].
  split; apply List.Forall_map; apply List.Forall_forall; intros x _;
    pose proof (clip_unit_range x) as Hx; destruct (clip 0 1 x) as [v|] eqn:E.
  - exact Hx.
  - exact I.
  - split; [done|]. intros _. by apply valid_label_unit.
  - split; [done|]. intros Hne. by destruct Hne.
Qed.

Lemma filter_disjoint_le {A} (p q r : A -> bool) (l : list A) :
  (forall x, p x = true -> q x = false) ->
  (forall x, p x = true -> r x = true) ->
  (forall x, q x = true -> r x = true) ->
  (length (List.filter p l) + length (List.filter q l) <= length (List.filter r l))%nat.
Proof.
  intros Hpq Hpr Hqr. induction l as [|x l IH]; [done|].
  cbn [List.filter].
  destruct (p x) eqn:Ep; [rewrite (Hpq x Ep), (Hpr x Ep); cbn [length]; lia|].
  destruct (q x) eqn:Eq; [rewrite (Hqr x Eq); cbn [length]; lia|].
  destruct (r x); cbn [length]; lia.
Qed.

Lemma filter_In_pos {A} (p : A -> bool) (l : list A) (x : A) :
  In x l -> p x = true -> (1 <= length (List.filter p l))%nat.
Proof.
  intros Hin Hp. assert (Hf : In x (List.filter p l)) by (by apply filter_In).
  destruct (List.filter p l); [done|cbn [length]; lia].
Qed.

Lemma notna_In (xs : list (option Q)) (v : Q) : In (Some v) xs -> In v (notna xs).
Proof.
  intros H. apply list_elem_of_In. unfold notna. apply list_elem_of_omap.
  exists (Some v). split; [by apply list_elem_of_In|done].
Qed.

Lemma below_dec (v w : Q) :
  (if Qlt_le_dec w v then true else false) = true <-> (w < v)%Q.
Proof.
  destruct (Qlt_le_dec w v) as [H|H]; [done|].
  split; [done|]. intros H'. exfalso. by apply (Qlt_not_le w v).
Qed.

Lemma inject_nat_le (a b : nat) :
  (a <= b)%nat -> (inject_Z (Z.of_nat a) <= inject_Z (Z.of_nat b))%Q.
Proof. intros H. rewrite <- Zle_Qle. lia. Qed.

Lemma inject_nat_nonneg (a : nat) : (0 <= inject_Z (Z.of_nat a))%Q.
Proof. change 0%Q with (inject_Z 0). rewrite <- Zle_Qle. lia. Qed.

Lemma inject_nat_add (a b : nat) :
  (inject_Z (Z.of_nat (a + b)) == inject_Z (Z.of_nat a) + inject_Z (Z.of_nat b))%Q.
Proof. by rewrite Nat2Z.inj_add, inject_Z_plus. Qed.

(** X22. Within one platform's prices, the percentile rank used for the
    price term orders listings by price: of two prices present, the lower
    one has the strictly lower rank, and every rank lies in (0, 1]. The
    price term [0.3 * (1 - rank)] is therefore strictly larger for the
    cheaper listing, at least 0 and below 0.3. *)
Theorem rank_pct_orders_prices (prices : list (option Q)) (v w : Q) :
  In (Some v) prices -> In (Some w) prices -> (v < w)%Q ->
  exists rv rw,
    rank_pct prices (Some v) = Some rv /\
    rank_pct prices (Some w) = Some rw /\
    (0 < rv)%Q /\ (rv < rw)%Q /\ (rw <= 1)%Q /\
    (0 <= 0.3 * (1 - rw))%Q /\
    (0.3 * (1 - rw) < 0.3 * (1 - rv))%Q /\
    (0.3 * (1 - rv) < 0.3)%Q.
Proof.
  intros Hv Hw Hlt. do 2 eexists. split; [reflexivity|]. split; [reflexivity|].
  unfold count_if.
  apply notna_In in Hv, Hw. set (vs := notna prices) in *.
  set (below x := fun y : Q => if Qlt_le_dec y x then true else false).
  set (same x := fun y : Q => Qeq_bool y x).
  set (Lv := length (List.filter (below v) vs)).
  set (Ev := length (List.filter (same v) vs)).
  set (Lw := length (List.filter (below w) vs)).
  set (Ew := length (List.filter (same w) vs)).
  set (n := length (List.filter (fun _ : Q => true) vs)).
  assert (HEv : (1 <= Ev)%nat).
  { apply (filter_In_pos _ _ v Hv). apply Qeq_bool_iff. reflexivity. }
  assert (HEw : (1 <= Ew)%nat).
  { apply (filter_In_pos _ _ w Hw). apply Qeq_bool_iff. reflexivity. }
  assert (Hvw : (Lv + Ev <= Lw)%nat).
  { apply filter_disjoint_le.
    - intros x Hx. apply below_dec in Hx. apply not_true_iff_false.
      intros Hs. apply Qeq_bool_iff in Hs. rewrite Hs in Hx. by apply (Qlt_irrefl v).
    - intros x Hx. apply below_dec in Hx. apply below_dec. by apply (Qlt_trans x v w).
    - intros x Hx. apply Qeq_bool_iff in Hx. apply below_dec. by rewrite Hx. }
  assert (Hwn : (Lw + Ew <= n)%nat).
  { apply filter_disjoint_le; [|done..].
    intros x Hx. apply below_dec in Hx. apply not_true_iff_false.
    intros Hs. apply Qeq_bool_iff in Hs. rewrite Hs in Hx. by apply (Qlt_irrefl w). }
  apply inject_nat_le in HEv, HEw, Hvw, Hwn.
  rewrite inject_nat_add in Hvw, Hwn.
  destruct (rank_arith _ _ _ _ _ (inject_nat_nonneg Lv) HEv HEw Hvw Hwn)
    as (R1 & R2 & R3).
  destruct (price_term_arith _ _ R1 R2 R3) as (P1 & P2 & P3).
  repeat split; assumption.
Qed.

End LabelRange.

Lemma synthetic_labels_in_unit_interval_witness :
  exists labels,
    Pandas.get_num
      (match DealScoreModel._create_synthetic_labels Doubles.ext
               (frame_of_listings Examples.ebay_only) with
       | Py.Returns df' => df'
       | Py.Raises _ => []
       end) "deal_score" = Py.Returns labels /\
    Forall (fun y => match y with
                     | Some v => (0 <= v <= 1)%Q
                     | None => True
                     end) labels.
Proof.
  destruct (DealScoreModel._create_synthetic_labels Doubles.ext
              (frame_of_listings Examples.ebay_only))
    as [df'|e] eqn:H; [|by vm_compute in H].
  destruct (synthetic_labels_in_unit_interval _ _ _ H) as (labels & Hl & Hr & _).
  by exists labels.
Defined.

Lemma rank_pct_orders_prices_witness :
  exists rv rw,
    DealScoreModel.rank_pct [Some 100%Q; Some 450%Q; None] (Some 100%Q) = Some rv /\
    DealScoreModel.rank_pct [Some 100%Q; Some 450%Q; None] (Some 450%Q) = Some rw /\
    (rv < rw)%Q.
Proof.
  destruct (rank_pct_orders_prices [Some 100%Q; Some 450%Q; None] 100 450)
    as (rv & rw & Hv & Hw & _ & Hlt & _).
  - by left.
  - right. by left.
  - reflexivity.
  - by exists rv, rw.
Defined.

(** ** The scraping job *)

Section ScrapingJobFacts.

Import DatabaseManager Notifications JobScheduler ScrapingJob.

Variables (ext : External.Lib) (estimator_len : Sklearn.Regressor -> Py.result nat).
Variables (now : Z) (now0 now1 : Q) (notifiers : gmap string Notifier).

Lemma url_taken_listings db db' u :
  listings db' = listings db -> url_taken db' u = url_taken db u.
Proof. unfold url_taken. by intros ->. Qed.

Lemma url_taken_snoc db db' row u :
  listings db' = (listings db ++ [row])%list ->
  url_taken db' u = url_taken db u || String.eqb (l_url row) u.
Proof.
  unfold url_taken. intros ->. rewrite existsb_app. cbn [existsb].
  by rewrite orb_false_r.
Qed.

(** What the insert loop returns: the listings stored by it, each with the
    id of its row. *)
Lemma insert_new_spec db all_listings :
  exists new_listings more,
    snd (insert_new now db all_listings) = Py.Returns new_listings /\
    listings (fst (insert_new now db all_listings)) = (listings db ++ more)%list /\
    training_data (fst (insert_new now db all_listings)) = training_data db /\
    notifications (fst (insert_new now db all_listings)) = notifications db /\
    Forall2 (fun row l => l_url row = url l /\ id l = Some (l_id row) /\ 1 <= l_id row)
      more new_listings /\
    NoDup (List.map url new_listings) /\
    (forall u, In u (List.map url new_listings) <->
               In u (List.map url all_listings) /\ url_taken db u = false) /\
    (forall l, In l all_listings ->
               url_taken (fst (insert_new now db all_listings)) (url l) = true).
Proof.
  revert db. induction all_listings as [|L rest IH]; intros db.
  - exists [], []. cbn. rewrite app_nil_r.
    do 4 (split; [done|]). split; [constructor|]. split; [apply NoDup_nil_2|].
    split; [intros u; tauto|intros l []].
  - cbn [insert_new].
    destruct (insert_listing_others now db L) as [Ht Hn].
    destruct (url_taken db (url L)) eqn:E.
    + destruct (insert_listing_duplicate now db L E) as [Hl Hr].
      destruct (insert_listing now db L) as [db1 r1]. cbn [fst snd] in *. subst r1.
      destruct (IH db1) as (new & more & Hs & Hls & Htd & Hno & Hf & Hnd & Hiff & Hall).
      destruct (insert_new now db1 rest) as [db2 r2]. cbn [fst snd] in *. subst r2.
      exists new, more. cbn [Py.bind].
      split; [done|]. split; [by rewrite Hls, Hl|]. split; [by rewrite Htd|].
      split; [by rewrite Hno|]. split; [done|]. split; [done|]. split.
      * intros u. rewrite Hiff, (url_taken_listings db db1 u Hl). cbn [List.map In]. split.
        -- intros [H1 H2]. split; [by right|done].
        -- intros [[<-|H1] H2]; [congruence|done].
      * intros l [<-|Hl']; [|by apply Hall].
        unfold url_taken. rewrite Hls, existsb_app.
        change (existsb _ (listings db1)) with (url_taken db1 (url L)).
        by rewrite (url_taken_listings db db1 _ Hl), E.
    + destruct (insert_listing_new now db L E) as (row & Hu & Hi & Hl & Hr).
      destruct (insert_listing now db L) as [db1 r1]. cbn [fst snd] in *. subst r1.
      destruct (IH db1) as (new & more & Hs & Hls & Htd & Hno & Hf & Hnd & Hiff & Hall).
      destruct (insert_new now db1 rest) as [db2 r2]. cbn [fst snd] in *. subst r2.
      exists (set_id L (next_rowid db) :: new), (row :: more).
      cbn [Py.bind id_truthy].
      pose proof (next_rowid_pos db) as Hpos.
      destruct (Z.eqb_spec (next_rowid db) 0) as [|_]; [lia|]. cbn [negb].
      assert (Hfresh : ~ In (url L) (List.map url new)).
      { intros Hin. apply Hiff in Hin as [_ Hin].
        rewrite (url_taken_snoc db db1 row _ Hl), Hu, String.eqb_refl, orb_true_r in Hin.
        done. }
      split; [done|]. split; [by rewrite Hls, Hl, <- app_assoc|].
      split; [by rewrite Htd|]. split; [by rewrite Hno|].
      split; [constructor; [rewrite Hi; split; [done|split; [done|lia]]|done]|].
      split.
      { cbn [List.map]. apply NoDup_cons. split; [|done].
        intros Hin. apply Hfresh. by apply list_elem_of_In. }
      split.
      * intros u. cbn [List.map In]. change (url (set_id L (next_rowid db))) with (url L).
        rewrite Hiff, (url_taken_snoc db db1 row _ Hl), Hu. split.
        -- intros [<-|[H1 H2]]; [split; [by left|done]|].
           apply orb_false_iff in H2 as [H2 _]. split; [by right|done].
        -- intros [[<-|H1] H2]; [by left|].
           destruct (String.eqb_spec (url L) u) as [->|Hne]; [by left|].
           right. split; [done|]. by rewrite H2.
      * intros l [<-|Hl']; [|by apply Hall].
        unfold url_taken. rewrite Hls, existsb_app.
        change (existsb _ (listings db1)) with (url_taken db1 (url L)).
        by rewrite (url_taken_snoc db db1 row _ Hl), Hu, String.eqb_refl, orb_true_r.
Qed.

Lemma url_taken_seen db u :
  url_taken db u = existsb (String.eqb u) (List.map l_url (listings db)).
Proof.
  unfold url_taken. induction (listings db) as [|r rows IH]; [done|].
  cbn [existsb List.map]. by rewrite IH, String.eqb_sym.
Qed.

Lemma insert_listing_row db L :
  url_taken db (url L) = false ->
  exists row,
    listings (fst (insert_listing now db L)) = (listings db ++ [row])%list /\
    l_id row = next_rowid db /\ l_url row = url L /\
    l_platform row = platform L /\ l_title row = title L /\ l_price row = price L /\
    l_scraped_at row = now /\ l_deal_score row = None /\ l_is_hot_deal row = false.
Proof.
  intros H. unfold insert_listing, execute_insert_or_ignore. rewrite H. cbn [fst listings].
  eexists. split; [reflexivity|]. by repeat split.
Qed.

(** The listings kept are the first new ones, and the rows stored are
    theirs. *)
Lemma insert_new_firsts db all_listings :
  exists new_listings more,
    snd (insert_new now db all_listings) = Py.Returns new_listings /\
    listings (fst (insert_new now db all_listings)) = (listings db ++ more)%list /\
    Forall2 (fun l kept => exists i, kept = set_id l i)
      (first_new (List.map l_url (listings db)) all_listings) new_listings /\
    Forall2 (fun l row =>
               l_url row = url l /\ l_platform row = platform l /\
               l_title row = title l /\ l_price row = price l /\
               l_scraped_at row = now /\ l_deal_score row = None /\
               l_is_hot_deal row = false)
      (first_new (List.map l_url (listings db)) all_listings) more.
Proof.
  revert db. induction all_listings as [|L rest IH]; intros db.
  - exists [], []. cbn. rewrite app_nil_r. repeat split; constructor.
  - cbn [insert_new first_new]. rewrite <- url_taken_seen.
    destruct (url_taken db (url L)) eqn:E.
    + destruct (insert_listing_duplicate now db L E) as [Hl Hr].
      destruct (insert_listing now db L) as [db1 r1]. cbn [fst snd] in *. subst r1.
      destruct (IH db1) as (new & more & Hs & Hls & Hk & Hrow).
      destruct (insert_new now db1 rest) as [db2 r2]. cbn [fst snd] in *. subst r2.
      exists new, more. cbn [Py.bind id_truthy Z.eqb negb].
      rewrite Hl in *. by repeat split.
    + destruct (insert_listing_row db L E)
        as (row & Hl & Hi & Hu & Hrest).
      destruct (insert_listing_new now db L E) as (row' & _ & _ & _ & Hr).
      destruct (insert_listing now db L) as [db1 r1]. cbn [fst snd] in *. subst r1.
      destruct (IH db1) as (new & more & Hs & Hls & Hk & Hrow).
      destruct (insert_new now db1 rest) as [db2 r2]. cbn [fst snd] in *. subst r2.
      exists (set_id L (next_rowid db) :: new), (row :: more).
      cbn [Py.bind id_truthy].
      pose proof (next_rowid_pos db) as Hpos.
      destruct (Z.eqb_spec (next_rowid db) 0) as [|_]; [lia|]. cbn [negb].
      rewrite Hl, map_app in *. cbn [List.map] in *. rewrite Hu in *.
      split; [done|]. split; [by rewrite Hls, <- app_assoc|].
      split; constructor; try done. by eexists.
Qed.

(** X23. The insert loop of the scraping job keeps, of the scraped
    listings, the first one for every url that the database did not hold, in
    scraping order. Each kept listing is that scraped listing with its [id]
    set; it is stored as a new row at the end of the table, with its
    platform, title, price and url, the clock reading, no score and no
    hot-deal flag, and the id it carries is that row's id, which is truthy.
    Their urls are distinct; the table grows by as many rows as listings
    are kept; and afterwards every scraped url is stored. Labels and
    notification records are untouched, and the loop does not raise. *)
Theorem insert_new_first_occurrences (db : DB) (all_listings : list Listing) :
  let db' := fst (insert_new now db all_listings) in
  let firsts := first_new (List.map l_url (listings db)) all_listings in
  exists new_listings more,
    snd (insert_new now db all_listings) = Py.Returns new_listings /\
    listings db' = (listings db ++ more)%list /\
    Forall2 (fun l kept => exists i, kept = set_id l i) firsts new_listings /\
    Forall2 (fun l row =>
               l_url row = url l /\ l_platform row = platform l /\
               l_title row = title l /\ l_price row = price l /\
               l_scraped_at row = now /\ l_deal_score row = None /\
               l_is_hot_deal row = false) firsts more /\
    List.map (fun row => Some (l_id row)) more = List.map id new_listings /\
    length (listings db') = (length (listings db) + length new_listings)%nat /\
    Forall (fun l => id_truthy (id l) = true) new_listings /\
    NoDup (List.map url new_listings) /\
    (forall u, In u (List.map url new_listings) <->
               In u (List.map url all_listings) /\ url_taken db u = false) /\
    (forall l, In l all_listings -> url_taken db' (url l) = true) /\
    training_data db' = training_data db /\
    notifications db' = notifications db.
Proof.
  intros db' firsts. subst db' firsts.
  destruct (insert_new_spec db all_listings)
    as (new & more & Hs & Hl & Ht & Hn & Hf & Hnd & Hiff & Hall).
  destruct (insert_new_firsts db all_listings)
    as (new' & more' & Hs' & Hl' & Hkept & Hrows).
  assert (new' = new) by congruence. subst new'.
  assert (more' = more) by (rewrite Hl in Hl'; by apply app_inv_head in Hl').
  subst more'.
  exists new, more. rewrite Hl, List.length_app.
  assert (Hids : List.map (fun row => Some (l_id row)) more = List.map id new /\
                 Forall (fun l => id_truthy (id l) = true) new).
  { clear -Hf. induction Hf as [|row l more new (Hu & Hi & Hpos) _ (IH1 & IH2)];
      [by split|].
    cbn [List.map]. rewrite Hi, IH1. split; [done|]. constructor; [|done].
    rewrite Hi. cbn [id_truthy]. destruct (Z.eqb_spec (l_id row) 0); [lia|done]. }
  destruct Hids as (H1 & H2).
  rewrite (Forall2_length _ _ _ Hf).
  repeat split; try done; by apply Hiff.
Qed.

Lemma insert_new_known db all_listings :
  (forall l, In l all_listings -> url_taken db (url l) = true) ->
  snd (insert_new now db all_listings) = Py.Returns [] /\
  listings (fst (insert_new now db all_listings)) = listings db /\
  training_data (fst (insert_new now db all_listings)) = training_data db /\
  notifications (fst (insert_new now db all_listings)) = notifications db.
Proof.
  intros Hknown.
  destruct (insert_new_spec db all_listings)
    as (new & more & Hs & Hl & Ht & Hn & Hf & _ & Hiff & _).
  destruct new as [|l new].
  - inversion Hf; subst. by rewrite app_nil_r in Hl.
  - exfalso. destruct (proj1 (Hiff (url l)) (or_introl eq_refl)) as [Hin Hfree].
    apply in_map_iff in Hin as (l' & Hu & Hin). rewrite <- Hu in Hfree.
    rewrite (Hknown l' Hin) in Hfree. done.
Qed.

Lemma score_loop_keeps db pairs :
  List.map l_url (listings (fst (score_loop db pairs))) = List.map l_url (listings db) /\
  training_data (fst (score_loop db pairs)) = training_data db /\
  notifications (fst (score_loop db pairs)) = notifications db.
Proof.
  revert db. induction pairs as [|[l s] pairs IH]; intros db; [done|].
  cbn [score_loop]. destruct (id l) as [i|]; [|done].
  destruct (IH (update_deal_score db i s (is_hot s))) as (H1 & H2 & H3).
  destruct (score_loop _ pairs) as [db' r]. cbn [fst] in *.
  by rewrite H1, H2, H3, update_deal_score_urls.
Qed.

Lemma notify_channel_keeps channel deal db :
  listings (fst (notify_channel now notifiers channel deal db)) = listings db /\
  training_data (fst (notify_channel now notifiers channel deal db)) = training_data db.
Proof.
  unfold notify_channel. destruct (notifiers !! channel) as [n|]; [|done].
  destruct (send_hot_deal_alert n deal); [|done]. by destruct (id deal).
Qed.

Lemma send_keeps st deal :
  listings (database (_send_hot_deal_notifications now notifiers st deal)) =
    listings (database st) /\
  scorer (_send_hot_deal_notifications now notifiers st deal) = scorer st /\
  files (_send_hot_deal_notifications now notifiers st deal) = files st.
Proof.
  unfold _send_hot_deal_notifications.
  destruct (notify_channel_keeps "discord" deal (database st)) as [H1 _].
  destruct (notify_channel now notifiers "discord" deal (database st)) as [db1 r1].
  cbn [fst] in H1. destruct r1 as [[]|e].
  - destruct (notify_channel_keeps "email" deal db1) as [H2 _].
    destruct (notify_channel now notifiers "email" deal db1) as [db2 r2].
    cbn [fst] in H2. destruct r2; cbn; by rewrite H2, H1.
  - cbn. by rewrite H1.
Qed.

Lemma notify_hot_deals_keeps hot_deals st :
  listings (database (notify_hot_deals now notifiers st hot_deals)) =
    listings (database st) /\
  scorer (notify_hot_deals now notifiers st hot_deals) = scorer st /\
  files (notify_hot_deals now notifiers st hot_deals) = files st.
Proof.
  revert st. induction hot_deals as [|deal hot_deals IH]; intros st; [done|].
  cbn [notify_hot_deals fold_left].
  destruct (IH (_send_hot_deal_notifications now notifiers st deal)) as (H1 & H2 & H3).
  destruct (send_keeps st deal) as (K1 & K2 & K3).
  unfold notify_hot_deals in *. by rewrite H1, H2, H3, K1, K2, K3.
Qed.

Lemma score_and_notify_urls st listings_ :
  List.map l_url
    (listings (database (_score_and_notify_listings ext estimator_len now now0 now1
                           notifiers st listings_))) =
  List.map l_url (listings (database st)).
Proof.
  unfold _score_and_notify_listings.
  destruct (model_missing estimator_len _) as [missing|e]; [|done].
  destruct (if missing then _ else _) as [scorer1 available].
  destruct available; cbn [negb]; [|done].
  destruct (DealScoreModel.predict_deal_scores _ _ _ _ _) as [scores|e]; [|done].
  destruct (score_loop_keeps (database st) (List.combine listings_ scores)) as (H1 & _).
  cbn [database]. destruct (score_loop _ _) as [db r]. cbn [fst] in H1.
  destruct r as [hot|e]; [|done].
  match goal with
  | |- context [notify_hot_deals now notifiers ?s hot] =>
      destruct (notify_hot_deals_keeps hot s) as (K1 & _)
  end.
  by rewrite K1.
Qed.

Lemma scraping_job_known_db (SEARCH_TERMS : list string)
    (MAX_PAGES_PER_SITE : Z) (scrapers : ScraperManager.Scrapers) (st : State) :
  (forall l,
     In l (concat (List.map (ScraperManager.contribution SEARCH_TERMS MAX_PAGES_PER_SITE)
                     scrapers)) ->
     url_taken (database st) (url l) = true) ->
  exists db records,
    _run_scraping_job ext estimator_len SEARCH_TERMS MAX_PAGES_PER_SITE
      scrapers now now0 now1 notifiers st =
      mkState db (scorer st) (files st) (log st ++ records)%list /\
    listings db = listings (database st) /\
    training_data db = training_data (database st) /\
    notifications db = notifications (database st).
Proof.
  intros Hknown. unfold _run_scraping_job.
  cbn [ScraperManager.scrape_all_platforms ScraperManager.all_listings].
  rewrite (scrape_loop_listings SEARCH_TERMS MAX_PAGES_PER_SITE scrapers
             (ScraperManager.mkState [] [] [])).
  cbn [ScraperManager.all_listings app].
  destruct (concat _) as [|l all] eqn:Hall.
  - exists (database st). eexists. unfold log_to. cbn [database scorer files log].
    rewrite <- app_assoc. split; [reflexivity|done].
  - cbn [log_to database scorer files log].
    destruct (insert_new_known (database st) (l :: all) Hknown) as (Hs & Hl & Ht & Hn).
    destruct (insert_new now (database st) (l :: all)) as [db r].
    cbn [fst snd] in *. subst r. exists db. eexists.
    unfold log_to. cbn [database scorer files log]. rewrite <- !app_assoc.
    split; [reflexivity|]. by rewrite Hl, Ht, Hn.
Qed.

(** X24. A scraping job whose scraped listings are all stored already
    inserts nothing, scores nothing and sends nothing: the listings, the
    labels, the notification log, the scorer and the model files are as
    before, whatever the model and the notifiers are; the job only writes
    to its log. *)
Theorem scraping_job_skips_known_listings (SEARCH_TERMS : list string)
    (MAX_PAGES_PER_SITE : Z) (scrapers : ScraperManager.Scrapers) (st : State) :
  (forall l,
     In l (concat (List.map (ScraperManager.contribution SEARCH_TERMS MAX_PAGES_PER_SITE)
                     scrapers)) ->
     url_taken (database st) (url l) = true) ->
  let st' := _run_scraping_job ext estimator_len SEARCH_TERMS MAX_PAGES_PER_SITE
               scrapers now now0 now1 notifiers st in
  listings (database st') = listings (database st) /\
  training_data (database st') = training_data (database st) /\
  notifications (database st') = notifications (database st) /\
  scorer st' = scorer st /\ files st' = files st /\
  exists records, log st' = (log st ++ records)%list.
Proof.
  intros Hknown st'.
  destruct (scraping_job_known_db SEARCH_TERMS MAX_PAGES_PER_SITE scrapers st Hknown)
    as (db & records & Hjob & Hl & Ht & Hn).
  subst st'. rewrite Hjob. cbn [database scorer files log].
  repeat split; try done. by exists records.
Qed.

(** X25. Running the scraping job a second time over the same scraped
    listings adds no listing and no notification record: every url scraped
    is stored by the first run, so the second run finds nothing new. *)
Theorem scraping_job_twice (SEARCH_TERMS : list string) (MAX_PAGES_PER_SITE : Z)
    (scrapers : ScraperManager.Scrapers) (st : State) :
  let job := _run_scraping_job ext estimator_len SEARCH_TERMS MAX_PAGES_PER_SITE
               scrapers now now0 now1 notifiers in
  listings (database (job (job st))) = listings (database (job st)) /\
  notifications (database (job (job st))) = notifications (database (job st)) /\
  scorer (job (job st)) = scorer (job st).
Proof.
  intros job.
  assert (Hknown : forall l,
            In l (concat (List.map (ScraperManager.contribution SEARCH_TERMS
                                      MAX_PAGES_PER_SITE) scrapers)) ->
            url_taken (database (job st)) (url l) = true).
  { intros l Hin. subst job. unfold _run_scraping_job.
    cbn [ScraperManager.scrape_all_platforms ScraperManager.all_listings].
    rewrite (scrape_loop_listings SEARCH_TERMS MAX_PAGES_PER_SITE scrapers
               (ScraperManager.mkState [] [] [])).
    cbn [ScraperManager.all_listings app].
    destruct (concat _) as [|l0 all] eqn:Hall; [done|].
    cbn [log_to database scorer files log].
    destruct (insert_new_spec (database st) (l0 :: all))
      as (new & more & Hs & _ & _ & _ & _ & _ & _ & Hstored).
    specialize (Hstored l Hin).
    destruct (insert_new now (database st) (l0 :: all)) as [db r].
    cbn [fst snd] in *. subst r.
    apply url_taken_In in Hstored. apply url_taken_In.
    destruct new as [|n new]; [exact Hstored|].
    by rewrite score_and_notify_urls. }
  destruct (scraping_job_known_db SEARCH_TERMS MAX_PAGES_PER_SITE scrapers (job st) Hknown)
    as (db & records & Hjob & Hl & _ & Hn).
  fold job in Hjob. rewrite Hjob. by cbn [database scorer].
Qed.

Lemma score_loop_hot db pairs db' hot_deals :
  score_loop db pairs = (db', Py.Returns hot_deals) ->
  hot_deals =
    List.map (fun ls => mark_hot (fst ls) (snd ls))
      (List.filter (fun ls => is_hot (snd ls)) pairs).
Proof.
  revert db db' hot_deals. induction pairs as [|[l s] pairs IH]; intros db db' hot.
  - by intros [= _ <-].
  - cbn [score_loop]. destruct (id l) as [i|]; [|done].
    destruct (score_loop _ pairs) as [db2 r] eqn:E.
    destruct r as [hot'|e]; [|done]. cbn [Py.bind]. intros [= _ <-].
    rewrite (IH _ _ _ E). cbn [List.filter snd fst]. by destruct (is_hot s).
Qed.

(** X26. The scoring loop of the scheduler flags a listing as a hot deal
    exactly when its score is at least 0.8: the hot deals handed to the
    notifiers are the listings whose score reaches the threshold, in batch
    order, each carrying that score; a listing below the threshold is never
    among them. *)
Theorem hot_deals_reach_threshold (db db' : DB) (pairs : list (Listing * Q))
    (hot_deals : list Listing) :
  score_loop db pairs = (db', Py.Returns hot_deals) ->
  hot_deals =
    List.map (fun ls => mark_hot (fst ls) (snd ls))
      (List.filter (fun ls => is_hot (snd ls)) pairs) /\
  Forall (fun deal => exists s, deal_score deal = Some s /\ (8 # 10 <= s)%Q /\
                                is_hot_deal deal = Some true) hot_deals /\
  (forall l s, In (l, s) pairs -> (s < 8 # 10)%Q -> ~ In (mark_hot l s) hot_deals).
Proof.
  intros H. apply score_loop_hot in H. split; [exact H|]. subst hot_deals. split.
  - apply List.Forall_map. apply List.Forall_forall. intros [l s] Hin.
    apply filter_In in Hin as [_ Hhot]. cbn [snd fst] in *.
    exists s. split; [done|]. split; [|done].
    unfold is_hot in Hhot. destruct (Qlt_le_dec s Config.HOT_DEAL_THRESHOLD); [done|].
    unfold Config.HOT_DEAL_THRESHOLD in *. lra.
  - intros l s _ Hlow Hin. apply in_map_iff in Hin as ([l' s'] & Heq & Hin).
    apply filter_In in Hin as [_ Hhot]. cbn [snd fst] in *.
    assert (s' = s) by (by injection Heq). subst s'.
    unfold is_hot in Hhot. destruct (Qlt_le_dec s Config.HOT_DEAL_THRESHOLD); [done|].
    unfold Config.HOT_DEAL_THRESHOLD in *. lra.
Qed.

End ScrapingJobFacts.

Lemma scraping_job_skips_known_listings_witness :
  let st := Examples.scheduler_on (Examples.unlabeled_db 5) in
  let st' := ScrapingJob._run_scraping_job Doubles.ext (fun _ => Py.Ok 100%nat)
               ["LS engine"] 5 Examples.adapters 0 0 0 Scenario.both_channels st in
  DatabaseManager.listings (JobScheduler.database st') =
    DatabaseManager.listings (JobScheduler.database st) /\
  DatabaseManager.notifications (JobScheduler.database st') = [].
Proof.
  intros st st'.
  destruct (scraping_job_skips_known_listings Doubles.ext (fun _ => Py.Ok 100%nat)
              0 0 0 Scenario.both_channels ["LS engine"] 5 Examples.adapters st)
    as (H1 & _ & H3 & _).
  - intros l Hin. vm_compute in Hin.
    destruct Hin as [<-|[<-|[<-|[]]]]; vm_compute; reflexivity.
  - split; [exact H1|]. fold st' in H3. rewrite H3. reflexivity.
Defined.

Lemma hot_deals_reach_threshold_witness :
  snd (ScrapingJob.score_loop
         (fst (ScrapingJob.insert_new 0 DatabaseManager.init_database
                 [Examples.stored 1; Examples.stored 2]))
         [(set_id (Examples.stored 1) 1, 9 # 10); (set_id (Examples.stored 2) 2, 1 # 2)]) =
  Py.Returns [ScrapingJob.mark_hot (set_id (Examples.stored 1) 1) (9 # 10)].
Proof.
  match goal with
  | |- snd ?call = _ =>
      destruct call as [db' r] eqn:E;
      destruct r as [hot|e]; [|by vm_compute in E]
  end.
  destruct (hot_deals_reach_threshold _ _ _ _ E) as [-> _]. reflexivity.
Defined.

(** ** Notifications from the command line *)

Section MainNotifications.

Import DatabaseManager Notifications JobScheduler Main.

Variable now : Z.

Lemma notify_one_logs deal db log entry :
  exists rows,
    notifications (fst (notify_one now deal (db, log) entry)) =
      (notifications db ++ rows)%list /\
    log_entries rows = entry_of deal entry.
Proof.
  destruct entry as [name notifier]. unfold notify_one, entry_of.
  destruct (String.eqb name "discord") eqn:Ed; cbn [orb].
  - destruct (send_hot_deal_alert notifier deal) as [success|e];
      destruct (id deal) as [i|];
      try (exists []; by rewrite app_nil_r); by eexists [_].
  - destruct (String.eqb name "email") eqn:Ee.
    + destruct (send_hot_deal_alert notifier deal) as [success|e];
        destruct (id deal) as [i|];
        try (exists []; by rewrite app_nil_r); by eexists [_].
    + destruct (id deal) as [i|]; [by eexists [_]|exists []; by rewrite app_nil_r].
Qed.

Lemma notify_deal_logs deal notifiers db log :
  exists rows,
    notifications (fst (fold_left (notify_one now deal) notifiers (db, log))) =
      (notifications db ++ rows)%list /\
    log_entries rows = concat (List.map (entry_of deal) notifiers).
Proof.
  revert db log. induction notifiers as [|entry notifiers IH]; intros db log.
  - exists []. by rewrite app_nil_r.
  - cbn [fold_left List.map concat].
    destruct (notify_one_logs deal db log entry) as (rows1 & E1 & H1).
    destruct (notify_one now deal (db, log) entry) as [db1 log1]. cbn [fst] in E1.
    destruct (IH db1 log1) as (rows2 & E2 & H2).
    exists (rows1 ++ rows2)%list. split; [by rewrite E2, E1, app_assoc|].
    unfold log_entries in *. by rewrite map_app, H1, H2.
Qed.

(** X27. [score_listings] of main.py isolates every notifier: for each hot
    deal, in order, every notifier of the dictionary is tried, a notifier
    that raises leaves no record and does not stop the ones after it, one
    that answers leaves a record with its own flag, and a notifier under
    another name than discord or email is recorded as failed without being
    called. *)
Theorem score_listings_isolates_notifiers (notifiers : list (string * Notifier))
    (hot_deals : list Listing) (db : DB) (log : list LogRecord) :
  exists rows,
    notifications (fst (notify_all now notifiers (db, log) hot_deals)) =
      (notifications db ++ rows)%list /\
    log_entries rows =
      concat (List.map (fun deal => concat (List.map (entry_of deal) notifiers))
                hot_deals).
Proof.
  revert db log. induction hot_deals as [|deal hot_deals IH]; intros db log.
  - exists []. by rewrite app_nil_r.
  - unfold notify_all in *. cbn [fold_left List.map concat].
    destruct (notify_deal_logs deal notifiers db log) as (rows1 & E1 & H1).
    destruct (fold_left (notify_one now deal) notifiers (db, log)) as [db1 log1].
    cbn [fst] in E1.
    destruct (IH db1 log1) as (rows2 & E2 & H2).
    exists (rows1 ++ rows2)%list. split; [by rewrite E2, E1, app_assoc|].
    unfold log_entries in *. by rewrite map_app, H1, H2.
Qed.

End MainNotifications.

(** ** The scorer after training *)

Section TrainedScorer.

Import Pandas DealScoreModel.

Variables (ext : External.Lib) (sk : Sklearn.Lib).

Lemma fit_on_ready st training st' metrics :
  fit_on sk st training = (st', Py.Returns metrics) ->
  exists fitted fitted_scaler,
    st' = mkState (Some fitted) (Some fitted_scaler) (Some (snd training)).
Proof.
  unfold fit_on. destruct training as [[X y] cols].
  destruct (Sklearn.train_test_split sk X y) as [[[X_train X_test] y_train] y_test].
  destruct (Sklearn.fit_transform sk X_train) as [[fitted_scaler X_train_scaled]|]; [|done].
  destruct (Sklearn.transform fitted_scaler X_test); [|done].
  destruct (Sklearn.fit sk X_train_scaled y_train) as [fitted|]; [|done].
  intros [= <- _]. by exists fitted, fitted_scaler.
Qed.

(** X28. A training that succeeds leaves a complete scorer: model, scaler
    and feature columns are all set. Such a scorer can be saved, loading
    the saved files into a new scorer gives it back, and
    [predict_deal_scores] never answers that the model is not trained. *)
Theorem trained_scorer_is_ready (now0 now1 : Q) (st st' : State) (df : DataFrame)
    (metrics : Sklearn.Metrics) (files : Files) :
  train_model ext sk now0 now1 st df = (st', Py.Returns metrics) ->
  (exists fitted fitted_scaler cols,
     st' = mkState (Some fitted) (Some fitted_scaler) (Some cols)) /\
  (exists files',
     save_model st' files = (files', Py.Returns tt) /\
     load_model init files' = (st', true)) /\
  (forall n0 n1 batch,
     predict_deal_scores ext n0 n1 st' batch <>
       Py.Raises (Py.ValueError untrained_message)).
Proof.
  intros H. unfold train_model in H.
  destruct (prepare_training_data ext now0 now1 df) as [prepared|e]; [|done].
  apply fit_on_ready in H as (fitted & fitted_scaler & ->).
  split; [by do 3 eexists|]. split; [eexists; split; reflexivity|].
  intros n0 n1 batch.
  rewrite (predict_loaded ext n0 n1
             (mkState (Some fitted) (Some fitted_scaler) (Some (snd (training_set ext prepared))))
             batch fitted fitted_scaler eq_refl eq_refl).
  apply nve_bind; [apply nve_create_features|]. intros feats.
  cbn [feature_columns].
  repeat first [ apply nve_returns | apply nve_of_lib | apply nve_select
               | apply nve_bind; [|intros ?] ].
Qed.

(** X29. A training that fails while fitting the scaler does not leave the
    scorer as it was: the feature columns are those of the failed training
    and the scaler is a new, unfitted one, while the model is the old one.
    A scorer that could predict before then fails on every batch that
    reaches the scaler. *)
Theorem failed_scaling_breaks_scorer (st : State) (X : DataFrame)
    (y : list (option Q)) (cols : list string) (msg : string) :
  Sklearn.fit_transform sk (Sklearn.train_test_split sk X y).1.1.1 = Py.Failed msg ->
  let st' := fst (fit_on sk st (X, y, cols)) in
  fit_on sk st (X, y, cols) =
    (mkState (model st) (Some unfitted_scaler) (Some cols),
     Py.Raises (Py.ExternalError msg)) /\
  (forall now0 now1 batch feats selected,
     is_Some (model st) ->
     FeatureEngineer.create_features ext now0 now1 batch = Py.Returns feats ->
     select feats cols = Py.Returns selected ->
     predict_deal_scores ext now0 now1 st' batch =
       Py.Raises (Py.ExternalError "NotFittedError")).
Proof.
  intros Hfail st'. subst st'. unfold fit_on.
  destruct (Sklearn.train_test_split sk X y) as [[[X_train X_test] y_train] y_test].
  cbn [fst] in Hfail. rewrite Hfail. cbn [model scaler feature_columns fst].
  split; [reflexivity|].
  intros now0 now1 batch feats selected [fitted Hm] Hfeat Hsel.
  unfold predict_deal_scores. cbn [model scaler feature_columns].
  rewrite Hm, Hfeat. cbn [Py.bind]. rewrite Hsel. reflexivity.
Qed.

Lemma columns_fillna0 (df : DataFrame) : columns (fillna0 df) = columns df.
Proof. unfold fillna0, columns. rewrite List.map_map. by apply List.map_ext. Qed.

Lemma columns_mask_rows mask (df : DataFrame) : columns (mask_rows mask df) = columns df.
Proof. unfold mask_rows, columns. rewrite List.map_map. by apply List.map_ext. Qed.

(** X30. The features that [prepare_training_data] returns never include a
    column of the exclusion list: not the listing id, the texts or the url,
    and not [deal_score], the label itself. The feature frame has the
    recorded feature columns, in order, and one row per label kept. *)
Theorem features_exclude_label_and_text (n : nat) (now0 now1 : Q) (df X : DataFrame)
    (y : list (option Q)) (cols : list string) :
  rect n df ->
  prepare_training_data ext now0 now1 df = Py.Returns (X, y, cols) ->
  columns X = cols /\
  (forall c, In c cols -> ~ In c exclude_cols) /\
  ~ In "deal_score" cols /\
  len X = length y.
Proof.
  intros Hdf H.
  destruct (prepare_rows ext n now0 now1 df X y cols Hdf H) as (labels & _ & Hy & HX).
  unfold prepare_training_data in H.
  apply bind_Returns_inv in H as (feats & _ & H).
  apply bind_Returns_inv in H as (feats' & _ & H).
  apply bind_Returns_inv in H as (X0 & HX0 & H).
  apply bind_Returns_inv in H as (y0 & _ & H).
  set (fc := List.filter (fun col => negb (str_mem col exclude_cols)) (columns feats')) in *.
  assert (HXeq : mask_rows (List.map valid_label y0) (fillna0 X0) = X) by congruence.
  assert (Hcols : fc = cols) by congruence.
  clear H.
  assert (Hex : forall c, In c cols -> ~ In c exclude_cols).
  { intros c Hc Hin. rewrite <- Hcols in Hc. apply filter_In in Hc as [_ Hc].
    apply negb_true_iff in Hc. apply not_true_iff_false in Hc. apply Hc.
    unfold str_mem. apply existsb_exists. exists c. by rewrite String.eqb_refl. }
  split; [|split; [exact Hex|split]].
  - rewrite <- HXeq, columns_mask_rows, columns_fillna0, <- Hcols.
    by apply select_columns in HX0.
  - intros Hin. apply (Hex _ Hin). cbn. tauto.
  - rewrite HX, Hy. reflexivity.
Qed.

End TrainedScorer.

Lemma trained_scorer_is_ready_witness :
  exists fitted fitted_scaler cols,
    Examples.trained_on_test_listing =
      DealScoreModel.mkState (Some fitted) (Some fitted_scaler) (Some cols).
Proof.
  destruct (DealScoreModel.train_model Doubles.ext Doubles.sk 0 0 DealScoreModel.init
              (frame_of_listings [test_listing])) as [st' r] eqn:E.
  destruct r as [metrics|e]; [|by vm_compute in E].
  replace Examples.trained_on_test_listing with st'
    by (unfold Examples.trained_on_test_listing; by rewrite E).
  exact (proj1 (trained_scorer_is_ready Doubles.ext Doubles.sk 0 0 DealScoreModel.init
                  st' (frame_of_listings [test_listing]) metrics
                  DealScoreModel.no_files E)).
Defined.

Lemma failed_scaling_breaks_scorer_witness :
  let sk := Sklearn.mkLib (fun X y => (X, X, y, y))
              (fun _ => Py.Failed "could not convert string to float")
              (fun _ _ => Py.Ok Doubles.regressor)
              (fun _ _ _ _ _ => Py.Ok Doubles.metrics) in
  DealScoreModel.predict_deal_scores Doubles.ext 0 0
    (fst (DealScoreModel.fit_on sk Examples.trained_on_test_listing
            ([("price", Pandas.NumCol [Some 1500%Q])], [Some 1%Q], ["price"])))
    (frame_of_listings Examples.ebay_only) =
  Py.Raises (Py.ExternalError "NotFittedError").
Proof.
  intros sk.
  destruct (FeatureEngineer.create_features Doubles.ext 0 0
              (frame_of_listings Examples.ebay_only)) as [feats|e] eqn:Hfeat;
    [|by vm_compute in Hfeat].
  destruct (Pandas.select feats ["price"]) as [selected|e] eqn:Hsel.
  - apply (proj2 (failed_scaling_breaks_scorer Doubles.ext sk
                    Examples.trained_on_test_listing
                    [("price", Pandas.NumCol [Some 1500%Q])] [Some 1%Q] ["price"]
                    "could not convert string to float" eq_refl)
             0%Q 0%Q (frame_of_listings Examples.ebay_only) feats selected);
      [eexists; vm_compute; reflexivity|exact Hfeat|exact Hsel].
  - exfalso. vm_compute in Hfeat. injection Hfeat as <-. by vm_compute in Hsel.
Defined.

Lemma features_exclude_label_and_text_witness :
  exists X y cols,
    DealScoreModel.prepare_training_data Doubles.ext 0 0
      (frame_of_listings Examples.two_platforms) = Py.Returns (X, y, cols) /\
    ~ In "deal_score" cols /\ Pandas.len X = length y.
Proof.
  destruct (DealScoreModel.prepare_training_data Doubles.ext 0 0
              (frame_of_listings Examples.two_platforms)) as [[[X y] cols]|e] eqn:E;
    [|by vm_compute in E].
  exists X, y, cols. split; [reflexivity|].
  destruct (features_exclude_label_and_text Doubles.ext 10 0 0
              (frame_of_listings Examples.two_platforms) X y cols
              (rect_frame_of_listings Examples.two_platforms) E)
    as (_ & _ & Hno & Hlen).
  by split.
Defined.
